(** * Bank customer-service chatbot: a shallow embedding of the backend core

    The development follows the Python sources under [src/backend]:
    [security.py], [intent_classifier.py], [customer_data.py],
    [response_handler.py], [config.py] and [conversation.py], and the
    pure functions of [validators.py], [audit_logger.py] and [app.py].

    Modelling conventions.
    - A Python [str] is a [string], the UTF-8 bytes of the text.  The
      character classes, [lower], [upper] and the length are those Python
      gives to ASCII text: the messages of the user and the records of the
      directory are taken to be ASCII.  The response literals hold a few
      characters outside ASCII; responses are only lower-cased, searched
      for ASCII keywords and compared, which those bytes do not affect.
    - A Python [int] is a [Z]; the confidence, an [int / int] true division,
      is the exact rational [Q].
    - An exception is [None] in an [option] result.
    - The audit logger only writes to a log: its calls are left out, its
      two redaction functions are modelled. *)

From Stdlib Require Import ZArith QArith Bool List Ascii String Lia.
From Stdlib Require Import DecimalString.
From stdpp Require Import base option gmap strings.
Import ListNotations.

Local Open Scope string_scope.
Local Open Scope Z_scope.
Local Open Scope list_scope.

(** ** Python string primitives *)

Module Py.

Definition code (c : ascii) : N := N_of_ascii c.

Definition newline : ascii := ascii_of_N 10.
Definition nl : string := String newline EmptyString.

(** [str.isspace] on one ASCII character: TAB, LF, VT, FF, CR, the four
    separators FS, GS, RS, US and the blank. *)
Definition isspace (c : ascii) : bool :=
  let n := code c in
  ((9 <=? n) && (n <=? 13) || (28 <=? n) && (n <=? 32))%N.

Definition is_upper (c : ascii) : bool :=
  let n := code c in ((65 <=? n) && (n <=? 90))%N.

Definition is_lower (c : ascii) : bool :=
  let n := code c in ((97 <=? n) && (n <=? 122))%N.

(** [\d] *)
Definition is_digit (c : ascii) : bool :=
  let n := code c in ((48 <=? n) && (n <=? 57))%N.

(** [\w] *)
Definition is_word (c : ascii) : bool :=
  is_upper c || is_lower c || is_digit c || (code c =? 95)%N.

Definition lower_char (c : ascii) : ascii :=
  if is_upper c then ascii_of_N (code c + 32) else c.

Definition upper_char (c : ascii) : ascii :=
  if is_lower c then ascii_of_N (code c - 32) else c.

Fixpoint map_chars (f : ascii -> ascii) (s : string) : string :=
  match s with
  | EmptyString => EmptyString
  | String c s' => String (f c) (map_chars f s')
  end.

(** [s.lower()] and [s.upper()] *)
Definition lower : string -> string := map_chars lower_char.
Definition upper : string -> string := map_chars upper_char.

(** [len(s)] *)
Definition len (s : string) : Z := Z.of_nat (String.length s).

(** [s.startswith(p)] *)
Fixpoint startswith (p s : string) : bool :=
  match p, s with
  | EmptyString, _ => true
  | String a p', String b s' => Ascii.eqb a b && startswith p' s'
  | String _ _, EmptyString => false
  end.

(** [needle in hay] *)
Fixpoint contains (needle hay : string) : bool :=
  startswith needle hay ||
  match hay with
  | EmptyString => false
  | String _ hay' => contains needle hay'
  end.

Fixpoint lstrip (s : string) : string :=
  match s with
  | EmptyString => EmptyString
  | String c s' => if isspace c then lstrip s' else s
  end.

Fixpoint rstrip (s : string) : string :=
  match s with
  | EmptyString => EmptyString
  | String c s' =>
      match rstrip s' with
      | EmptyString => if isspace c then EmptyString else String c EmptyString
      | r => String c r
      end
  end.

(** [s.strip()] *)
Definition strip (s : string) : string := rstrip (lstrip s).

(** [s.replace(a, b)] for one-character [a] and [b] *)
Definition replace_char (a b : ascii) (s : string) : string :=
  map_chars (fun c => if Ascii.eqb c a then b else c) s.

(** [s.split(sep)] for a one-character separator *)
Fixpoint split_on (sep : ascii) (s : string) : list string :=
  match s with
  | EmptyString => [EmptyString]
  | String c s' =>
      if Ascii.eqb c sep then EmptyString :: split_on sep s'
      else match split_on sep s' with
           | h :: t => String c h :: t
           | [] => [String c EmptyString]
           end
  end.

(** [s.split()]: the maximal runs of non-blank characters *)
Fixpoint split (s : string) : list string :=
  match s with
  | EmptyString => []
  | String c s' =>
      if isspace c then split s'
      else match s' with
           | EmptyString => [String c EmptyString]
           | String c' _ =>
               if isspace c' then String c EmptyString :: split s'
               else match split s' with
                    | h :: t => String c h :: t
                    | [] => [String c EmptyString]
                    end
           end
  end.

(** [sep.join(l)] *)
Fixpoint join (sep : string) (l : list string) : string :=
  match l with
  | [] => EmptyString
  | [x] => x
  | x :: l' => x +:+ sep +:+ join sep l'
  end.

(** [str(n)] for an integer *)
Definition str_of_int (n : Z) : string :=
  NilEmpty.string_of_int (Z.to_int n).

(** Truth value of an optional string: [None] and the empty string are
    false. *)
Definition truthy (o : option string) : bool :=
  match o with
  | Some (String _ _) => true
  | _ => false
  end.

(** [a or b] on optional strings *)
Definition or_else (a b : option string) : option string :=
  if truthy a then a else b.

(** An optional value inside an f-string: [None] prints as the word. *)
Definition fmt (o : option string) : string :=
  match o with
  | Some s => s
  | None => "None"
  end.

End Py.

(** ** The fragment of Python's [re] the sources use

    A backtracking matcher in continuation-passing style.  The continuation
    receives the character before the current position, the rest of the
    input and the text of group 1 so far; alternatives are tried in the
    order of Python's engine and the first success wins. *)

Module Re.

Inductive regex : Type :=
| Eps                              (* the empty pattern *)
| Lit (c : ascii)                  (* a literal character *)
| Cls (p : ascii -> bool)          (* a character class, \s, \d, [^,\n] *)
| Cat (r1 r2 : regex)              (* r1 r2 *)
| Alt (r1 r2 : regex)              (* r1|r2 *)
| StarG (p : ascii -> bool)        (* p*  greedy *)
| PlusL (p : ascii -> bool)        (* p+? lazy *)
| Grp (r : regex)                  (* ( r ), group 1 *)
| Ahead (r : regex)                (* (?= r ) *)
| Bos                              (* ^ without MULTILINE *)
| Eos                              (* $ without MULTILINE *)
| WordB.                           (* \b *)

Definition cont (A : Type) : Type :=
  option ascii -> string -> option string -> option A.

(** What was read between the input [s] and its suffix [s']. *)
Definition consumed (s s' : string) : string :=
  String.substring 0 (String.length s - String.length s') s.

Definition word_before (prev : option ascii) : bool :=
  match prev with
  | Some c => Py.is_word c
  | None => false
  end.

Definition word_after (s : string) : bool :=
  match s with
  | String c _ => Py.is_word c
  | EmptyString => false
  end.

(** [$] matches at the end and just before a newline that ends the text. *)
Definition at_end (s : string) : bool :=
  match s with
  | EmptyString => true
  | String c EmptyString => Ascii.eqb c Py.newline
  | _ => false
  end.

Definition same_char (icase : bool) (c x : ascii) : bool :=
  if icase then Ascii.eqb (Py.lower_char c) (Py.lower_char x)
  else Ascii.eqb c x.

Fixpoint star_greedy {A : Type} (p : ascii -> bool) (prev : option ascii)
    (s : string) (cap : option string) (k : cont A) : option A :=
  match s with
  | String x s' =>
      if p x then
        match star_greedy p (Some x) s' cap k with
        | Some a => Some a
        | None => k prev s cap
        end
      else k prev s cap
  | EmptyString => k prev s cap
  end.

Fixpoint plus_lazy {A : Type} (p : ascii -> bool) (prev : option ascii)
    (s : string) (cap : option string) (k : cont A) : option A :=
  match s with
  | String x s' =>
      if p x then
        match k (Some x) s' cap with
        | Some a => Some a
        | None => plus_lazy p (Some x) s' cap k
        end
      else None
  | EmptyString => None
  end.

Fixpoint run (A : Type) (icase : bool) (r : regex) (prev : option ascii)
    (s : string) (cap : option string) (k : cont A) {struct r} : option A :=
  match r with
  | Eps => k prev s cap
  | Lit c =>
      match s with
      | String x s' => if same_char icase c x then k (Some x) s' cap else None
      | EmptyString => None
      end
  | Cls p =>
      match s with
      | String x s' => if p x then k (Some x) s' cap else None
      | EmptyString => None
      end
  | Cat r1 r2 =>
      run A icase r1 prev s cap
        (fun prev' s' cap' => run A icase r2 prev' s' cap' k)
  | Alt r1 r2 =>
      match run A icase r1 prev s cap k with
      | Some a => Some a
      | None => run A icase r2 prev s cap k
      end
  | StarG p => star_greedy p prev s cap k
  | PlusL p => plus_lazy p prev s cap k
  | Grp r1 =>
      run A icase r1 prev s cap
        (fun prev' s' _ => k prev' s' (Some (consumed s s')))
  | Ahead r1 =>
      match run unit icase r1 prev s cap (fun _ _ _ => Some tt) with
      | Some _ => k prev s cap
      | None => None
      end
  | Bos =>
      match prev with
      | None => k prev s cap
      | Some _ => None
      end
  | Eos => if at_end s then k prev s cap else None
  | WordB =>
      if xorb (word_before prev) (word_after s) then k prev s cap else None
  end.

(** A match object, reduced to what the callers read: group 1. *)
Definition match_object : Type := option string.

Definition accept : cont match_object := fun _ _ cap => Some cap.

(** [re.match(r, s)]: a match at the start of the text *)
Definition re_match (icase : bool) (r : regex) (s : string)
  : option match_object :=
  run match_object icase r None s None accept.

Fixpoint search_from (icase : bool) (r : regex) (prev : option ascii)
    (s : string) : option match_object :=
  match run match_object icase r prev s None accept with
  | Some mo => Some mo
  | None =>
      match s with
      | String x s' => search_from icase r (Some x) s'
      | EmptyString => None
      end
  end.

(** [re.search(r, s)]: the leftmost match *)
Definition re_search (icase : bool) (r : regex) (s : string)
  : option match_object :=
  search_from icase r None s.

(** The pattern of a literal text, as [re.escape] makes it. *)
Fixpoint lit (s : string) : regex :=
  match s with
  | EmptyString => Eps
  | String c s' => Cat (Lit c) (lit s')
  end.

(** [r{n}] *)
Fixpoint times (n : nat) (r : regex) : regex :=
  match n with
  | O => Eps
  | S n' => Cat r (times n' r)
  end.

Definition is_match (o : option match_object) : bool :=
  match o with
  | Some _ => true
  | None => false
  end.

End Re.

(** ** security.py *)

Module Security.

Definition FORBIDDEN_KEYWORDS : list string :=
  ["password"; "pwd"; "pin"; "secret"; "api_key"; "token"].

(** [SecurityValidator.contains_sensitive_data] *)
Definition contains_sensitive_data (text : string) : bool :=
  let text_lower := Py.lower text in
  existsb (fun keyword => Py.contains keyword text_lower) FORBIDDEN_KEYWORDS.

(** [SecurityValidator.validate_response]: [(is_valid, error_message)] *)
Definition validate_response (response : string) : bool * option string :=
  if contains_sensitive_data response
  then (false, Some "Response contains forbidden sensitive information")
  else (true, None).

(** [^[A-Z]\d{9}$] *)
Definition id_number_pattern : Re.regex :=
  Re.Cat Re.Bos
    (Re.Cat (Re.Cls Py.is_upper)
       (Re.Cat (Re.times 9 (Re.Cls Py.is_digit)) Re.Eos)).

(** [InputValidator.validate_id_number] *)
Definition validate_id_number (id_number : string) : bool :=
  Re.is_match (Re.re_match false id_number_pattern (Py.upper id_number)).

(** [^\d{4}/\d{2}/\d{2}$] *)
Definition dob_pattern : Re.regex :=
  Re.Cat Re.Bos
    (Re.Cat (Re.times 4 (Re.Cls Py.is_digit))
       (Re.Cat (Re.Lit "/")
          (Re.Cat (Re.times 2 (Re.Cls Py.is_digit))
             (Re.Cat (Re.Lit "/")
                (Re.Cat (Re.times 2 (Re.Cls Py.is_digit)) Re.Eos))))).

(** [InputValidator.validate_dob] *)
Definition validate_dob (dob : string) : bool :=
  Re.is_match (Re.re_match false dob_pattern dob).

Definition dangerous_patterns : list string :=
  ["DROP"; "DELETE"; "--"; ";"; "/*"; "*/"; "INSERT"; "UPDATE"].

(** [InputValidator.validate_name] *)
Definition validate_name (name : string) : bool :=
  if Py.len name <? 2 then false
  else negb (existsb (fun pattern => Py.contains (Py.upper pattern) (Py.upper name))
               dangerous_patterns).

(** [InputValidator.sanitize_input] *)
Definition sanitize_input (user_input : string) : string :=
  Py.strip user_input.

End Security.

(** ** intent_classifier.py *)

Inductive Intent : Type :=
| SERVICE_ITEMS
| BRANCH_INFO
| LOAN_PROCESS
| ACCOUNT_OPENING
| BANK_ACCOUNT
| ACCOUNT_BALANCE
| LOAN_BALANCE
| OPENING_BRANCH
| GENERAL_HELP
| UNKNOWN.

#[global] Instance Intent_eq_dec : EqDecision Intent.
Proof. solve_decision. Defined.

Module IntentClassifier.

(** The keyword table, in the insertion order of the dictionary. *)
Definition INTENT_KEYWORDS : list (Intent * list string) :=
  [ (SERVICE_ITEMS,
      ["service"; "services"; "what can you do"; "help"; "offerings";
       "products"; "available services"]);
    (BRANCH_INFO,
      ["branch"; "branches"; "address"; "location"; "contact"; "phone";
       "hours"; "where is"; "where are"; "nearest branch"]);
    (LOAN_PROCESS,
      ["loan application"; "apply for loan"; "borrow"; "application process";
       "how to apply"; "apply for a loan"; "loan process"; "get a loan"]);
    (ACCOUNT_OPENING,
      ["account"; "open"; "opening"; "new account"; "register"; "sign up";
       "how to open"]);
    (BANK_ACCOUNT,
      ["account number"; "account no"; "bank account"; "my account"]);
    (ACCOUNT_BALANCE,
      ["balance"; "how much"; "available"; "account balance";
       "remaining balance"]);
    (LOAN_BALANCE,
      ["loan balance"; "owe"; "outstanding"; "debt"; "loan amount"]);
    (OPENING_BRANCH,
      ["opening branch"; "where opened"; "which branch"; "account from";
       "account opened"; "opened account"; "branch is my account";
       "where was my account opened"; "where did i open"]) ].

(** [r'\b' + re.escape(keyword) + r'\b'] *)
Definition keyword_pattern (keyword : string) : Re.regex :=
  Re.Cat Re.WordB (Re.Cat (Re.lit keyword) Re.WordB).

(** [re.search(pattern, user_input_lower)] as a truth value *)
Definition keyword_found (keyword user_input_lower : string) : bool :=
  Re.is_match (Re.re_search false (keyword_pattern keyword) user_input_lower).

(** The inner loop over one intent's keywords, from the running
    [(score, max_keyword_len)]. *)
Fixpoint scan_keywords (user_input_lower : string) (keywords : list string)
    (score max_keyword_len : Z) : Z * Z :=
  match keywords with
  | [] => (score, max_keyword_len)
  | keyword :: rest =>
      if keyword_found keyword user_input_lower then
        let keyword_score := Z.of_nat (List.length (Py.split keyword)) in
        scan_keywords user_input_lower rest
          (score + keyword_score) (Z.max max_keyword_len keyword_score)
      else scan_keywords user_input_lower rest score max_keyword_len
  end.

(** The outer loop: the dictionaries [scores] and [max_keyword_lengths],
    in insertion order. *)
Fixpoint scan_intents (user_input_lower : string)
    (table : list (Intent * list string))
  : list (Intent * Z) * list (Intent * Z) :=
  match table with
  | [] => ([], [])
  | (intent, keywords) :: rest =>
      let '(score, max_keyword_len) :=
        scan_keywords user_input_lower keywords 0 0 in
      let '(scores, max_keyword_lengths) := scan_intents user_input_lower rest in
      ((intent, score) :: scores, (intent, max_keyword_len) :: max_keyword_lengths)
  end.

(** [d[key]]; a missing key is a [KeyError]. *)
Fixpoint dict_get (d : list (Intent * Z)) (key : Intent) : option Z :=
  match d with
  | [] => None
  | (k, v) :: d' => if decide (k = key) then Some v else dict_get d' key
  end.

(** [max(values)]; an empty sequence is a [ValueError]. *)
Definition py_max (values : list Z) : option Z :=
  match values with
  | [] => None
  | v :: rest => Some (fold_left Z.max rest v)
  end.

(** [max(items, key=key)]: the first item whose key is maximal. *)
Fixpoint max_by_from {A : Type} (key : A -> Z) (best : A) (items : list A) : A :=
  match items with
  | [] => best
  | x :: rest => max_by_from key (if key best <? key x then x else best) rest
  end.

Definition py_max_by {A : Type} (key : A -> Z) (items : list A) : option A :=
  match items with
  | [] => None
  | x :: rest => Some (max_by_from key x rest)
  end.

(** [a / b] on integers; a zero divisor is a [ZeroDivisionError]. *)
Definition py_truediv (a b : Z) : option Q :=
  if b =? 0 then None else Some (Qmake a (Z.to_pos b)).

(** [IntentClassifier.classify] *)
Definition classify (user_input : string) : option (Intent * Q) :=
  let user_input_lower := Py.lower user_input in
  let '(scores, max_keyword_lengths) :=
    scan_intents user_input_lower INTENT_KEYWORDS in
  max_score ← py_max (map snd scores);
  if max_score =? 0 then Some (UNKNOWN, 0%Q)
  else
    let candidates :=
      map fst (List.filter (fun item => snd item =? max_score) scores) in
    best_intent ←
      py_max_by (fun intent => default 0 (dict_get max_keyword_lengths intent))
        candidates;
    best_score ← dict_get scores best_intent;
    confidence ←
      py_truediv best_score (Z.of_nat (List.length (Py.split user_input_lower)));
    Some (best_intent, confidence).

(** [IntentClassifier.is_sensitive_query] *)
Definition is_sensitive_query (intent : Intent) : bool :=
  match intent with
  | BANK_ACCOUNT | ACCOUNT_BALANCE | LOAN_BALANCE | OPENING_BRANCH => true
  | _ => false
  end.

End IntentClassifier.

(** ** config.py *)

Module Config.

(** One entry of [CUSTOMERS]: a dictionary with these seven keys. *)
Record customer : Type := {
  name : string;
  dob : string;
  id_number : string;
  bank_account : string;
  account_balance : string;
  loan_balance : string;
  opening_branch : string
}.

(** [customer.get(field)] *)
Definition get (c : customer) (field : string) : option string :=
  if String.eqb field "name" then Some (name c)
  else if String.eqb field "dob" then Some (dob c)
  else if String.eqb field "id_number" then Some (id_number c)
  else if String.eqb field "bank_account" then Some (bank_account c)
  else if String.eqb field "account_balance" then Some (account_balance c)
  else if String.eqb field "loan_balance" then Some (loan_balance c)
  else if String.eqb field "opening_branch" then Some (opening_branch c)
  else None.

Definition tony_stark : customer := {|
  name := "Tony Stark";
  dob := "1996/09/10";
  id_number := "A234763849";
  bank_account := "6102394256679291";
  account_balance := "TWD 2,500,394";
  loan_balance := "TWD 19,243,225";
  opening_branch := "Taipei First Main Branch"
|}.

Definition CUSTOMERS : gmap string customer :=
  {[ "A234763849" := tony_stark ]}.

Definition SERVICE_ITEMS : list string :=
  ["24/7 Customer Support"; "Account Management"; "Loan Services";
   "Investment Advisory"; "Credit Card Services"; "Mobile Banking"].

Record branch : Type := {
  address : string;
  phone : string;
  hours : string
}.

(** [BRANCHES], in insertion order. *)
Definition BRANCHES : list (string * branch) :=
  [ ("Taipei First Main Branch",
      {| address := "No. 1, Dunnan Rd, Taipei";
         phone := "02-2109-5500";
         hours := "Mon-Fri 9:00-17:00" |});
    ("Taipei Second Branch",
      {| address := "No. 88, Songshan Rd, Taipei";
         phone := "02-2719-7000";
         hours := "Mon-Fri 9:00-17:00" |}) ].

Definition LOAN_PROCESS : list string :=
  ["1. Submit application with required documents";
   "2. Credit assessment and verification";
   "3. Final approval decision";
   "4. Loan disbursement"].

Definition ACCOUNT_OPENING_PROCESS : list string :=
  ["1. Visit nearest branch with valid ID";
   "2. Fill out account opening form";
   "3. Provide initial deposit (min TWD 1,000)";
   "4. Activate online banking (optional)";
   "5. Receive debit card in 7-10 business days"].

End Config.

(** ** customer_data.py

    Both [CustomerDataManager] objects of a session hold the same
    dictionary; it is the parameter [customers] here, and
    [Config.CUSTOMERS] in the running program. *)

Module CustomerDataManager.

Section WithDirectory.

Variable customers : gmap string Config.customer.

(** [verify_customer]: [(True, customer_id)] or [(False, reason)] *)
Definition verify_customer (name dob id_number : string) : bool * string :=
  if negb (Security.validate_name name) then
    (false, "Invalid name format")
  else if negb (Security.validate_dob dob) then
    (false, "Invalid date of birth format (use YYYY/MM/DD)")
  else if negb (Security.validate_id_number id_number) then
    (false, "Invalid ID number format")
  else
    match customers !! id_number with
    | None => (false, "Customer ID not found")
    | Some customer =>
        if negb (String.eqb (Py.lower (Config.name customer)) (Py.lower name))
        then (false, "Name does not match")
        else if negb (String.eqb (Config.dob customer) dob)
        then (false, "Date of birth does not match")
        else if negb (String.eqb (Config.id_number customer) id_number)
        then (false, "ID number does not match")
        else (true, id_number)
    end.

(** [get_customer_info] *)
Definition get_customer_info (customer_id field : string) : option string :=
  match customers !! customer_id with
  | None => None
  | Some customer => Config.get customer field
  end.

End WithDirectory.

End CustomerDataManager.

(** ** response_handler.py *)

Module ResponseHandler.

Import CustomerDataManager.

Definition verify_first_text : string :=
  "For security reasons, I need to verify your identity first. " +:+
  "Please provide your name, date of birth (YYYY/MM/DD), and ID number.".

Definition not_understood_text : string :=
  "I'm sorry, I didn't understand your question. " +:+
  "I can help you with:" +:+ Py.nl +:+
  "- Service items available" +:+ Py.nl +:+
  "- Branch locations and contact information" +:+ Py.nl +:+
  "- Loan application process" +:+ Py.nl +:+
  "- Account opening process" +:+ Py.nl +:+
  "- Account-related information (with verification)".

Definition _format_service_items : string :=
  let items_str :=
    Py.join Py.nl (map (fun item => "- " +:+ item) Config.SERVICE_ITEMS) in
  "Our available services are:" +:+ Py.nl +:+ items_str.

Definition _format_branch_info : string :=
  let branch_info :=
    map (fun '(branch_name, info) =>
           "📍 " +:+ branch_name +:+ Py.nl +:+
           "   Address: " +:+ Config.address info +:+ Py.nl +:+
           "   Phone: " +:+ Config.phone info +:+ Py.nl +:+
           "   Hours: " +:+ Config.hours info)
        Config.BRANCHES in
  "Our branches:" +:+ Py.nl +:+ Py.nl +:+ Py.join (Py.nl +:+ Py.nl) branch_info.

Definition _format_loan_process : string :=
  let process_str := Py.join Py.nl Config.LOAN_PROCESS in
  "Loan Application Process:" +:+ Py.nl +:+ process_str +:+ Py.nl +:+ Py.nl +:+
  "For more details, please visit our website or contact your nearest branch.".

Definition _format_account_opening : string :=
  let process_str := Py.join Py.nl Config.ACCOUNT_OPENING_PROCESS in
  "Account Opening Process:" +:+ Py.nl +:+ process_str +:+ Py.nl +:+ Py.nl +:+
  "For assistance, please visit your nearest branch.".

Definition _format_general_help : string :=
  "Hello! I'm your bank customer service assistant. I can help you with:" +:+ Py.nl +:+
  "1. Service items and offerings" +:+ Py.nl +:+
  "2. Branch locations and contact information" +:+ Py.nl +:+
  "3. Loan application process" +:+ Py.nl +:+
  "4. Account opening process" +:+ Py.nl +:+
  "5. Account information (with verification)" +:+ Py.nl +:+ Py.nl +:+
  "How can I assist you today?".

(** [_handle_public_query] *)
Definition _handle_public_query (intent : Intent) : string :=
  match intent with
  | SERVICE_ITEMS => _format_service_items
  | BRANCH_INFO => _format_branch_info
  | LOAN_PROCESS => _format_loan_process
  | ACCOUNT_OPENING => _format_account_opening
  | GENERAL_HELP => _format_general_help
  | _ => not_understood_text
  end.

Section WithDirectory.

Variable customers : gmap string Config.customer.

(** [_handle_sensitive_query] *)
Definition _handle_sensitive_query (intent : Intent) (customer_id : string)
  : string :=
  match intent with
  | BANK_ACCOUNT =>
      let account := get_customer_info customers customer_id "bank_account" in
      "Your bank account number is: " +:+ Py.fmt account
  | ACCOUNT_BALANCE =>
      let balance := get_customer_info customers customer_id "account_balance" in
      "Your current account balance is: " +:+ Py.fmt balance
  | LOAN_BALANCE =>
      let loan_balance := get_customer_info customers customer_id "loan_balance" in
      "Your current loan balance is: " +:+ Py.fmt loan_balance
  | OPENING_BRANCH =>
      let branch := get_customer_info customers customer_id "opening_branch" in
      "Your account was opened at: " +:+ Py.fmt branch
  | _ => "Unable to process your request."
  end.

(** [handle_query] *)
Definition handle_query (intent : Intent) (verified_customer_id : option string)
  : string :=
  if IntentClassifier.is_sensitive_query intent then
    match verified_customer_id with
    | Some (String c id') => _handle_sensitive_query intent (String c id')
    | _ => verify_first_text
    end
  else _handle_public_query intent.

End WithDirectory.

End ResponseHandler.

(** ** conversation.py *)

Module Conversation.

(** One entry of [conversation_history]: [{"user": ...}], to which the key
    ["assistant"] is added once the response is known. *)
Record Turn : Type := {
  user : string;
  assistant : option string
}.

(** The mutable fields of a [ConversationSession].  The session identifier
    is only passed to the audit logger. *)
Record ConversationSession : Type := {
  verified_customer_id : option string;
  verification_attempts : Z;
  max_verification_attempts : Z;
  pending_intent : option Intent;
  conversation_history : list Turn
}.

(** [ConversationSession()] *)
Definition new_session : ConversationSession := {|
  verified_customer_id := None;
  verification_attempts := 0;
  max_verification_attempts := 3;
  pending_intent := None;
  conversation_history := []
|}.

Definition set_verified_customer_id (v : option string) (s : ConversationSession) :=
  {| verified_customer_id := v;
     verification_attempts := verification_attempts s;
     max_verification_attempts := max_verification_attempts s;
     pending_intent := pending_intent s;
     conversation_history := conversation_history s |}.

Definition set_verification_attempts (n : Z) (s : ConversationSession) :=
  {| verified_customer_id := verified_customer_id s;
     verification_attempts := n;
     max_verification_attempts := max_verification_attempts s;
     pending_intent := pending_intent s;
     conversation_history := conversation_history s |}.

Definition set_pending_intent (p : option Intent) (s : ConversationSession) :=
  {| verified_customer_id := verified_customer_id s;
     verification_attempts := verification_attempts s;
     max_verification_attempts := max_verification_attempts s;
     pending_intent := p;
     conversation_history := conversation_history s |}.

Definition set_conversation_history (h : list Turn) (s : ConversationSession) :=
  {| verified_customer_id := verified_customer_id s;
     verification_attempts := verification_attempts s;
     max_verification_attempts := max_verification_attempts s;
     pending_intent := pending_intent s;
     conversation_history := h |}.

(** [history[-1]["assistant"] = response]; an empty list is an
    [IndexError]. *)
Fixpoint set_last_assistant (history : list Turn) (response : string)
  : option (list Turn) :=
  match history with
  | [] => None
  | [t] => Some [ {| user := user t; assistant := Some response |} ]
  | t :: rest => cons t <$> set_last_assistant rest response
  end.

Definition record_assistant (s : ConversationSession) (response : string)
  : option ConversationSession :=
  h ← set_last_assistant (conversation_history s) response;
  Some (set_conversation_history h s).

(** [is_verification_pending] *)
Definition is_verification_pending (s : ConversationSession) : bool :=
  bool_decide (pending_intent s ≠ None) &&
  bool_decide (verified_customer_id s = None).

(** [reset_verification] *)
Definition reset_verification (s : ConversationSession) : ConversationSession :=
  set_pending_intent None
    (set_verification_attempts 0 (set_verified_customer_id None s)).

(** [get_conversation_history] *)
Definition get_conversation_history (s : ConversationSession) : list Turn :=
  conversation_history s.

(** *** The fixed texts *)

Definition not_understood_text : string :=
  "I'm sorry, I didn't understand that. Could you please rephrase your question? " +:+
  "I can help you with service information, branch details, loan/account processes, " +:+
  "or account information.".

Definition verification_prompt : string :=
  "For security reasons, I need to verify your identity before providing " +:+
  "sensitive information." +:+ Py.nl +:+ Py.nl +:+
  "Please provide the following details:" +:+ Py.nl +:+
  "1. Your full name" +:+ Py.nl +:+
  "2. Your date of birth (YYYY/MM/DD)" +:+ Py.nl +:+
  "3. Your ID number".

Definition error_text : string :=
  "An error occurred while processing your request. Please try again.".

Definition lockout_text : string :=
  "Verification failed. For security reasons, I'm unable to proceed. " +:+
  "Please contact our support team or visit a branch.".

Definition missing_text (remaining : Z) : string :=
  "Please provide all required information. " +:+
  "You still need to provide " +:+ Py.str_of_int remaining +:+ " more field(s)." +:+ Py.nl +:+
  "Format: Name, Date of Birth (YYYY/MM/DD), ID Number" +:+ Py.nl +:+
  "Or use labeled format: Name: [name] DOB: [date] ID: [id]".

Definition failure_text (result : string) (attempts_remaining : Z) : string :=
  "Verification failed: " +:+ result +:+ Py.nl +:+
  "Attempts remaining: " +:+ Py.str_of_int attempts_remaining +:+ Py.nl +:+
  "Please try again with correct information.".

Definition success_prefix : string :=
  "âœ“ Identity verified successfully!" +:+ Py.nl +:+ Py.nl.

(** *** Parsing a verification claim (lines 104-124) *)

(** [[^,\n]] *)
Definition not_comma_newline (c : ascii) : bool :=
  negb (Ascii.eqb c "," || Ascii.eqb c Py.newline).

(** [\s*([^,\n]+?)(?=\s*(?:a|b|$))], the part after the label *)
Definition value_until (a b : string) : Re.regex :=
  Re.Cat (Re.StarG Py.isspace)
    (Re.Cat (Re.Grp (Re.PlusL not_comma_newline))
       (Re.Ahead
          (Re.Cat (Re.StarG Py.isspace)
             (Re.Alt (Re.lit a) (Re.Alt (Re.lit b) Re.Eos))))).

(** [Name:\s*([^,\n]+?)(?=\s*(?:DOB:|ID:|$))] *)
Definition name_pattern : Re.regex :=
  Re.Cat (Re.lit "Name:") (value_until "DOB:" "ID:").

(** [DOB:\s*([^,\n]+?)(?=\s*(?:Name:|ID:|$))] *)
Definition dob_pattern : Re.regex :=
  Re.Cat (Re.lit "DOB:") (value_until "Name:" "ID:").

(** [ID:\s*([^,\n]+?)(?=\s*(?:Name:|DOB:|$))] *)
Definition id_pattern : Re.regex :=
  Re.Cat (Re.lit "ID:") (value_until "Name:" "DOB:").

(** [re.search(pattern, user_input, re.IGNORECASE)] and, on a match,
    [group(1).strip()] *)
Definition labeled (pattern : Re.regex) (user_input : string) : option string :=
  match Re.re_search true pattern user_input with
  | Some (Some g) => Some (Py.strip g)
  | _ => None
  end.

(** The three values found by their labels (lines 104-117). *)
Definition parse_labeled (user_input : string)
  : option string * option string * option string :=
  (labeled name_pattern user_input,
   labeled dob_pattern user_input,
   labeled id_pattern user_input).

(** [[p.strip() for p in user_input.replace('\n', ',').split(',')]] *)
Definition positional_parts (user_input : string) : list string :=
  map Py.strip (Py.split_on "," (Py.replace_char Py.newline "," user_input)).

Definition any_missing (name dob id_number : option string) : bool :=
  negb (Py.truthy name) || negb (Py.truthy dob) || negb (Py.truthy id_number).

(** The values of [name], [dob] and [id_number] at line 126. *)
Definition parse_verification_input (user_input : string)
  : option string * option string * option string :=
  let '(name, dob, id_number) := parse_labeled user_input in
  if any_missing name dob id_number then
    let parts := positional_parts user_input in
    if 3 <=? Z.of_nat (List.length parts) then
      (Py.or_else name (Some (Py.strip (nth 0 parts ""))),
       Py.or_else dob (Some (Py.strip (nth 1 parts ""))),
       Py.or_else id_number (Some (Py.strip (nth 2 parts ""))))
    else (name, dob, id_number)
  else (name, dob, id_number).

(** [sum([not name, not dob, not id_number])] *)
Definition count_missing (name dob id_number : option string) : Z :=
  Z.b2z (negb (Py.truthy name)) + Z.b2z (negb (Py.truthy dob)) +
  Z.b2z (negb (Py.truthy id_number)).

Section WithDirectory.

Variable customers : gmap string Config.customer.

(** [_handle_verification_input] *)
Definition _handle_verification_input (s : ConversationSession)
    (user_input : string) : string * ConversationSession :=
  let s := set_verification_attempts (verification_attempts s + 1) s in
  if max_verification_attempts s <? verification_attempts s then
    (lockout_text, set_pending_intent None s)
  else
    let '(name, dob, id_number) := parse_verification_input user_input in
    if any_missing name dob id_number then
      let remaining := count_missing name dob id_number in
      (missing_text remaining, s)
    else
      let '(success, result) :=
        CustomerDataManager.verify_customer customers
          (default "" name) (default "" dob) (default "" id_number) in
      if negb success then
        let attempts_remaining :=
          max_verification_attempts s - verification_attempts s in
        if 0 <? attempts_remaining then
          (failure_text result attempts_remaining, s)
        else
          (lockout_text, set_pending_intent None s)
      else
        let s := set_verified_customer_id (Some result) s in
        let s := set_verification_attempts 0 s in
        let intent := pending_intent s in
        let s := set_pending_intent None s in
        let response :=
          match intent with
          | Some i => ResponseHandler.handle_query customers i (verified_customer_id s)
          | None => ResponseHandler.not_understood_text
          end in
        (success_prefix +:+ response, s).

(** Lines 66-81 of [process_message]: the answer to a classified intent,
    checked by the security validator. *)
Definition answer (s : ConversationSession) (intent : Intent)
  : option (string * ConversationSession) :=
  let response :=
    ResponseHandler.handle_query customers intent (verified_customer_id s) in
  let '(is_valid, error) := Security.validate_response response in
  let response := if negb is_valid then error_text else response in
  s ← record_assistant s response;
  Some (response, s).

(** [process_message] *)
Definition process_message (s : ConversationSession) (user_message : string)
  : option (string * ConversationSession) :=
  let user_message := Security.sanitize_input user_message in
  let s :=
    set_conversation_history
      (conversation_history s ++ [ {| user := user_message; assistant := None |} ]) s in
  if bool_decide (pending_intent s ≠ None) && is_verification_pending s then
    let '(response, s) := _handle_verification_input s user_message in
    s ← record_assistant s response;
    Some (response, s)
  else
    '(intent, confidence) ← IntentClassifier.classify user_message;
    if decide (intent = UNKNOWN) then
      let response := not_understood_text in
      s ← record_assistant s response;
      Some (response, s)
    else if IntentClassifier.is_sensitive_query intent then
      if negb (Py.truthy (verified_customer_id s)) then
        let s := set_pending_intent (Some intent) s in
        let response := verification_prompt in
        s ← record_assistant s response;
        Some (response, s)
      else answer s intent
    else answer s intent.

(** A conversation: the messages are processed in order and the responses
    collected. *)
Fixpoint process_messages (s : ConversationSession) (messages : list string)
  : option (list string * ConversationSession) :=
  match messages with
  | [] => Some ([], s)
  | m :: rest =>
      '(r, s1) ← process_message s m;
      '(rs, s2) ← process_messages s1 rest;
      Some (r :: rs, s2)
  end.

End WithDirectory.

End Conversation.

(** ** What the specification says about classification

    These definitions follow the words of the specification, not the code:
    a keyword matches when it occurs in the lower-cased text between
    word boundaries; the score of an intent adds the word counts of its
    matching keywords. *)

Module Spec.

(** The last character of [s], or [prev] when [s] is empty. *)
Fixpoint last_char (prev : option ascii) (s : string) : option ascii :=
  match s with
  | EmptyString => prev
  | String c s' => last_char (Some c) s'
  end.

(** [s] without its prefix [p], when it has it. *)
Fixpoint strip_prefix (p s : string) : option string :=
  match p, s with
  | EmptyString, _ => Some s
  | String a p', String b s' =>
      if Ascii.eqb a b then strip_prefix p' s' else None
  | String _ _, EmptyString => None
  end.

(** [keyword] occurs in [text] as a whole word: no word character touches
    it on either side. *)
Definition whole_word_in (keyword text : string) : Prop :=
  exists pre post,
    text = pre +:+ keyword +:+ post /\
    Re.word_before (last_char None pre) = false /\
    Re.word_after post = false.

(** The same, decided by trying every position of the text. *)
Fixpoint occurs_from (keyword : string) (prev : option ascii) (text : string)
  : bool :=
  match strip_prefix keyword text with
  | Some post => negb (Re.word_before prev) && negb (Re.word_after post)
  | None => false
  end
  || match text with
     | String c text' => occurs_from keyword (Some c) text'
     | EmptyString => false
     end.

Definition keyword_matches (keyword text : string) : bool :=
  occurs_from keyword None (Py.lower text).

Definition word_count (text : string) : Z :=
  Z.of_nat (List.length (Py.split text)).

Definition matching (text : string) (keywords : list string) : list string :=
  List.filter (fun keyword => keyword_matches keyword text) keywords.

Definition score (text : string) (keywords : list string) : Z :=
  fold_right Z.add 0 (map word_count (matching text keywords)).

Definition longest_match (text : string) (keywords : list string) : Z :=
  fold_right Z.max 0 (map word_count (matching text keywords)).

Definition all_scores_zero (text : string) : Prop :=
  forall intent keywords,
    In (intent, keywords) IntentClassifier.INTENT_KEYWORDS ->
    score text keywords = 0.

(** The result the specification allows for [text]. *)
Definition classify_spec (text : string) (result : Intent * Q) : Prop :=
  let '(intent, confidence) := result in
  (all_scores_zero text -> intent = UNKNOWN /\ confidence = 0%Q) /\
  (~ all_scores_zero text ->
   exists keywords,
     In (intent, keywords) IntentClassifier.INTENT_KEYWORDS /\
     (forall other keywords',
        In (other, keywords') IntentClassifier.INTENT_KEYWORDS ->
        score text keywords' <= score text keywords /\
        (score text keywords' = score text keywords ->
         longest_match text keywords' <= longest_match text keywords)) /\
     0 < word_count text /\
     confidence = Qmake (score text keywords) (Z.to_pos (word_count text))).

(** A keyword that starts and ends with a word character. *)
Definition wordy (keyword : string) : bool :=
  Re.word_after keyword && Re.word_before (last_char None keyword).

Definition all_wordy (table : list (Intent * list string)) : bool :=
  forallb (fun entry => forallb wordy (snd entry)) table.

(** The scores and the longest matches of a keyword table, per intent. *)
Definition scores_of (text : string) (table : list (Intent * list string))
  : list (Intent * Z) :=
  map (fun entry => (fst entry, score text (snd entry))) table.

Definition lengths_of (text : string) (table : list (Intent * list string))
  : list (Intent * Z) :=
  map (fun entry => (fst entry, longest_match text (snd entry))) table.

End Spec.

(** ** Vocabulary for the conversation properties *)

Module Flow.

Import Conversation.

(** The two states of the protocol. *)
Definition idle (s : ConversationSession) : Prop :=
  pending_intent s = None.

Definition awaiting (s : ConversationSession) : Prop :=
  pending_intent s <> None /\ verified_customer_id s = None.

(** The fields that drive the protocol; the history is left out. *)
Definition control (s : ConversationSession)
  : option string * Z * Z * option Intent :=
  (verified_customer_id s, verification_attempts s,
   max_verification_attempts s, pending_intent s).

(** A session after a lockout: idle, unverified, the attempt budget used. *)
Definition locked_out (s : ConversationSession) : Prop :=
  pending_intent s = None /\ verified_customer_id s = None /\
  max_verification_attempts s <= verification_attempts s.

(** The message gives all three fields of a verification claim. *)
Definition complete_claim (user_message : string) : bool :=
  let '(name, dob, id_number) :=
    parse_verification_input (Security.sanitize_input user_message) in
  negb (any_missing name dob id_number).

(** The outcome of [verify_customer] on the claim parsed from a message. *)
Definition verify_claim (customers : gmap string Config.customer)
    (user_message : string) : bool * string :=
  let '(name, dob, id_number) :=
    parse_verification_input (Security.sanitize_input user_message) in
  CustomerDataManager.verify_customer customers
    (default "" name) (default "" dob) (default "" id_number).

(** A wrong verification attempt: fields are missing, or the claim is
    complete and [verify_customer] rejects it. *)
Definition wrong_attempt (customers : gmap string Config.customer)
    (user_message : string) : Prop :=
  complete_claim user_message = false \/
  fst (verify_claim customers user_message) = false.

(** A correct verification claim for the customer [customer_id]. *)
Definition correct_claim (customers : gmap string Config.customer)
    (user_message customer_id : string) : Prop :=
  complete_claim user_message = true /\
  verify_claim customers user_message = (true, customer_id).

(** A message the classifier maps to a sensitive intent. *)
Definition asks_sensitive (user_message : string) (intent : Intent) : Prop :=
  (exists confidence,
     IntentClassifier.classify (Security.sanitize_input user_message)
     = Some (intent, confidence)) /\
  IntentClassifier.is_sensitive_query intent = true.

(** What the security validator lets through. *)
Definition validated (response : string) : string :=
  if fst (Security.validate_response response) then response else error_text.

(** The sentence that introduces the value, and the value itself. *)
Definition sentence (intent : Intent) : string :=
  match intent with
  | BANK_ACCOUNT => "Your bank account number is: "
  | ACCOUNT_BALANCE => "Your current account balance is: "
  | LOAN_BALANCE => "Your current loan balance is: "
  | OPENING_BRANCH => "Your account was opened at: "
  | _ => ""
  end.

Definition stored_value (c : Config.customer) (intent : Intent) : string :=
  match intent with
  | BANK_ACCOUNT => Config.bank_account c
  | ACCOUNT_BALANCE => Config.account_balance c
  | LOAN_BALANCE => Config.loan_balance c
  | OPENING_BRANCH => Config.opening_branch c
  | _ => ""
  end.

(** A session that awaits verification for a balance request, as the
    first message of the scenarios leaves it. *)
Definition awaiting_balance : ConversationSession := {|
  verified_customer_id := None;
  verification_attempts := 0;
  max_verification_attempts := 3;
  pending_intent := Some ACCOUNT_BALANCE;
  conversation_history :=
    [ {| user := "What is my account balance?";
         assistant := Some verification_prompt |} ]
|}.

Definition sensitive_values (c : Config.customer) : list string :=
  [Config.bank_account c; Config.account_balance c;
   Config.loan_balance c; Config.opening_branch c].

(** A response leaks when it contains a sensitive value of some customer
    of the directory. *)
Definition leaks (customers : gmap string Config.customer) (response : string)
  : Prop :=
  exists customer_id c value,
    customers !! customer_id = Some c /\
    In value (sensitive_values c) /\
    Py.contains value response = true.

(** The reasons [verify_customer] gives for a rejection. *)
Definition rejection_reasons : list string :=
  ["Invalid name format";
   "Invalid date of birth format (use YYYY/MM/DD)";
   "Invalid ID number format";
   "Customer ID not found";
   "Name does not match";
   "Date of birth does not match";
   "ID number does not match"].

(** Only the case of the first character differs. *)
Definition differs_in_leading_case (a b : string) : Prop :=
  exists x y rest,
    a = String x rest /\ b = String y rest /\
    x <> y /\ Py.lower_char x = Py.lower_char y.

(** All characters are blanks. *)
Fixpoint blank (s : string) : bool :=
  match s with
  | EmptyString => true
  | String c s' => Py.isspace c && blank s'
  end.

(** A directory whose branch name contains a forbidden keyword. *)
Definition stark_pinglin : Config.customer := {|
  Config.name := "Tony Stark";
  Config.dob := "1996/09/10";
  Config.id_number := "A234763849";
  Config.bank_account := "6102394256679291";
  Config.account_balance := "TWD 2,500,394";
  Config.loan_balance := "TWD 19,243,225";
  Config.opening_branch := "Taipei Pinglin Branch"
|}.

Definition CUSTOMERS_pinglin : gmap string Config.customer :=
  {[ "A234763849" := stark_pinglin ]}.

(** The messages of the example scenarios. *)
Definition ask_balance : string := "What is my account balance?".
Definition ask_branch : string := "which branch".
Definition claim_stark : string := "Tony Stark, 1996/09/10, A234763849".
Definition claim_stark_labeled : string :=
  "Name: Tony Stark DOB: 1996/09/10 ID: A234763849".
Definition claim_doe : string := "John Doe, 1990/01/01, B123456789".

(** The session the scenario of three rejected claims ends in. *)
Definition after_lockout : ConversationSession :=
  match
    process_messages Config.CUSTOMERS new_session
      [ask_balance; claim_doe; claim_doe; claim_doe]
  with
  | Some (_, s) => s
  | None => new_session
  end.

End Flow.

(** ** customer_data.py and intent_classifier.py, the remaining functions *)

Module CustomerDirectory.

Section WithDirectory.

Variable customers : gmap string Config.customer.

(** [CustomerDataManager.get_all_customer_fields] *)
Definition get_all_customer_fields (customer_id : string)
  : option Config.customer :=
  match customers !! customer_id with
  | None => None
  | Some c => Some c
  end.

(** [CustomerDataManager.customer_exists] *)
Definition customer_exists (id_number : string) : bool :=
  bool_decide (is_Some (customers !! id_number)).

End WithDirectory.

End CustomerDirectory.

Module IntentCategory.

(** [IntentClassifier.get_intent_category] *)
Definition get_intent_category (intent : Intent) : string :=
  match intent with
  | SERVICE_ITEMS => "Service Information"
  | BRANCH_INFO => "Branch Information"
  | LOAN_PROCESS => "Loan Services"
  | ACCOUNT_OPENING => "Account Services"
  | BANK_ACCOUNT => "Sensitive - Bank Account"
  | ACCOUNT_BALANCE => "Sensitive - Account Balance"
  | LOAN_BALANCE => "Sensitive - Loan Balance"
  | OPENING_BRANCH => "Sensitive - Opening Branch"
  | GENERAL_HELP => "General Help"
  | UNKNOWN => "Unknown"
  end.

End IntentCategory.

(** ** validators.py, audit_logger.py and app.py *)

(** Python's slices [s[:n]] and [s[-n:]], for a positive [n]. *)
Module Slice.

Definition take (n : nat) (s : string) : string :=
  String.substring 0 n s.

Definition take_last (n : nat) (s : string) : string :=
  String.substring (String.length s - n) n s.

End Slice.

Module RequestValidator.

Definition MAX_MESSAGE_LENGTH : Z := 5000.
Definition MAX_SESSION_ID_LENGTH : Z := 64.

(** [[a-f0-9]] *)
Definition is_hex (c : ascii) : bool :=
  let n := Py.code c in
  ((97 <=? n) && (n <=? 102) || (48 <=? n) && (n <=? 57))%N.

(** [^[a-f0-9]{8}-[a-f0-9]{4}-[a-f0-9]{4}-[a-f0-9]{4}-[a-f0-9]{12}$] *)
Definition SESSION_ID_PATTERN : Re.regex :=
  Re.Cat Re.Bos
    (Re.Cat (Re.times 8 (Re.Cls is_hex))
       (Re.Cat (Re.Lit "-")
          (Re.Cat (Re.times 4 (Re.Cls is_hex))
             (Re.Cat (Re.Lit "-")
                (Re.Cat (Re.times 4 (Re.Cls is_hex))
                   (Re.Cat (Re.Lit "-")
                      (Re.Cat (Re.times 4 (Re.Cls is_hex))
                         (Re.Cat (Re.Lit "-")
                            (Re.Cat (Re.times 12 (Re.Cls is_hex)) Re.Eos))))))))).

(** [RequestValidator.validate_session_id]: [(is_valid, error_message)].
    The argument is always a string or [None]. *)
Definition validate_session_id (session_id : option string)
  : bool * option string :=
  if negb (Py.truthy session_id) then (false, Some "Session ID is required")
  else
    let session_id := default "" session_id in
    if MAX_SESSION_ID_LENGTH <? Py.len session_id then
      (false, Some "Session ID too long")
    else if negb (Re.is_match (Re.re_match false SESSION_ID_PATTERN session_id)) then
      (false, Some "Invalid session ID format")
    else (true, None).

(** ['\x00'] *)
Definition NUL : string := String (ascii_of_N 0) EmptyString.

(** [RequestValidator.validate_message] *)
Definition validate_message (message : option string) : bool * option string :=
  if negb (Py.truthy message) then (false, Some "Message is required")
  else
    let message := default "" message in
    if MAX_MESSAGE_LENGTH <? Py.len message then
      (false, Some ("Message exceeds maximum length of " +:+
                    Py.str_of_int MAX_MESSAGE_LENGTH))
    else if Py.contains NUL message then
      (false, Some "Message contains invalid characters")
    else (true, None).

End RequestValidator.

Module AuditLogger.

(** [AuditLogger._redact_id] *)
Definition _redact_id (customer_id : string) : string :=
  if negb (Py.truthy (Some customer_id)) || (Py.len customer_id <? 4) then
    "[redacted]"
  else Slice.take 2 customer_id +:+ "***" +:+ Slice.take_last 2 customer_id.

(** [AuditLogger._redact_session] *)
Definition _redact_session (session_id : string) : string :=
  if negb (Py.truthy (Some session_id)) || (Py.len session_id <? 8) then
    "[redacted]"
  else Slice.take 4 session_id +:+ "..." +:+ Slice.take_last 4 session_id.

End AuditLogger.

Module App.

(** [redact_session_id] *)
Definition redact_session_id (session_id : string) : string :=
  if negb (Py.truthy (Some session_id)) || (Py.len session_id <? 8) then
    "[redacted]"
  else Slice.take 4 session_id +:+ "..." +:+ Slice.take_last 4 session_id.

Section Stream.

(** [stream_response] cuts the text by position only, so the text is taken
    here as the list of its characters, whatever they are. *)
Variable char : Type.

(** The events the generator yields: [data: {"text": chunk}] and
    [data: {"done": true}], each followed by an empty line. *)
Inductive event : Type :=
| Text (chunk : list char)
| Done.

Definition chunk_size : nat := 20.

(** [range(0, stop, step)] for a positive step *)
Definition range_step (stop step : nat) : list nat :=
  map (fun j => (j * step)%nat) (seq 0 ((stop + step - 1) / step)%nat).

(** [text[i:j]] for [i <= j] *)
Definition slice (i j : nat) (text : list char) : list char :=
  firstn (j - i) (skipn i text).

(** [stream_response]: the events in the order they are yielded *)
Definition stream_response (text : list char) : list event :=
  map (fun i => Text (slice i (i + chunk_size) text))
      (range_step (List.length text) chunk_size)
  ++ [Done].

End Stream.

Arguments Text {char} chunk.
Arguments Done {char}.
Arguments stream_response {char} text.
Arguments slice {char} i j text.

(** What the route [chat] answers once the session is found: status 400
    with a message, status 500 with a message, or the event stream of a
    text. *)
Inductive reply : Type :=
| BadRequest (message : string)
| ServerError (message : string)
| Stream (text : string).

Section WithDirectory.

Variable customers : gmap string Config.customer.

(** The body of [chat] from the message on (lines 296-357): the message
    is stripped and validated, the session processes it, and the response
    is validated before it is streamed.  Reading the request, the session
    store and the log lines are left out.  [None] of [process_message]
    is the [except Exception] clause. *)
Definition chat (session : Conversation.ConversationSession) (message : string)
  : reply * Conversation.ConversationSession :=
  let message := Py.strip message in
  let '(is_valid, error_msg) := RequestValidator.validate_message (Some message) in
  if negb is_valid then (BadRequest (Py.fmt error_msg), session)
  else
    match Conversation.process_message customers session message with
    | Some (response, session) =>
        let '(is_valid, error_msg) := Security.validate_response response in
        if negb is_valid then (ServerError "Response validation failed", session)
        else (Stream response, session)
    | None => (ServerError "Failed to process message", session)
    end.

End WithDirectory.

End App.

(** ** Vocabulary for the further properties *)

Module More.

Import Conversation Flow.


(** The fields of a record that verification compares. *)
Definition identity (c : Config.customer) : string * string * string :=
  (Config.name c, Config.dob c, Config.id_number c).

(** Two directories that hold the same identities under the same keys;
    the account data may differ. *)
Definition same_identities (customers customers' : gmap string Config.customer)
  : Prop :=
  forall k, identity <$> (customers !! k) = identity <$> (customers' !! k).

(** What holds of every session a conversation can reach. *)
Definition well_formed (customers : gmap string Config.customer)
    (s : ConversationSession) : Prop :=
  max_verification_attempts s = 3 /\
  0 <= verification_attempts s /\
  (forall intent,
     pending_intent s = Some intent ->
     IntentClassifier.is_sensitive_query intent = true /\
     verified_customer_id s = None) /\
  (forall customer_id,
     verified_customer_id s = Some customer_id ->
     customer_id <> "" /\
     (exists c, customers !! customer_id = Some c) /\
     pending_intent s = None /\
     verification_attempts s = 0).

(** The key of the customer record a sensitive intent reads
    ([_handle_sensitive_query]). *)
Definition field_name (intent : Intent) : string :=
  match intent with
  | BANK_ACCOUNT => "bank_account"
  | ACCOUNT_BALANCE => "account_balance"
  | LOAN_BALANCE => "loan_balance"
  | OPENING_BRANCH => "opening_branch"
  | _ => ""
  end.

(** The turns a conversation writes to the history. *)
Fixpoint transcript (messages responses : list string) : list Turn :=
  match messages, responses with
  | m :: messages', r :: responses' =>
      {| user := Security.sanitize_input m; assistant := Some r |}
      :: transcript messages' responses'
  | _, _ => []
  end.

(** Every character of the text satisfies [p]. *)
Fixpoint all_chars (p : ascii -> bool) (s : string) : bool :=
  match s with
  | EmptyString => true
  | String c s' => p c && all_chars p s'
  end.

(** [n] characters, each of [[a-f0-9]]. *)
Definition hex_string (n : nat) (h : string) : bool :=
  (String.length h =? n)%nat && all_chars RequestValidator.is_hex h.

(** The character before the position reached after reading [h]. *)
Fixpoint last_of (prev : option ascii) (h : string) : option ascii :=
  match h with
  | EmptyString => prev
  | String c h' => last_of (Some c) h'
  end.

End More.

(** * Properties *)

(** ** Strings *)

#[local] Arguments String.append !s1 s2 : simpl nomatch.

Section StringFacts.

Lemma append_assoc (a b c : string) : (a +:+ b) +:+ c = a +:+ (b +:+ c).
Proof. induction a as [|x a IH]; simpl; [reflexivity | now rewrite IH]. Qed.

Lemma strip_prefix_Some (p s rest : string) :
  Spec.strip_prefix p s = Some rest <-> s = p +:+ rest.
Proof.
  revert s; induction p as [|a p IH]; intros s; simpl.
  - split; [intros [= ->] | intros ->]; reflexivity.
  - destruct s as [|b s]; [split; discriminate|].
    destruct (Ascii.eqb_spec a b) as [->|Hne].
    + rewrite IH. split; [intros -> | intros [= ->]]; reflexivity.
    + split; [discriminate | intros [= Hab _]; congruence].
Qed.

Lemma isspace_not_word (c : ascii) : Py.is_word c = true -> Py.isspace c = false.
Proof.
  unfold Py.is_word, Py.isspace, Py.is_upper, Py.is_lower, Py.is_digit.
  generalize (Py.code c); intros n H.
  repeat rewrite ?orb_true_iff, ?andb_true_iff, ?N.leb_le, ?N.eqb_eq in H.
  apply orb_false_iff; split; apply andb_false_iff;
    rewrite !N.leb_gt; lia.
Qed.

Lemma split_nil (s : string) :
  Py.split s = [] -> forall pre c post, s = pre +:+ String c post -> Py.isspace c = true.
Proof.
  induction s as [|x s IH]; intros Hs pre c post Heq.
  - destruct pre; discriminate.
  - simpl in Hs. destruct (Py.isspace x) eqn:Hx.
    + destruct pre as [|y pre]; simpl in Heq; injection Heq as -> ->; eauto.
    + destruct s as [|y s]; [discriminate|].
      destruct (Py.isspace y); [discriminate|].
      destruct (Py.split (String y s)); discriminate.
Qed.

Lemma isspace_lower (c : ascii) : Py.isspace (Py.lower_char c) = Py.isspace c.
Proof.
  unfold Py.lower_char. destruct (Py.is_upper c) eqn:H; [|reflexivity].
  revert H. unfold Py.is_upper, Py.isspace, Py.code.
  destruct c as [[] [] [] [] [] [] [] []]; vm_compute; congruence.
Qed.

Lemma split_cons (c : ascii) (s : string) :
  Py.split (String c s) =
  if Py.isspace c then Py.split s
  else match s with
       | EmptyString => [String c EmptyString]
       | String c' _ =>
           if Py.isspace c' then String c EmptyString :: Py.split s
           else match Py.split s with
                | h :: t => String c h :: t
                | [] => [String c EmptyString]
                end
       end.
Proof. reflexivity. Qed.

Lemma split_length_lower (s : string) :
  List.length (Py.split (Py.lower s)) = List.length (Py.split s).
Proof.
  unfold Py.lower. induction s as [|x s IH]; [reflexivity|].
  change (Py.map_chars Py.lower_char (String x s))
    with (String (Py.lower_char x) (Py.map_chars Py.lower_char s)).
  rewrite !split_cons, isspace_lower.
  destruct (Py.isspace x); [exact IH|].
  destruct s as [|y s]; [reflexivity|].
  change (Py.map_chars Py.lower_char (String y s))
    with (String (Py.lower_char y) (Py.map_chars Py.lower_char s)) in *.
  cbv beta iota. rewrite isspace_lower.
  destruct (Py.isspace y); [cbn [List.length]; f_equal; exact IH|].
  destruct (Py.split (String (Py.lower_char y) (Py.map_chars Py.lower_char s)));
    destruct (Py.split (String y s)); simpl in *; lia.
Qed.

End StringFacts.

(** ** The keyword pattern *)

Section KeywordPattern.

Import Re Spec IntentClassifier.

Lemma run_lit (A : Type) (kw : string) :
  forall prev s cap (k : cont A),
    run A false (lit kw) prev s cap k =
    match strip_prefix kw s with
    | Some rest => k (last_char prev kw) rest cap
    | None => None
    end.
Proof.
  induction kw as [|a kw IH]; intros prev s cap k; [reflexivity|].
  destruct s as [|b s]; [reflexivity|].
  cbn [lit run strip_prefix same_char last_char].
  destruct (Ascii.eqb_spec a b) as [->|_]; [apply IH | reflexivity].
Qed.

Lemma keyword_pattern_at (kw : string) (prev : option ascii) (s : string) :
  run match_object false (keyword_pattern kw) prev s None accept =
  if xorb (word_before prev) (word_after s) then
    match strip_prefix kw s with
    | Some rest =>
        if xorb (word_before (last_char prev kw)) (word_after rest)
        then Some None else None
    | None => None
    end
  else None.
Proof.
  unfold keyword_pattern. cbn [run].
  destruct (xorb (word_before prev) (word_after s)); [|reflexivity].
  rewrite run_lit. destruct (strip_prefix kw s); reflexivity.
Qed.

Lemma wordy_prefix (kw s rest : string) (prev : option ascii) :
  wordy kw = true -> strip_prefix kw s = Some rest ->
  word_after s = true /\ word_before (last_char prev kw) = true.
Proof.
  unfold wordy. intros [Ha Hb]%andb_true_iff Hp.
  apply strip_prefix_Some in Hp as ->.
  destruct kw as [|c kw]; [discriminate|]. split; assumption.
Qed.

Lemma search_keyword (kw : string) :
  wordy kw = true ->
  forall s prev,
    is_match (search_from false (keyword_pattern kw) prev s) =
    occurs_from kw prev s.
Proof.
  intros Hw. induction s as [|c s IH]; intros prev.
  - cbn [search_from occurs_from]. rewrite keyword_pattern_at.
    destruct (strip_prefix kw "") as [rest|] eqn:Hp.
    + destruct (wordy_prefix _ _ _ prev Hw Hp) as [Ha Hb].
      rewrite Ha, Hb.
      destruct (word_before prev), (word_after rest); reflexivity.
    + destruct (xorb _ _); reflexivity.
  - cbn [search_from occurs_from]. rewrite keyword_pattern_at.
    destruct (strip_prefix kw (String c s)) as [rest|] eqn:Hp.
    + destruct (wordy_prefix _ _ _ prev Hw Hp) as [Ha Hb].
      rewrite Ha, Hb.
      destruct (word_before prev), (word_after rest); cbn; try reflexivity;
        apply IH.
    + destruct (xorb _ _); cbn; apply IH.
Qed.

Lemma keyword_found_matches (kw text : string) :
  wordy kw = true ->
  keyword_found kw (Py.lower text) = keyword_matches kw text.
Proof. intros Hw. apply search_keyword, Hw. Qed.

(** The decision procedure of the specification finds exactly the
    whole-word occurrences. *)
Lemma occurs_from_spec (kw : string) :
  forall s prev,
    occurs_from kw prev s = true <->
    exists pre post,
      s = pre +:+ kw +:+ post /\
      word_before (last_char prev pre) = false /\
      word_after post = false.
Proof.
  induction s as [|c s IH]; intros prev; cbn [occurs_from].
  - rewrite orb_false_r. split.
    + destruct (strip_prefix kw "") as [post|] eqn:Hp; [|discriminate].
      intros [H1 H2]%andb_true_iff. apply strip_prefix_Some in Hp.
      exists "", post. cbn. rewrite negb_true_iff in H1, H2. auto.
    + intros (pre & post & Heq & H1 & H2).
      destruct pre; [|discriminate]. cbn in Heq, H1.
      apply strip_prefix_Some in Heq. now rewrite Heq, H1, H2.
  - rewrite orb_true_iff, IH. split.
    + intros [H|(pre & post & Heq & H1 & H2)].
      * destruct (strip_prefix kw (String c s)) as [post|] eqn:Hp; [|discriminate].
        apply andb_true_iff in H as [H1 H2]. apply strip_prefix_Some in Hp.
        exists "", post. cbn. rewrite negb_true_iff in H1, H2. auto.
      * exists (String c pre), post. cbn. rewrite Heq. auto.
    + intros (pre & post & Heq & H1 & H2). destruct pre as [|d pre].
      * left. cbn in Heq, H1.
        assert (Hp : strip_prefix kw (String c s) = Some post)
          by now apply strip_prefix_Some.
        now rewrite Hp, H1, H2.
      * right. cbn in Heq. injection Heq as -> ->.
        exists pre, post. auto.
Qed.

Lemma keyword_matches_spec (kw text : string) :
  keyword_matches kw text = true <-> whole_word_in kw (Py.lower text).
Proof. apply occurs_from_spec. Qed.

End KeywordPattern.


(** ** Classification *)

Section Classification.

Import Re Spec IntentClassifier.

Lemma word_count_nonneg (s : string) : 0 <= word_count s.
Proof. unfold word_count. lia. Qed.

Lemma score_nonneg (text : string) (kws : list string) : 0 <= score text kws.
Proof.
  unfold score. induction (matching text kws) as [|kw l IH]; cbn; [lia|].
  pose proof (word_count_nonneg kw). lia.
Qed.

Lemma longest_nonneg (text : string) (kws : list string) :
  0 <= longest_match text kws.
Proof.
  unfold longest_match. induction (matching text kws) as [|kw l IH]; cbn; lia.
Qed.

Lemma scan_keywords_spec (text : string) :
  forall kws s m,
    forallb wordy kws = true -> 0 <= m ->
    scan_keywords (Py.lower text) kws s m =
    (s + score text kws, Z.max m (longest_match text kws)).
Proof.
  induction kws as [|kw kws IH]; intros s m Hw Hm.
  - unfold score, longest_match, matching. cbn. f_equal; lia.
  - cbn [forallb] in Hw. apply andb_true_iff in Hw as [Hkw Hw].
    cbn [scan_keywords]. rewrite (keyword_found_matches _ _ Hkw).
    unfold score, longest_match, matching in *. cbn [List.filter].
    destruct (keyword_matches kw text); cbn [map fold_right].
    + rewrite IH by (assumption || lia).
      unfold word_count. f_equal; lia.
    + now rewrite IH.
Qed.

Lemma scan_intents_spec (text : string) (table : list (Intent * list string)) :
  all_wordy table = true ->
  scan_intents (Py.lower text) table = (scores_of text table, lengths_of text table).
Proof.
  induction table as [|[i kws] table IH]; intros Hw; [reflexivity|].
  cbn [all_wordy forallb snd] in Hw. apply andb_true_iff in Hw as [Hk Hw].
  cbn [scan_intents]. rewrite scan_keywords_spec by (assumption || lia).
  rewrite (IH Hw). rewrite Z.max_r by apply longest_nonneg. reflexivity.
Qed.

Lemma fold_left_max (l : list Z) :
  forall v,
    (fold_left Z.max l v = v \/ In (fold_left Z.max l v) l) /\
    v <= fold_left Z.max l v /\
    forall x, In x l -> x <= fold_left Z.max l v.
Proof.
  induction l as [|y l IH]; intros v; cbn.
  - split; [now left | split; [lia | tauto]].
  - destruct (IH (Z.max v y)) as (H1 & H2 & H3). split; [|split].
    + destruct H1 as [H1|H1]; [|now right; right].
      rewrite H1. destruct (Z.max_spec v y) as [[_ ->]|[_ ->]]; auto.
    + lia.
    + intros x [->|Hx]; [lia | auto].
Qed.

Lemma py_max_spec (l : list Z) (m : Z) :
  py_max l = Some m -> In m l /\ forall x, In x l -> x <= m.
Proof.
  destruct l as [|v l]; [discriminate|]. cbn. intros [= <-].
  destruct (fold_left_max l v) as (H1 & H2 & H3). split.
  - destruct H1 as [->|H1]; auto.
  - intros x [<-|Hx]; auto.
Qed.

Lemma max_by_from_spec {A : Type} (key : A -> Z) (items : list A) :
  forall best,
    let r := max_by_from key best items in
    (r = best \/ In r items) /\ key best <= key r /\
    forall x, In x items -> key x <= key r.
Proof.
  induction items as [|y items IH]; intros best; cbn.
  - split; [now left | split; [lia | tauto]].
  - destruct (IH (if key best <? key y then y else best)) as (H1 & H2 & H3).
    destruct (Z.ltb_spec (key best) (key y)).
    + split; [|split].
      * destruct H1 as [->|H1]; auto.
      * lia.
      * intros x [->|Hx]; auto.
    + split; [|split].
      * destruct H1 as [->|H1]; auto.
      * lia.
      * intros x [->|Hx]; [lia | auto].
Qed.

Lemma py_max_by_spec {A : Type} (key : A -> Z) (items : list A) (r : A) :
  py_max_by key items = Some r ->
  In r items /\ forall x, In x items -> key x <= key r.
Proof.
  destruct items as [|y items]; [discriminate|]. cbn. intros [= <-].
  destruct (max_by_from_spec key items y) as (H1 & H2 & H3). split.
  - destruct H1 as [->|H1]; auto.
  - intros x [<-|Hx]; auto.
Qed.

Lemma dict_get_map (f : list string -> Z) (table : list (Intent * list string))
    (i : Intent) (kws : list string) :
  NoDup (map fst table) -> In (i, kws) table ->
  dict_get (map (fun entry => (fst entry, f (snd entry))) table) i = Some (f kws).
Proof.
  induction table as [|[j kws'] table IH]; intros Hnd Hin; [destruct Hin|].
  cbn in Hnd. apply NoDup_cons in Hnd as [Hj Hnd].
  cbn. destruct (decide (j = i)) as [->|Hne].
  - destruct Hin as [[= ->]|Hin]; [reflexivity|].
    exfalso. apply Hj. apply list_elem_of_In. now apply (in_map fst) in Hin.
  - destruct Hin as [[= -> _]|Hin]; [congruence | auto].
Qed.

Lemma candidates_spec (text : string) (table : list (Intent * list string))
    (m : Z) (i : Intent) :
  In i (map fst (List.filter (fun item => snd item =? m) (scores_of text table))) <->
  exists kws, In (i, kws) table /\ score text kws = m.
Proof.
  unfold scores_of. rewrite in_map_iff. split.
  - intros ([j v] & <- & Hin). apply filter_In in Hin as [Hin Hv].
    apply in_map_iff in Hin as ([j' kws] & [= <- <-] & Hin).
    cbn in Hv. apply Z.eqb_eq in Hv. exists kws. auto.
  - intros (kws & Hin & Hs). exists (i, m). split; [reflexivity|].
    apply filter_In. split; [|cbn; apply Z.eqb_refl].
    apply in_map_iff. exists (i, kws). split; [rewrite <- Hs; reflexivity | assumption].
Qed.

Lemma match_has_word (kw text : string) :
  wordy kw = true -> keyword_matches kw text = true ->
  0 < Z.of_nat (List.length (Py.split (Py.lower text))).
Proof.
  intros Hw Hm. apply keyword_matches_spec in Hm as (pre & post & Heq & _).
  destruct (Py.split (Py.lower text)) eqn:Hs; [|cbn; lia].
  exfalso. unfold wordy in Hw. apply andb_true_iff in Hw as [Hw _].
  destruct kw as [|c kw]; [discriminate|].
  cbn in Hw. apply isspace_not_word in Hw.
  rewrite (split_nil _ Hs pre c (kw +:+ post) Heq) in Hw. discriminate.
Qed.

Lemma score_positive_match (text : string) (kws : list string) :
  score text kws <> 0 ->
  exists kw, In kw kws /\ keyword_matches kw text = true.
Proof.
  unfold score, matching. intros H.
  destruct (List.filter (fun keyword => keyword_matches keyword text) kws) as [|kw l] eqn:E;
    [now cbn in H|].
  exists kw. apply (filter_In (fun keyword => keyword_matches keyword text)).
  rewrite E. now left.
Qed.

Lemma all_wordy_in (table : list (Intent * list string)) (i : Intent)
    (kws : list string) (kw : string) :
  all_wordy table = true -> In (i, kws) table -> In kw kws -> wordy kw = true.
Proof.
  unfold all_wordy. rewrite forallb_forall. intros H Hi Hk.
  specialize (H _ Hi). cbn in H. rewrite forallb_forall in H. auto.
Qed.

Lemma table_wordy : all_wordy INTENT_KEYWORDS = true.
Proof. vm_compute. reflexivity. Qed.

Lemma table_nodup : NoDup (map fst INTENT_KEYWORDS).
Proof. apply (bool_decide_unpack _). vm_compute. exact I. Qed.

Lemma table_nonempty : INTENT_KEYWORDS <> [].
Proof. discriminate. Qed.

(** The two outcomes of [classify]: either no keyword scores and the
    result is [(UNKNOWN, 0)], or the division is reached with a positive
    word count and the winner has the properties below. *)
Lemma classify_cases (text : string) :
  (all_scores_zero text /\ classify text = Some (UNKNOWN, 0%Q)) \/
  (exists best kws,
     In (best, kws) INTENT_KEYWORDS /\
     score text kws <> 0 /\
     (forall other kws',
        In (other, kws') INTENT_KEYWORDS ->
        score text kws' <= score text kws /\
        (score text kws' = score text kws ->
         longest_match text kws' <= longest_match text kws)) /\
     0 < word_count text /\
     classify text =
       Some (best, Qmake (score text kws) (Z.to_pos (word_count text)))).
Proof.
  unfold classify, all_scores_zero.
  rewrite scan_intents_spec by apply table_wordy.
  pose proof table_wordy as Hw. pose proof table_nodup as Hnd.
  pose proof table_nonempty as Hne.
  set (table := INTENT_KEYWORDS) in *. clearbody table.
  assert (Hval : forall i kws, In (i, kws) table ->
            In (score text kws) (map snd (scores_of text table))).
  { intros i kws Hi. apply in_map_iff. exists (i, score text kws).
    split; [reflexivity|]. apply in_map_iff. exists (i, kws). auto. }
  destruct (py_max (map snd (scores_of text table))) as [m|] eqn:Hmax.
  2:{ destruct table; [congruence | discriminate Hmax]. }
  apply py_max_spec in Hmax as [Hin Hle]. cbn [mbind option_bind].
  destruct (Z.eqb_spec m 0) as [->|Hm].
  - left. split; [|reflexivity]. intros i kws Hi.
    pose proof (Hle _ (Hval _ _ Hi)). pose proof (score_nonneg text kws). lia.
  - right.
    apply in_map_iff in Hin as ([j v] & Hv & Hin). cbn in Hv. subst v.
    apply in_map_iff in Hin as ([j' kwsj] & [= Hjj Hsj] & Hj).
    cbn in Hjj, Hsj. subst j'.
    set (key := fun intent => default 0 (dict_get (lengths_of text table) intent)).
    destruct (py_max_by key _) as [best|] eqn:Hbest.
    2:{ assert (Hc : In j (map fst (List.filter (fun item => snd item =? m)
                                       (scores_of text table))))
          by (apply candidates_spec; eauto).
        assert (Hnone : forall l : list Intent, py_max_by key l = None -> l = [])
          by (intros [|? ?]; [reflexivity | discriminate]).
        rewrite (Hnone _ Hbest) in Hc. destruct Hc. }
    apply py_max_by_spec in Hbest as [Hbin Hbmax].
    apply candidates_spec in Hbin as (kws & Hk & Hs).
    cbn [mbind option_bind]. unfold scores_of at 1.
    rewrite (dict_get_map (score text) table best kws Hnd Hk).
    cbn [mbind option_bind]. unfold py_truediv.
    assert (Hwc : 0 < Z.of_nat (List.length (Py.split (Py.lower text)))).
    { destruct (score_positive_match text kws) as (kw & Hkw & Hmatch);
        [congruence|].
      eapply match_has_word; [|exact Hmatch].
      eapply all_wordy_in; eauto. }
    destruct (Z.eqb_spec (Z.of_nat (List.length (Py.split (Py.lower text)))) 0)
      as [H0|_]; [lia|].
    exists best, kws. split; [assumption|]. split; [congruence|].
    split; [|split].
    + intros other kws' Ho. split.
      * rewrite Hs. apply Hle, (Hval _ _ Ho).
      * intros Heq.
        assert (Hc : In other (map fst (List.filter (fun item => snd item =? m)
                                          (scores_of text table))))
          by (apply candidates_spec; exists kws'; split; [assumption | congruence]).
        specialize (Hbmax _ Hc). unfold key, lengths_of in Hbmax.
        rewrite (dict_get_map (longest_match text) table other kws' Hnd Ho),
                (dict_get_map (longest_match text) table best kws Hnd Hk) in Hbmax.
        exact Hbmax.
    + unfold word_count. now rewrite <- split_length_lower.
    + cbn [mbind option_bind]. unfold word_count.
      now rewrite split_length_lower.
Qed.

Lemma classify_total (text : string) : exists result, classify text = Some result.
Proof.
  destruct (classify_cases text) as [[_ H]|(best & kws & _ & _ & _ & _ & H)];
    eauto.
Qed.

End Classification.

(** ** The conversation state machine *)

Section StateMachine.

Import Conversation Flow.

Variable customers : gmap string Config.customer.

Ltac session_simpl :=
  cbn [verified_customer_id verification_attempts max_verification_attempts
       pending_intent conversation_history set_verified_customer_id
       set_verification_attempts set_pending_intent set_conversation_history
       fst snd] in *.

Lemma set_last_assistant_snoc (h : list Turn) (t : Turn) (r : string) :
  set_last_assistant (h ++ [t]) r =
  Some (h ++ [ {| user := user t; assistant := Some r |} ]).
Proof.
  induction h as [|x h IH]; [reflexivity|].
  cbn [app set_last_assistant]. rewrite IH.
  destruct (h ++ [t]) eqn:E; [destruct h; discriminate | reflexivity].
Qed.

(** The handler neither reads nor writes the history. *)
Lemma handler_history (s : ConversationSession) (h : list Turn) (m : string) :
  _handle_verification_input customers (set_conversation_history h s) m =
  (fst (_handle_verification_input customers s m),
   set_conversation_history h (snd (_handle_verification_input customers s m))).
Proof.
  unfold _handle_verification_input. destruct s as [v a mx p hist].
  session_simpl.
  destruct (mx <? a + 1); [reflexivity|].
  destruct (parse_verification_input m) as [[n d] i].
  destruct (any_missing n d i); [reflexivity|].
  destruct (CustomerDataManager.verify_customer _ _ _ _) as [[] result];
    cbn [negb]; [reflexivity|].
  destruct (0 <? mx - (a + 1)); reflexivity.
Qed.

(** A message received while a verification is pending goes to the
    handler, and its response is returned as it is. *)
Lemma process_message_awaiting (s : ConversationSession) (m : string) :
  awaiting s ->
  let out := _handle_verification_input customers s (Security.sanitize_input m) in
  exists s',
    process_message customers s m = Some (fst out, s') /\
    control s' = control (snd out) /\
    conversation_history s' =
      conversation_history s ++
      [ {| user := Security.sanitize_input m; assistant := Some (fst out) |} ].
Proof.
  intros [Hp Hv] out. unfold process_message.
  assert (Hguard :
    bool_decide (pending_intent s ≠ None) && is_verification_pending s = true).
  { unfold is_verification_pending.
    rewrite !bool_decide_eq_true_2 by assumption. reflexivity. }
  replace (pending_intent (set_conversation_history _ s)) with (pending_intent s)
    by reflexivity.
  replace (is_verification_pending (set_conversation_history _ s))
    with (is_verification_pending s) by reflexivity.
  rewrite Hguard, handler_history. fold out.
  unfold record_assistant. cbn [conversation_history set_conversation_history].
  rewrite set_last_assistant_snoc. cbn [mbind option_bind user].
  eexists. split; [reflexivity|]. split; reflexivity.
Qed.

(** A message received in any other state is classified. *)
Lemma process_message_classified (s : ConversationSession) (m : string) :
  pending_intent s = None \/ verified_customer_id s <> None ->
  exists intent confidence,
    IntentClassifier.classify (Security.sanitize_input m) = Some (intent, confidence) /\
    let turn r := {| user := Security.sanitize_input m; assistant := Some r |} in
    let log r s0 :=
      set_conversation_history (conversation_history s ++ [turn r]) s0 in
    process_message customers s m =
    if decide (intent = UNKNOWN) then
      Some (not_understood_text, log not_understood_text s)
    else if IntentClassifier.is_sensitive_query intent
              && negb (Py.truthy (verified_customer_id s)) then
      Some (verification_prompt,
            log verification_prompt (set_pending_intent (Some intent) s))
    else
      let r := validated (ResponseHandler.handle_query customers intent
                       (verified_customer_id s)) in
      Some (r, log r s).
Proof.
  intros Hidle.
  destruct (classify_total (Security.sanitize_input m))
    as [[intent confidence] Hc].
  exists intent, confidence. split; [assumption|]. cbn zeta.
  unfold process_message.
  assert (Hguard :
    bool_decide (pending_intent s ≠ None) && is_verification_pending s = false).
  { unfold is_verification_pending. destruct Hidle as [Hp|Hv].
    - rewrite (bool_decide_eq_false_2 (pending_intent s ≠ None)) by congruence.
      reflexivity.
    - rewrite (bool_decide_eq_false_2 (verified_customer_id s = None)) by assumption.
      now rewrite !andb_false_r. }
  replace (pending_intent (set_conversation_history _ s)) with (pending_intent s)
    by reflexivity.
  replace (is_verification_pending (set_conversation_history _ s))
    with (is_verification_pending s) by reflexivity.
  rewrite Hguard, Hc. cbn [mbind option_bind].
  destruct (decide (intent = UNKNOWN)).
  - unfold record_assistant. cbn [conversation_history set_conversation_history].
    rewrite set_last_assistant_snoc. destruct s; reflexivity.
  - assert (Hanswer : forall s0,
      conversation_history s0 =
        conversation_history s ++
        [ {| user := Security.sanitize_input m; assistant := None |} ] ->
      verified_customer_id s0 = verified_customer_id s ->
      answer customers s0 intent =
      Some (validated (ResponseHandler.handle_query customers intent (verified_customer_id s)),
            set_conversation_history
              (conversation_history s ++
               [ {| user := Security.sanitize_input m;
                    assistant := Some (validated (ResponseHandler.handle_query customers intent
                                               (verified_customer_id s))) |} ]) s0)).
    { intros s0 Hh Hv0. unfold answer, validated, record_assistant.
      rewrite Hv0, Hh.
      destruct (Security.validate_response _) as [[] err]; cbn [fst negb];
        rewrite set_last_assistant_snoc; reflexivity. }
    destruct (IntentClassifier.is_sensitive_query intent); cbn [andb].
    + cbn [verified_customer_id set_conversation_history].
      destruct (Py.truthy (verified_customer_id s)); cbn [negb].
      * rewrite Hanswer by reflexivity. destruct s; reflexivity.
      * unfold record_assistant.
        cbn [conversation_history set_conversation_history set_pending_intent].
        rewrite set_last_assistant_snoc. destruct s; reflexivity.
    + rewrite Hanswer by reflexivity. destruct s; reflexivity.
Qed.


Lemma control_fields (s : ConversationSession) v a mx p :
  control s = (v, a, mx, p) ->
  verified_customer_id s = v /\ verification_attempts s = a /\
  max_verification_attempts s = mx /\ pending_intent s = p.
Proof. unfold control. intros [= -> -> -> ->]. auto. Qed.

Lemma count_missing_range (n d i : option string) :
  any_missing n d i = true -> 1 <= count_missing n d i <= 3.
Proof.
  unfold any_missing, count_missing.
  destruct (Py.truthy n), (Py.truthy d), (Py.truthy i); cbn;
    (discriminate || lia).
Qed.

(** *** One verification attempt, case by case *)

(** The budget is already used: the message is rejected outright. *)
Lemma attempt_over_budget (s : ConversationSession) (m : string) :
  awaiting s ->
  max_verification_attempts s < verification_attempts s + 1 ->
  exists s',
    process_message customers s m = Some (lockout_text, s') /\
    control s' =
      (None, verification_attempts s + 1, max_verification_attempts s, None).
Proof.
  intros Haw Hlt.
  destruct (process_message_awaiting s m Haw) as (s' & Hpm & Hc & _).
  destruct Haw as [_ Hv].
  exists s'. revert Hpm Hc. unfold _handle_verification_input. session_simpl.
  rewrite (proj2 (Z.ltb_lt _ _) Hlt). session_simpl. unfold control at 2.
  session_simpl. rewrite Hv. auto.
Qed.

(** Fields are missing: the attempt is counted and the session waits on. *)
Lemma attempt_incomplete (s : ConversationSession) (m : string) :
  awaiting s ->
  verification_attempts s + 1 <= max_verification_attempts s ->
  complete_claim m = false ->
  exists k s',
    1 <= k <= 3 /\
    process_message customers s m = Some (missing_text k, s') /\
    control s' =
      (None, verification_attempts s + 1, max_verification_attempts s,
       pending_intent s).
Proof.
  intros Haw Hle Hinc.
  destruct (process_message_awaiting s m Haw) as (s' & Hpm & Hc & _).
  destruct Haw as [_ Hv].
  revert Hpm Hc Hinc. unfold _handle_verification_input, complete_claim.
  session_simpl. rewrite (proj2 (Z.ltb_ge _ _) Hle).
  destruct (parse_verification_input _) as [[n d] i].
  intros Hpm Hc Hinc. apply negb_false_iff in Hinc. rewrite Hinc in Hpm, Hc.
  session_simpl. exists (count_missing n d i), s'.
  split; [now apply count_missing_range|]. split; [assumption|].
  rewrite Hc. unfold control. session_simpl. now rewrite Hv.
Qed.

(** The claim is rejected and attempts remain. *)
Lemma attempt_rejected (s : ConversationSession) (m reason : string) :
  awaiting s ->
  verification_attempts s + 1 < max_verification_attempts s ->
  complete_claim m = true ->
  verify_claim customers m = (false, reason) ->
  exists s',
    process_message customers s m =
      Some (failure_text reason
              (max_verification_attempts s - (verification_attempts s + 1)), s') /\
    control s' =
      (None, verification_attempts s + 1, max_verification_attempts s,
       pending_intent s).
Proof.
  intros Haw Hlt Hcomp Hver.
  destruct (process_message_awaiting s m Haw) as (s' & Hpm & Hc & _).
  destruct Haw as [_ Hv].
  revert Hpm Hc Hcomp Hver.
  unfold _handle_verification_input, complete_claim, verify_claim.
  session_simpl. rewrite (proj2 (Z.ltb_ge _ _)) by lia.
  destruct (parse_verification_input _) as [[n d] i].
  intros Hpm Hc Hcomp Hver. apply negb_true_iff in Hcomp.
  rewrite Hcomp, Hver in Hpm, Hc. cbn [negb] in Hpm, Hc.
  rewrite (proj2 (Z.ltb_lt _ _)) in Hpm, Hc by lia. session_simpl.
  exists s'. split; [assumption|].
  rewrite Hc. unfold control. session_simpl. now rewrite Hv.
Qed.

(** The claim is rejected and it was the last attempt: lockout. *)
Lemma attempt_rejected_last (s : ConversationSession) (m reason : string) :
  awaiting s ->
  verification_attempts s + 1 = max_verification_attempts s ->
  complete_claim m = true ->
  verify_claim customers m = (false, reason) ->
  exists s',
    process_message customers s m = Some (lockout_text, s') /\
    control s' =
      (None, verification_attempts s + 1, max_verification_attempts s, None).
Proof.
  intros Haw Heq Hcomp Hver.
  destruct (process_message_awaiting s m Haw) as (s' & Hpm & Hc & _).
  destruct Haw as [_ Hv].
  revert Hpm Hc Hcomp Hver.
  unfold _handle_verification_input, complete_claim, verify_claim.
  session_simpl. rewrite (proj2 (Z.ltb_ge _ _)) by lia.
  destruct (parse_verification_input _) as [[n d] i].
  intros Hpm Hc Hcomp Hver. apply negb_true_iff in Hcomp.
  rewrite Hcomp, Hver in Hpm, Hc. cbn [negb] in Hpm, Hc.
  rewrite (proj2 (Z.ltb_ge _ _)) in Hpm, Hc by lia. session_simpl.
  exists s'. split; [assumption|].
  rewrite Hc. unfold control. session_simpl. now rewrite Hv.
Qed.

(** The claim is accepted: the pending request is answered at once. *)
Lemma attempt_verified (s : ConversationSession) (m customer_id : string)
    (intent : Intent) :
  pending_intent s = Some intent ->
  verified_customer_id s = None ->
  verification_attempts s + 1 <= max_verification_attempts s ->
  correct_claim customers m customer_id ->
  exists s',
    process_message customers s m =
      Some (success_prefix +:+
            ResponseHandler.handle_query customers intent (Some customer_id), s') /\
    control s' = (Some customer_id, 0, max_verification_attempts s, None).
Proof.
  intros Hp Hv Hle [Hcomp Hver].
  assert (Haw : awaiting s) by (split; congruence).
  destruct (process_message_awaiting s m Haw) as (s' & Hpm & Hc & _).
  revert Hpm Hc Hcomp Hver.
  unfold _handle_verification_input, complete_claim, verify_claim.
  session_simpl. rewrite (proj2 (Z.ltb_ge _ _)) by lia.
  destruct (parse_verification_input _) as [[n d] i].
  intros Hpm Hc Hcomp Hver. apply negb_true_iff in Hcomp.
  rewrite Hcomp, Hver, Hp in Hpm, Hc. cbn [negb] in Hpm, Hc. session_simpl.
  exists s'. split; [assumption|].
  rewrite Hc. unfold control. now session_simpl.
Qed.

(** *** Messages outside a verification *)

(** A sensitive request of an unverified session opens a verification. *)
Lemma ask_unverified (s : ConversationSession) (m : string) (intent : Intent) :
  pending_intent s = None ->
  Py.truthy (verified_customer_id s) = false ->
  asks_sensitive m intent ->
  exists s',
    process_message customers s m = Some (verification_prompt, s') /\
    control s' =
      (verified_customer_id s, verification_attempts s,
       max_verification_attempts s, Some intent).
Proof.
  intros Hp Hv [[c Hc] Hs].
  destruct (process_message_classified s m (or_introl Hp))
    as (intent' & c' & Hc' & Hpm).
  rewrite Hc in Hc'. injection Hc' as <- <-. cbn zeta in Hpm.
  rewrite Hs, Hv in Hpm. cbn [andb negb] in Hpm.
  destruct (decide (intent = UNKNOWN)) as [->|_]; [discriminate Hs|].
  eexists. split; [exact Hpm|]. reflexivity.
Qed.

(** A sensitive request of a verified session is answered directly,
    through the security validator. *)
Lemma ask_verified (s : ConversationSession) (m customer_id : string)
    (intent : Intent) :
  pending_intent s = None ->
  verified_customer_id s = Some customer_id ->
  customer_id <> "" ->
  asks_sensitive m intent ->
  exists s',
    process_message customers s m =
      Some (validated (ResponseHandler._handle_sensitive_query customers intent customer_id), s') /\
    control s' = control s.
Proof.
  intros Hp Hv Hne [[c Hc] Hs].
  destruct (process_message_classified s m (or_introl Hp))
    as (intent' & c' & Hc' & Hpm).
  rewrite Hc in Hc'. injection Hc' as <- <-. cbn zeta in Hpm.
  rewrite Hs, Hv in Hpm.
  destruct customer_id as [|x cid]; [congruence|].
  cbn [andb negb Py.truthy] in Hpm.
  destruct (decide (intent = UNKNOWN)) as [->|_]; [discriminate Hs|].
  unfold ResponseHandler.handle_query in Hpm. rewrite Hs in Hpm.
  eexists. split; [exact Hpm|]. reflexivity.
Qed.

End StateMachine.

(** * The claims *)

Section ClassifierClaims.

Import Re Spec IntentClassifier Flow.

Lemma blank_split (s : string) : blank s = true -> Py.split s = [].
Proof.
  induction s as [|c s IH]; [reflexivity|].
  cbn [blank]. intros [Hc Hs]%andb_true_iff. rewrite split_cons, Hc. auto.
Qed.

Lemma all_zero_max (text : string) :
  all_scores_zero text ->
  py_max (map snd (scores_of text INTENT_KEYWORDS)) = Some 0.
Proof.
  intros Hz. destruct (py_max _) as [m|] eqn:Hmax; [|discriminate Hmax].
  apply py_max_spec in Hmax as [Hin _].
  apply in_map_iff in Hin as ([i v] & Hv & Hin). cbn in Hv. subst v.
  apply in_map_iff in Hin as ([j kws] & [= _ Hs] & Hj). cbn in Hs.
  rewrite <- Hs. f_equal. eapply Hz, Hj.
Qed.

(** C10.  [classify] returns a result on every text.  On a blank text, and
    on a text in which no keyword is found, the result is [(UNKNOWN, 0)].
    When the guard before the division lets it through (the largest score
    is not zero), some keyword of the table was found in the lower-cased
    text, and the divisor, the number of words of that text, is positive:
    the division never divides by zero. *)
Theorem classify_division_is_safe (text : string) :
  (exists result, classify text = Some result) /\
  (blank text = true -> classify text = Some (UNKNOWN, 0%Q)) /\
  ((forall intent keywords keyword,
      In (intent, keywords) INTENT_KEYWORDS -> In keyword keywords ->
      keyword_found keyword (Py.lower text) = false) ->
   classify text = Some (UNKNOWN, 0%Q)) /\
  (py_max (map snd (fst (scan_intents (Py.lower text) INTENT_KEYWORDS))) <> Some 0 ->
   (exists intent keywords keyword,
      In (intent, keywords) INTENT_KEYWORDS /\ In keyword keywords /\
      keyword_found keyword (Py.lower text) = true) /\
   0 < Z.of_nat (List.length (Py.split (Py.lower text)))).
Proof.
  assert (Hfound : forall best kws,
    In (best, kws) INTENT_KEYWORDS -> score text kws <> 0 ->
    exists keyword, In keyword kws /\ keyword_found keyword (Py.lower text) = true).
  { intros best kws Hin Hs.
    destruct (score_positive_match text kws Hs) as (kw & Hkw & Hm).
    exists kw. split; [assumption|].
    rewrite keyword_found_matches; [assumption|].
    eapply all_wordy_in; eauto using table_wordy. }
  split; [apply classify_total|].
  destruct (classify_cases text)
    as [[Hz Hc]|(best & kws & Hin & Hs & _ & Hwc & Hc)].
  - split; [auto|]. split; [auto|]. intros Hmax. exfalso. apply Hmax.
    rewrite scan_intents_spec by apply table_wordy. now apply all_zero_max.
  - split; [|split].
    + intros Hb. apply blank_split in Hb. unfold word_count in Hwc.
      rewrite Hb in Hwc. cbn in Hwc. lia.
    + intros Hnone. destruct (Hfound _ _ Hin Hs) as (kw & Hkw & Hf).
      rewrite (Hnone _ _ _ Hin Hkw) in Hf. discriminate.
    + intros _. split.
      * destruct (Hfound _ _ Hin Hs) as (kw & Hkw & Hf). eauto 6.
      * unfold word_count in Hwc. now rewrite split_length_lower.
Qed.

(** C4.  The result of [classify] is the one the specification describes:
    with the score of an intent the sum of the word counts of its keywords
    that occur in the lower-cased text as whole words, the result is
    [(UNKNOWN, 0)] when every score is zero, and otherwise an intent of the
    largest score whose longest matching keyword is at least as long as
    that of every intent of the same score, with the confidence the score
    divided by the number of words of the text.  The decision procedure
    used by the scores finds exactly the whole-word occurrences, and a
    confidence can be larger than one. *)
Theorem classify_meets_specification :
  (forall text, exists result,
     classify text = Some result /\ classify_spec text result) /\
  (forall keyword text,
     keyword_matches keyword text = true <->
     whole_word_in keyword (Py.lower text)) /\
  (exists text intent confidence,
     classify text = Some (intent, confidence) /\ (1 < confidence)%Q).
Proof.
  split; [|split].
  - intros text.
    destruct (classify_cases text)
      as [[Hz Hc]|(best & kws & Hin & Hs & Hbest & Hwc & Hc)].
    + exists (UNKNOWN, 0%Q). split; [assumption|]. cbn. split; [auto|].
      intros Hnz. contradiction.
    + eexists. split; [exact Hc|]. cbn. split.
      * intros Hz. exfalso. apply Hs. eapply Hz, Hin.
      * intros _. exists kws. auto.
  - apply keyword_matches_spec.
  - exists "account balance", ACCOUNT_BALANCE, (3 # 2)%Q.
    split; [vm_compute; reflexivity | reflexivity].
Qed.

End ClassifierClaims.

Section HistoryClaim.

Import Conversation Flow.

(** C8.  Every call of [process_message] returns, and the history of the
    session afterwards is the history before with exactly one turn added:
    the (sanitized) user text and the response that is returned.  This
    holds on every path. *)
Theorem process_message_appends_one_turn
    (customers : gmap string Config.customer) (s : ConversationSession)
    (user_message : string) :
  exists response s',
    process_message customers s user_message = Some (response, s') /\
    conversation_history s' =
      conversation_history s ++
      [ {| user := Security.sanitize_input user_message;
           assistant := Some response |} ].
Proof.
  destruct (pending_intent s) as [p|] eqn:Hp.
  - destruct (verified_customer_id s) as [v|] eqn:Hv.
    + destruct (process_message_classified customers s user_message)
        as (intent & c & _ & Hpm); [right; congruence|].
      cbn zeta in Hpm. rewrite Hpm.
      destruct (decide (intent = UNKNOWN)); [eauto|].
      destruct (_ && _); eauto.
    + destruct (process_message_awaiting customers s user_message)
        as (s' & Hpm & _ & Hh); [split; congruence|]. eauto.
  - destruct (process_message_classified customers s user_message)
      as (intent & c & _ & Hpm); [now left|].
    cbn zeta in Hpm. rewrite Hpm.
    destruct (decide (intent = UNKNOWN)); [eauto|].
    destruct (_ && _); eauto.
Qed.

End HistoryClaim.

Section ParsingClaim.

Import Conversation Flow.

Lemma parse_claim_stark :
  parse_verification_input claim_stark =
  (Some "Tony Stark", Some "1996/09/10", Some "A234763849").
Proof. vm_compute. reflexivity. Qed.

Lemma parse_claim_stark_labeled :
  parse_verification_input claim_stark_labeled =
  (Some "Tony Stark", Some "1996/09/10", Some "A234763849").
Proof. vm_compute. reflexivity. Qed.

(** C7.  The labeled claim and the comma-separated claim of the scenarios
    parse to the same triple, so the handler, in any session and with any
    directory, gives the same response and the same session for both, and
    so does [process_message] in a session that awaits verification (up to
    the user text written to the history).  In general a value found by
    its label is kept, and the positional parts only fill the fields whose
    labeled value is missing, when there are at least three parts. *)
Theorem labeled_claim_parses_as_positional :
  parse_verification_input claim_stark_labeled =
    parse_verification_input claim_stark /\
  parse_verification_input claim_stark =
    (Some "Tony Stark", Some "1996/09/10", Some "A234763849") /\
  (forall customers s,
     _handle_verification_input customers s claim_stark_labeled =
     _handle_verification_input customers s claim_stark) /\
  (forall customers s,
     awaiting s ->
     exists response s1 s2,
       process_message customers s claim_stark_labeled = Some (response, s1) /\
       process_message customers s claim_stark = Some (response, s2) /\
       control s1 = control s2) /\
  (forall user_input,
     let '(labeled_name, labeled_dob, labeled_id) := parse_labeled user_input in
     let '(name, dob, id_number) := parse_verification_input user_input in
     let parts := positional_parts user_input in
     let fill (labeled : option string) (position : nat) :=
       if Py.truthy labeled then labeled
       else if 3 <=? Z.of_nat (List.length parts)
            then Some (Py.strip (nth position parts ""))
            else labeled in
     name = fill labeled_name 0%nat /\
     dob = fill labeled_dob 1%nat /\
     id_number = fill labeled_id 2%nat).
Proof.
  split; [now rewrite parse_claim_stark, parse_claim_stark_labeled|].
  split; [apply parse_claim_stark|].
  assert (Hh : forall customers s,
     _handle_verification_input customers s claim_stark_labeled =
     _handle_verification_input customers s claim_stark).
  { intros customers s. unfold _handle_verification_input.
    now rewrite parse_claim_stark, parse_claim_stark_labeled. }
  split; [exact Hh|]. split.
  - intros customers s Haw.
    destruct (process_message_awaiting customers s claim_stark_labeled Haw)
      as (s1 & H1 & Hc1 & _).
    destruct (process_message_awaiting customers s claim_stark Haw)
      as (s2 & H2 & Hc2 & _).
    change (Security.sanitize_input claim_stark_labeled)
      with claim_stark_labeled in *.
    change (Security.sanitize_input claim_stark) with claim_stark in *.
    rewrite Hh in H1, Hc1.
    eexists _, s1, s2. split; [exact H1|]. split; [exact H2|]. congruence.
  - intros user_input. unfold parse_verification_input.
    destruct (parse_labeled user_input) as [[ln ld] li].
    unfold any_missing, Py.or_else.
    destruct (Py.truthy ln), (Py.truthy ld), (Py.truthy li); cbn [negb orb];
      destruct (3 <=? Z.of_nat (List.length (positional_parts user_input)));
      auto.
Qed.

End ParsingClaim.

Section DirectoryClaims.

Import Flow CustomerDataManager.

Lemma lookup_CUSTOMERS (k : string) (c : Config.customer) :
  Config.CUSTOMERS !! k = Some c -> k = "A234763849" /\ c = Config.tony_stark.
Proof.
  unfold Config.CUSTOMERS. intros [<- <-]%lookup_singleton_Some. auto.
Qed.

Lemma only_lowercase_a (x : ascii) :
  x <> "A"%char -> Py.lower_char x = Py.lower_char "A" -> x = "a"%char.
Proof.
  destruct x as [[] [] [] [] [] [] [] []]; vm_compute; congruence.
Qed.

(** C9.  An identifier that differs from a stored one only in the case of
    its first letter passes the identifier format check, which upper-cases
    it, and is not a key of the directory, whose lookup is case-sensitive.
    So [verify_customer] never succeeds on it and never reports an
    identifier mismatch, and once the name and the date of birth pass
    their format checks the result is the not-found reason. *)
Theorem leading_case_id_is_not_found
    (id_number stored : string) (c : Config.customer) :
  Config.CUSTOMERS !! stored = Some c ->
  differs_in_leading_case id_number stored ->
  Security.validate_id_number id_number = true /\
  Config.CUSTOMERS !! id_number = None /\
  forall name dob,
    fst (verify_customer Config.CUSTOMERS name dob id_number) = false /\
    snd (verify_customer Config.CUSTOMERS name dob id_number)
      <> "ID number does not match" /\
    (Security.validate_name name = true ->
     Security.validate_dob dob = true ->
     verify_customer Config.CUSTOMERS name dob id_number =
       (false, "Customer ID not found")).
Proof.
  intros Hst (x & y & rest & -> & Hs & Hxy & Hl).
  apply lookup_CUSTOMERS in Hst as [-> _].
  injection Hs as <- <-.
  apply only_lowercase_a in Hl; [subst x | congruence].
  assert (Hid : Security.validate_id_number "a234763849" = true)
    by (vm_compute; reflexivity).
  assert (Hlook : Config.CUSTOMERS !! "a234763849" = None)
    by (vm_compute; reflexivity).
  split; [exact Hid|]. split; [exact Hlook|].
  intros name dob. unfold verify_customer. rewrite Hid, Hlook.
  destruct (Security.validate_name name), (Security.validate_dob dob);
    cbn [negb fst snd]; (split; [reflexivity|]); (split; [discriminate|]);
    (reflexivity || discriminate).
Qed.

Lemma leading_case_id_is_not_found_witness :
  Security.validate_id_number "a234763849" = true /\
  Config.CUSTOMERS !! "a234763849" = None /\
  verify_customer Config.CUSTOMERS "Tony Stark" "1996/09/10" "a234763849" =
    (false, "Customer ID not found").
Proof.
  destruct (leading_case_id_is_not_found "a234763849" "A234763849"
              Config.tony_stark) as (Hid & Hlook & Hall).
  - vm_compute. reflexivity.
  - exists "a"%char, "A"%char, "234763849".
    split; [reflexivity|]. split; [reflexivity|].
    split; [discriminate | reflexivity].
  - split; [exact Hid|]. split; [exact Hlook|].
    apply Hall; vm_compute; reflexivity.
Defined.

(** The order of the checks of [verify_customer], as one cascade. *)
Lemma verify_customer_cascade (customers : gmap string Config.customer)
    (name dob id_number : string) :
  verify_customer customers name dob id_number =
  if negb (Security.validate_name name) then (false, "Invalid name format")
  else if negb (Security.validate_dob dob)
  then (false, "Invalid date of birth format (use YYYY/MM/DD)")
  else if negb (Security.validate_id_number id_number)
  then (false, "Invalid ID number format")
  else match customers !! id_number with
       | None => (false, "Customer ID not found")
       | Some customer =>
           if negb (String.eqb (Py.lower (Config.name customer)) (Py.lower name))
           then (false, "Name does not match")
           else if negb (String.eqb (Config.dob customer) dob)
           then (false, "Date of birth does not match")
           else if negb (String.eqb (Config.id_number customer) id_number)
           then (false, "ID number does not match")
           else (true, id_number)
       end.
Proof. reflexivity. Qed.

(** C5.  The format checks end with [$], which also matches before a final
    newline: a date of birth and an identifier followed by a newline pass
    their format checks, and [verify_customer] then reports a mismatch of
    the date of birth, and an unknown identifier, where a strict format
    check would have reported the format. *)
Theorem verify_customer_accepts_trailing_newline :
  Security.validate_dob ("1996/09/10" +:+ Py.nl) = true /\
  verify_customer Config.CUSTOMERS "Tony Stark" ("1996/09/10" +:+ Py.nl) "A234763849" =
    (false, "Date of birth does not match") /\
  Security.validate_id_number ("A234763849" +:+ Py.nl) = true /\
  verify_customer Config.CUSTOMERS "Tony Stark" "1996/09/10" ("A234763849" +:+ Py.nl) =
    (false, "Customer ID not found").
Proof. repeat split; vm_compute; reflexivity. Qed.

End DirectoryClaims.

(** ** Facts about the directory and the responses *)

Section DirectoryFacts.

Import Conversation Flow CustomerDataManager.

Variable customers : gmap string Config.customer.

Lemma verify_customer_true (name dob id_number customer_id : string) :
  verify_customer customers name dob id_number = (true, customer_id) ->
  customer_id = id_number /\
  Security.validate_id_number id_number = true /\
  exists c, customers !! id_number = Some c.
Proof.
  unfold verify_customer.
  destruct (Security.validate_name name); [|discriminate].
  destruct (Security.validate_dob dob); [|discriminate].
  destruct (Security.validate_id_number id_number); [|discriminate].
  cbn [negb]. destruct (customers !! id_number) as [c|]; [|discriminate].
  destruct (negb _); [discriminate|].
  destruct (negb _); [discriminate|].
  destruct (negb _); [discriminate|].
  intros [= <-]. eauto.
Qed.

Lemma verify_customer_reason (name dob id_number reason : string) :
  verify_customer customers name dob id_number = (false, reason) ->
  In reason rejection_reasons.
Proof.
  unfold verify_customer, rejection_reasons.
  destruct (negb (Security.validate_name name)); [intros [= <-]; cbn; auto|].
  destruct (negb (Security.validate_dob dob)); [intros [= <-]; cbn; auto|].
  destruct (negb (Security.validate_id_number id_number));
    [intros [= <-]; cbn; auto|].
  destruct (customers !! id_number) as [c|]; [|intros [= <-]; cbn; auto].
  destruct (negb _); [intros [= <-]; cbn; auto 10|].
  destruct (negb _); [intros [= <-]; cbn; auto 10|].
  destruct (negb _); [intros [= <-]; cbn; auto 10|].
  discriminate.
Qed.

Lemma correct_claim_customer (m customer_id : string) :
  correct_claim customers m customer_id ->
  customer_id <> "" /\ exists c, customers !! customer_id = Some c.
Proof.
  intros [_ Hv]. unfold verify_claim in Hv.
  destruct (parse_verification_input _) as [[n d] i].
  apply verify_customer_true in Hv as (Heq & Hid & c & Hc).
  subst customer_id. split; [|eauto]. intros Hempty. rewrite Hempty in Hid.
  discriminate Hid.
Qed.

Lemma wrong_attempt_cases (m : string) :
  wrong_attempt customers m ->
  complete_claim m = false \/
  (complete_claim m = true /\
   exists reason,
     verify_claim customers m = (false, reason) /\ In reason rejection_reasons).
Proof.
  intros [H|H]; [now left|].
  destruct (complete_claim m); [right | now left]. split; [reflexivity|].
  destruct (verify_claim customers m) as [ok reason] eqn:Hv. cbn in H. subst ok.
  exists reason. split; [reflexivity|].
  unfold verify_claim in Hv.
  destruct (parse_verification_input _) as [[n d] i].
  eapply verify_customer_reason, Hv.
Qed.

Lemma sensitive_answer (intent : Intent) (customer_id : string)
    (c : Config.customer) :
  IntentClassifier.is_sensitive_query intent = true ->
  customers !! customer_id = Some c ->
  ResponseHandler._handle_sensitive_query customers intent customer_id =
  sentence intent +:+ stored_value c intent.
Proof.
  intros Hs Hc. unfold ResponseHandler._handle_sensitive_query, get_customer_info.
  rewrite Hc. destruct intent; try discriminate Hs; reflexivity.
Qed.

End DirectoryFacts.

Section ResponseFacts.

Import Conversation Flow.

Lemma contains_unfold (needle hay : string) :
  Py.contains needle hay =
  Py.startswith needle hay ||
  match hay with
  | EmptyString => false
  | String _ hay' => Py.contains needle hay'
  end.
Proof. destruct hay; reflexivity. Qed.

Lemma startswith_append (v rest : string) : Py.startswith v (v +:+ rest) = true.
Proof.
  induction v as [|c v IH]; [reflexivity|].
  cbn. now rewrite Ascii.eqb_refl, IH.
Qed.

Lemma contains_append (a v rest : string) :
  Py.contains v (a +:+ v +:+ rest) = true.
Proof.
  induction a as [|c a IH]; rewrite contains_unfold.
  - cbn [String.append]. now rewrite startswith_append.
  - cbn [String.append]. rewrite IH. apply orb_true_r.
Qed.

Lemma append_empty_r (s : string) : s +:+ "" = s.
Proof. induction s as [|c s IH]; cbn; [reflexivity | now rewrite IH]. Qed.

Lemma contains_suffix (a v : string) : Py.contains v (a +:+ v) = true.
Proof.
  rewrite <- (append_empty_r v) at 2. apply contains_append.
Qed.

Lemma no_leak_check (response : string) :
  existsb (fun value => Py.contains value response)
    (sensitive_values Config.tony_stark) = false ->
  ~ leaks Config.CUSTOMERS response.
Proof.
  intros Hex (id & c & value & Hc & Hin & Hcont).
  apply lookup_CUSTOMERS in Hc as [_ ->].
  assert (Ht : existsb (fun value => Py.contains value response)
                 (sensitive_values Config.tony_stark) = true)
    by (apply existsb_exists; eauto).
  congruence.
Qed.

Lemma validated_not_prompt (customers : gmap string Config.customer)
    (intent : Intent) (customer_id : string) :
  IntentClassifier.is_sensitive_query intent = true ->
  validated (ResponseHandler._handle_sensitive_query customers intent customer_id)
  <> verification_prompt.
Proof.
  intros Hs H. apply (f_equal (String.get 0)) in H. revert H.
  unfold validated. destruct (fst _); [|discriminate].
  destruct intent; try discriminate Hs; discriminate.
Qed.

End ResponseFacts.

Section VerificationClaims.

Import Conversation Flow.

Lemma awaiting_control (s : ConversationSession) (a mx : Z) (intent : Intent) :
  control s = (None, a, mx, Some intent) -> awaiting s.
Proof.
  intros (Hv & _ & _ & Hp)%control_fields. split; congruence.
Qed.

(** C1.  With a directory whose branch name contains the forbidden keyword
    "pin", the response generated right after a successful verification is
    returned although the security validator rejects it, while the same
    sentence asked for again in the verified session, on the path that
    runs the validator, is replaced by the generic error text. *)
Theorem post_verification_response_is_not_validated :
  exists s,
    let leaked :=
      success_prefix +:+ "Your account was opened at: Taipei Pinglin Branch" in
    process_messages CUSTOMERS_pinglin new_session
      [ask_branch; claim_stark; ask_branch] =
      Some ([verification_prompt; leaked; error_text], s) /\
    Security.validate_response leaked =
      (false, Some "Response contains forbidden sensitive information") /\
    leaked <> error_text.
Proof.
  eexists. cbn zeta. split; [vm_compute; reflexivity|].
  split; [vm_compute; reflexivity | discriminate].
Qed.

(** C6, as the code has it.  In a session that awaits verification for a
    sensitive request and has attempts left, a correct claim is answered
    with the success confirmation followed by the sentence that ends with
    the stored value of the requested field; the session is then verified
    and idle, and a later sensitive request is answered directly with its
    own sentence (through the security validator), not with the
    verification prompt, and leaves the session verified. *)
Theorem correct_claim_unlocks_sensitive_answers
    (customers : gmap string Config.customer) (s : ConversationSession)
    (intent intent2 : Intent) (claim customer_id request2 : string) :
  pending_intent s = Some intent ->
  verified_customer_id s = None ->
  IntentClassifier.is_sensitive_query intent = true ->
  verification_attempts s < max_verification_attempts s ->
  correct_claim customers claim customer_id ->
  asks_sensitive request2 intent2 ->
  exists c s1 s2,
    customers !! customer_id = Some c /\
    process_message customers s claim =
      Some (success_prefix +:+ sentence intent +:+ stored_value c intent, s1) /\
    Py.contains (stored_value c intent)
      (success_prefix +:+ sentence intent +:+ stored_value c intent) = true /\
    control s1 = (Some customer_id, 0, max_verification_attempts s, None) /\
    process_message customers s1 request2 =
      Some (validated (sentence intent2 +:+ stored_value c intent2), s2) /\
    validated (sentence intent2 +:+ stored_value c intent2) <> verification_prompt /\
    control s2 = control s1.
Proof.
  intros Hp Hv Hs Hlt Hclaim [Hask Hs2].
  destruct (correct_claim_customer customers _ _ Hclaim) as (Hne & c & Hc).
  destruct (attempt_verified customers s claim customer_id intent Hp Hv)
    as (s1 & Hpm1 & Hc1); [lia | assumption |].
  pose proof (control_fields _ _ _ _ _ Hc1) as (Hv1 & _ & _ & Hp1).
  destruct (ask_verified customers s1 request2 customer_id intent2 Hp1 Hv1 Hne)
    as (s2 & Hpm2 & Hc2); [split; assumption|].
  exists c, s1, s2.
  assert (Hq : ResponseHandler.handle_query customers intent (Some customer_id)
               = sentence intent +:+ stored_value c intent).
  { unfold ResponseHandler.handle_query. rewrite Hs.
    destruct customer_id as [|x cid]; [congruence|].
    now apply sensitive_answer. }
  rewrite Hq in Hpm1.
  pose proof (validated_not_prompt customers intent2 customer_id Hs2) as Hnp.
  rewrite (sensitive_answer customers intent2 customer_id c Hs2 Hc) in Hpm2, Hnp.
  split; [assumption|]. split; [assumption|].
  split; [rewrite <- append_assoc; apply contains_suffix|].
  auto.
Qed.

Lemma correct_claim_unlocks_sensitive_answers_witness :
  exists s1 s2,
    process_message Config.CUSTOMERS awaiting_balance claim_stark =
      Some (success_prefix +:+ "Your current account balance is: TWD 2,500,394", s1) /\
    Py.contains "TWD 2,500,394"
      (success_prefix +:+ "Your current account balance is: TWD 2,500,394") = true /\
    control s1 = (Some "A234763849", 0, 3, None) /\
    process_message Config.CUSTOMERS s1 ask_branch =
      Some ("Your account was opened at: Taipei First Main Branch", s2) /\
    control s2 = control s1.
Proof.
  destruct (correct_claim_unlocks_sensitive_answers Config.CUSTOMERS
              awaiting_balance ACCOUNT_BALANCE OPENING_BRANCH
              claim_stark "A234763849" ask_branch)
    as (c & s1 & s2 & Hc & H1 & H2 & H3 & H4 & _ & H6).
  - reflexivity.
  - reflexivity.
  - reflexivity.
  - vm_compute. reflexivity.
  - split; vm_compute; reflexivity.
  - split; [eexists; vm_compute; reflexivity | reflexivity].
  - apply lookup_CUSTOMERS in Hc as [_ ->].
    exists s1, s2. repeat split; assumption.
Defined.


(** The claim C6 as written fails when the attempts are used up: after
    three messages that lack fields, each charged as an attempt, the
    session still awaits verification, and the correct claim is rejected
    with the lockout text, which does not contain the balance. *)
Lemma correct_claim_without_attempts_left_is_rejected :
  exists s3 s4,
    process_messages Config.CUSTOMERS new_session
      [ask_balance; "Tony"; "Tony"; "Tony"] =
      Some ([verification_prompt; missing_text 3; missing_text 3;
             missing_text 3], s3) /\
    awaiting s3 /\ pending_intent s3 = Some ACCOUNT_BALANCE /\
    verification_attempts s3 = max_verification_attempts s3 /\
    correct_claim Config.CUSTOMERS claim_stark "A234763849" /\
    process_message Config.CUSTOMERS s3 claim_stark = Some (lockout_text, s4) /\
    Py.contains "TWD 2,500,394" lockout_text = false /\
    verified_customer_id s4 = None.
Proof.
  eexists _, _. split; [vm_compute; reflexivity|].
  split; [split; [discriminate | reflexivity]|].
  split; [reflexivity|]. split; [reflexivity|].
  split; [split; vm_compute; reflexivity|].
  split; [vm_compute; reflexivity|].
  split; [vm_compute; reflexivity | reflexivity].
Qed.

(** *** Failed attempts against the shipped directory *)

Ltac no_leak := apply no_leak_check; vm_compute; reflexivity.

Lemma missing_text_no_leak (k : Z) :
  1 <= k <= 3 -> ~ leaks Config.CUSTOMERS (missing_text k).
Proof.
  intros Hk. assert (Hc : k = 1 \/ k = 2 \/ k = 3) by lia.
  destruct Hc as [->|[->| ->]]; no_leak.
Qed.

Lemma failure_text_no_leak (reason : string) (k : Z) :
  In reason rejection_reasons -> 1 <= k <= 2 ->
  ~ leaks Config.CUSTOMERS (failure_text reason k).
Proof.
  intros Hr Hk. assert (Hc : k = 1 \/ k = 2) by lia.
  unfold rejection_reasons in Hr. cbn [In] in Hr.
  destruct Hc as [->| ->];
    repeat (destruct Hr as [<-|Hr]; [no_leak|]); destruct Hr.
Qed.

(** A wrong attempt that is not the last of the budget. *)
Lemma wrong_attempt_step (s : ConversationSession) (m : string)
    (intent : Intent) (a : Z) :
  control s = (None, a, 3, Some intent) -> 0 <= a < 2 ->
  wrong_attempt Config.CUSTOMERS m ->
  exists r s',
    process_message Config.CUSTOMERS s m = Some (r, s') /\
    ~ leaks Config.CUSTOMERS r /\
    control s' = (None, a + 1, 3, Some intent).
Proof.
  intros Hc Ha Hw. pose proof (awaiting_control _ _ _ _ Hc) as Haw.
  apply control_fields in Hc as (Hv & Hat & Hmx & Hp).
  apply wrong_attempt_cases in Hw as [Hinc|(Hcomp & reason & Hver & Hin)].
  - destruct (attempt_incomplete Config.CUSTOMERS s m Haw) as (k & s' & Hk & Hpm & Hc');
      [lia | assumption |].
    exists (missing_text k), s'. split; [assumption|].
    split; [now apply missing_text_no_leak|]. now rewrite Hc', Hat, Hmx, Hp.
  - destruct (attempt_rejected Config.CUSTOMERS s m reason Haw) as (s' & Hpm & Hc');
      [lia | assumption | assumption |].
    eexists _, s'. split; [exact Hpm|].
    split; [apply failure_text_no_leak; [assumption | lia]|].
    now rewrite Hc', Hat, Hmx, Hp.
Qed.

(** The wrong attempt that uses up the budget. *)
Lemma wrong_attempt_last (s : ConversationSession) (m : string)
    (intent : Intent) :
  control s = (None, 2, 3, Some intent) ->
  wrong_attempt Config.CUSTOMERS m ->
  exists r s',
    process_message Config.CUSTOMERS s m = Some (r, s') /\
    ~ leaks Config.CUSTOMERS r /\
    ((complete_claim m = true /\ r = lockout_text /\
      control s' = (None, 3, 3, None)) \/
     (complete_claim m = false /\ control s' = (None, 3, 3, Some intent))).
Proof.
  intros Hc Hw. pose proof (awaiting_control _ _ _ _ Hc) as Haw.
  apply control_fields in Hc as (Hv & Hat & Hmx & Hp).
  apply wrong_attempt_cases in Hw as [Hinc|(Hcomp & reason & Hver & Hin)].
  - destruct (attempt_incomplete Config.CUSTOMERS s m Haw) as (k & s' & Hk & Hpm & Hc');
      [lia | assumption |].
    exists (missing_text k), s'. split; [assumption|].
    split; [now apply missing_text_no_leak|]. right.
    split; [assumption|]. now rewrite Hc', Hat, Hmx, Hp.
  - destruct (attempt_rejected_last Config.CUSTOMERS s m reason Haw)
      as (s' & Hpm & Hc'); [lia | assumption | assumption |].
    exists lockout_text, s'. split; [assumption|]. split; [no_leak|]. left.
    split; [assumption|]. split; [reflexivity|]. now rewrite Hc', Hat, Hmx.
Qed.

(** An idle, unverified session stays unverified. *)
Lemma idle_unverified_stays (s : ConversationSession) (m : string) :
  pending_intent s = None -> verified_customer_id s = None ->
  exists r s',
    process_message Config.CUSTOMERS s m = Some (r, s') /\
    verified_customer_id s' = None.
Proof.
  intros Hp Hv.
  destruct (process_message_classified Config.CUSTOMERS s m (or_introl Hp))
    as (intent & c & _ & Hpm).
  cbn zeta in Hpm. rewrite Hpm.
  destruct (decide (intent = UNKNOWN)); [eauto|].
  destruct (_ && _); eauto.
Qed.

(** C3, as the code has it.  In a fresh session, after a sensitive request
    and three wrong verification attempts, none of the four responses
    contains a sensitive value of the directory, and nobody is verified,
    also after a further message.  When the third attempt is a complete
    claim, it is itself answered with the lockout text and the pending
    request is cleared: the session is idle after three failed attempts.
    When the third attempt lacks a field, the request is still pending and
    the fourth message, whatever it is, is rejected outright with the
    lockout text, which leaks nothing, and the pending request is
    cleared. *)
Theorem lockout_within_the_attempt_budget
    (request attempt1 attempt2 attempt3 message4 : string) (intent : Intent) :
  asks_sensitive request intent ->
  wrong_attempt Config.CUSTOMERS attempt1 ->
  wrong_attempt Config.CUSTOMERS attempt2 ->
  wrong_attempt Config.CUSTOMERS attempt3 ->
  exists r1 r2 r3 r4 s3 s4,
    process_messages Config.CUSTOMERS new_session
      [request; attempt1; attempt2; attempt3] =
      Some ([verification_prompt; r1; r2; r3], s3) /\
    process_message Config.CUSTOMERS s3 message4 = Some (r4, s4) /\
    verified_customer_id s3 = None /\ verified_customer_id s4 = None /\
    (forall r, In r [verification_prompt; r1; r2; r3] ->
               ~ leaks Config.CUSTOMERS r) /\
    (complete_claim attempt3 = true ->
     r3 = lockout_text /\ pending_intent s3 = None) /\
    (complete_claim attempt3 = false ->
     pending_intent s3 = Some intent /\
     r4 = lockout_text /\ ~ leaks Config.CUSTOMERS r4 /\
     pending_intent s4 = None).
Proof.
  intros Hask Hw1 Hw2 Hw3.
  destruct (ask_unverified Config.CUSTOMERS new_session request intent)
    as (s0 & Hpm0 & Hc0); [reflexivity | reflexivity | assumption |].
  cbn [new_session verified_customer_id verification_attempts
       max_verification_attempts] in Hc0.
  destruct (wrong_attempt_step s0 attempt1 intent 0 Hc0) as (r1 & s1 & Hpm1 & Hl1 & Hc1);
    [lia | assumption |].
  destruct (wrong_attempt_step s1 attempt2 intent 1 Hc1) as (r2 & s2 & Hpm2 & Hl2 & Hc2);
    [lia | assumption |].
  destruct (wrong_attempt_last s2 attempt3 intent Hc2 Hw3)
    as (r3 & s3 & Hpm3 & Hl3 & Hcase).
  assert (Hrun : process_messages Config.CUSTOMERS new_session
                   [request; attempt1; attempt2; attempt3] =
                 Some ([verification_prompt; r1; r2; r3], s3)).
  { cbn [process_messages]. rewrite Hpm0. cbn [mbind option_bind].
    rewrite Hpm1. cbn [mbind option_bind]. rewrite Hpm2.
    cbn [mbind option_bind]. rewrite Hpm3. reflexivity. }
  assert (Hl0 : ~ leaks Config.CUSTOMERS verification_prompt) by no_leak.
  destruct Hcase as [(Hcomp & -> & Hc3)|(Hinc & Hc3)].
  - apply control_fields in Hc3 as (Hv3 & _ & _ & Hp3).
    destruct (idle_unverified_stays s3 message4 Hp3 Hv3)
      as (r4 & s4 & Hpm4 & Hv4).
    exists r1, r2, lockout_text, r4, s3, s4.
    split; [assumption|]. split; [assumption|].
    split; [assumption|]. split; [assumption|]. split; [|split].
    + intros r [<-|[<-|[<-|[<-|[]]]]]; assumption.
    + auto.
    + congruence.
  - destruct (attempt_over_budget Config.CUSTOMERS s3 message4)
      as (s4 & Hpm4 & Hc4); [eapply awaiting_control, Hc3 | |].
    { apply control_fields in Hc3 as (_ & -> & -> & _). lia. }
    apply control_fields in Hc3 as (Hv3 & _ & _ & Hp3).
    apply control_fields in Hc4 as (Hv4 & _ & _ & Hp4).
    exists r1, r2, r3, lockout_text, s3, s4.
    split; [assumption|]. split; [assumption|].
    split; [assumption|]. split; [assumption|]. split; [|split].
    + intros r [<-|[<-|[<-|[<-|[]]]]]; assumption.
    + congruence.
    + intros _. split; [assumption|]. split; [reflexivity|].
      split; [no_leak | assumption].
Qed.

Lemma lockout_within_the_attempt_budget_witness :
  exists r1 r2 r3 r4 s3 s4,
    process_messages Config.CUSTOMERS new_session
      [ask_balance; claim_doe; claim_doe; claim_doe] =
      Some ([verification_prompt; r1; r2; r3], s3) /\
    process_message Config.CUSTOMERS s3 claim_doe = Some (r4, s4) /\
    verified_customer_id s3 = None /\ verified_customer_id s4 = None /\
    (forall r, In r [verification_prompt; r1; r2; r3] ->
               ~ leaks Config.CUSTOMERS r) /\
    (complete_claim claim_doe = true ->
     r3 = lockout_text /\ pending_intent s3 = None) /\
    (complete_claim claim_doe = false ->
     pending_intent s3 = Some ACCOUNT_BALANCE /\
     r4 = lockout_text /\ ~ leaks Config.CUSTOMERS r4 /\
     pending_intent s4 = None).
Proof.
  apply (lockout_within_the_attempt_budget
           ask_balance claim_doe claim_doe claim_doe claim_doe ACCOUNT_BALANCE).
  - split; [eexists; vm_compute; reflexivity | reflexivity].
  - right. vm_compute. reflexivity.
  - right. vm_compute. reflexivity.
  - right. vm_compute. reflexivity.
Defined.

(** The claim C3 as written fails on the scenario of the specification:
    the third wrong claim already receives the lockout text, and the
    fourth message is classified like any message of an idle session and
    is answered with the fallback text. *)
Lemma fourth_message_is_not_locked_out :
  exists s3 s4,
    process_messages Config.CUSTOMERS new_session
      [ask_balance; claim_doe; claim_doe; claim_doe] =
      Some ([verification_prompt;
             failure_text "Customer ID not found" 2;
             failure_text "Customer ID not found" 1;
             lockout_text], s3) /\
    pending_intent s3 = None /\ verification_attempts s3 = 3 /\
    process_message Config.CUSTOMERS s3 claim_doe =
      Some (not_understood_text, s4) /\
    wrong_attempt Config.CUSTOMERS claim_doe /\
    not_understood_text <> lockout_text.
Proof.
  eexists _, _. split; [vm_compute; reflexivity|].
  split; [reflexivity|]. split; [reflexivity|].
  split; [vm_compute; reflexivity|].
  split; [right; vm_compute; reflexivity | discriminate].
Qed.

(** *** After a lockout *)

(** Both lockout branches leave the session locked out. *)
Lemma lockout_leaves_locked_out (customers : gmap string Config.customer)
    (s s' : ConversationSession) (m : string) :
  awaiting s ->
  process_message customers s m = Some (lockout_text, s') ->
  locked_out s'.
Proof.
  intros Haw Hpm.
  destruct (process_message_awaiting customers s m Haw) as (s1 & Hpm1 & Hc1 & _).
  rewrite Hpm in Hpm1. injection Hpm1 as Hr <-.
  destruct Haw as [_ Hv]. revert Hr Hc1.
  unfold _handle_verification_input.
  cbn [verified_customer_id verification_attempts max_verification_attempts
       pending_intent set_verification_attempts set_pending_intent].
  destruct (Z.ltb_spec (max_verification_attempts s) (verification_attempts s + 1)).
  - intros _ (Hv' & Ha' & Hm' & Hp')%control_fields.
    cbn in Hv', Ha', Hm', Hp'. unfold locked_out. rewrite Hv', Ha', Hm', Hp', Hv.
    split; [reflexivity|]. split; [reflexivity | lia].
  - destruct (parse_verification_input _) as [[n d] i].
    destruct (any_missing n d i).
    + intros Hr. apply (f_equal (String.get 0)) in Hr. discriminate Hr.
    + destruct (CustomerDataManager.verify_customer _ _ _ _) as [[] result];
        cbn [negb fst snd].
      * intros Hr. apply (f_equal (String.get 0)) in Hr. discriminate Hr.
      * destruct (Z.ltb_spec 0 (max_verification_attempts s - (verification_attempts s + 1))).
        -- intros Hr. apply (f_equal (String.get 19)) in Hr. discriminate Hr.
        -- intros _ (Hv' & Ha' & Hm' & Hp')%control_fields.
           cbn in Hv', Ha', Hm', Hp'. unfold locked_out.
           rewrite Hv', Ha', Hm', Hp', Hv.
           split; [reflexivity|]. split; [reflexivity | lia].
Qed.

(** C2, as the code has it.  A lockout leaves the session idle but does not
    reset the attempt counter: in a locked-out session a new sensitive
    request is answered with the verification prompt and the session
    awaits verification again, but the claim that follows, even a correct
    one, is rejected outright with the lockout text.  After
    [reset_verification] the restarted flow succeeds, with the responses
    of a fresh session. *)
Theorem restart_after_lockout_needs_reset
    (customers : gmap string Config.customer) (s : ConversationSession)
    (intent : Intent) (request claim customer_id : string) :
  locked_out s ->
  0 < max_verification_attempts s ->
  asks_sensitive request intent ->
  correct_claim customers claim customer_id ->
  (exists s1 s2,
     process_message customers s request = Some (verification_prompt, s1) /\
     awaiting s1 /\
     process_message customers s1 claim = Some (lockout_text, s2) /\
     idle s2 /\ verified_customer_id s2 = None) /\
  (exists answer s2 s2',
     process_messages customers (reset_verification s) [request; claim] =
       Some ([verification_prompt; answer], s2) /\
     process_messages customers new_session [request; claim] =
       Some ([verification_prompt; answer], s2') /\
     answer =
       success_prefix +:+
       ResponseHandler.handle_query customers intent (Some customer_id) /\
     idle s2 /\ verified_customer_id s2 = Some customer_id).
Proof.
  intros (Hp & Hv & Hmax) Hpos Hask Hclaim. split.
  - destruct (ask_unverified customers s request intent Hp) as (s1 & Hpm1 & Hc1);
      [now rewrite Hv | assumption |].
    rewrite Hv in Hc1. pose proof (awaiting_control _ _ _ _ Hc1) as Haw.
    destruct (attempt_over_budget customers s1 claim Haw) as (s2 & Hpm2 & Hc2).
    { apply control_fields in Hc1 as (_ & -> & -> & _). lia. }
    apply control_fields in Hc2 as (Hv2 & _ & _ & Hp2).
    exists s1, s2. auto.
  - assert (Hflow : forall s0,
      pending_intent s0 = None -> verified_customer_id s0 = None ->
      verification_attempts s0 = 0 -> 0 < max_verification_attempts s0 ->
      exists s2,
        process_messages customers s0 [request; claim] =
          Some ([verification_prompt;
                 success_prefix +:+
                 ResponseHandler.handle_query customers intent (Some customer_id)],
                s2) /\
        idle s2 /\ verified_customer_id s2 = Some customer_id).
    { intros s0 Hp0 Hv0 Ha0 Hm0.
      destruct (ask_unverified customers s0 request intent Hp0) as (s1 & Hpm1 & Hc1);
        [now rewrite Hv0 | assumption |].
      apply control_fields in Hc1 as (Hv1 & Ha1 & Hm1 & Hp1).
      destruct (attempt_verified customers s1 claim customer_id intent Hp1)
        as (s2 & Hpm2 & Hc2); [congruence | lia | assumption |].
      apply control_fields in Hc2 as (Hv2 & _ & _ & Hp2).
      exists s2. split; [|split; assumption].
      cbn [process_messages]. rewrite Hpm1. cbn [mbind option_bind].
      rewrite Hpm2. reflexivity. }
    destruct (Hflow (reset_verification s)) as (s2 & Hrun & Hidle & Hver);
      [reflexivity | reflexivity | reflexivity | exact Hpos |].
    destruct (Hflow new_session) as (s2' & Hrun' & _);
      [reflexivity | reflexivity | reflexivity | reflexivity |].
    eexists _, s2, s2'. split; [exact Hrun|]. split; [exact Hrun'|]. auto.
Qed.

(** The claim C2 as written fails on the shipped directory: after a
    lockout, the flow restarted with the correct claim ends with the
    lockout text, while in a fresh session it ends with the balance. *)
Lemma restart_after_lockout_is_rejected :
  exists s s',
    process_messages Config.CUSTOMERS new_session
      [ask_balance; claim_doe; claim_doe; claim_doe; ask_balance; claim_stark] =
      Some ([verification_prompt;
             failure_text "Customer ID not found" 2;
             failure_text "Customer ID not found" 1;
             lockout_text;
             verification_prompt;
             lockout_text], s) /\
    process_messages Config.CUSTOMERS new_session [ask_balance; claim_stark] =
      Some ([verification_prompt;
             success_prefix +:+ "Your current account balance is: TWD 2,500,394"],
            s') /\
    lockout_text <>
      success_prefix +:+ "Your current account balance is: TWD 2,500,394".
Proof.
  eexists _, _. split; [vm_compute; reflexivity|].
  split; [vm_compute; reflexivity | discriminate].
Qed.

Lemma restart_after_lockout_needs_reset_witness :
  (exists s1 s2,
     process_message Config.CUSTOMERS after_lockout ask_balance =
       Some (verification_prompt, s1) /\
     awaiting s1 /\
     process_message Config.CUSTOMERS s1 claim_stark = Some (lockout_text, s2) /\
     idle s2 /\ verified_customer_id s2 = None) /\
  (exists answer s2 s2',
     process_messages Config.CUSTOMERS (reset_verification after_lockout)
       [ask_balance; claim_stark] =
       Some ([verification_prompt; answer], s2) /\
     process_messages Config.CUSTOMERS new_session [ask_balance; claim_stark] =
       Some ([verification_prompt; answer], s2') /\
     answer =
       success_prefix +:+
       ResponseHandler.handle_query Config.CUSTOMERS ACCOUNT_BALANCE
         (Some "A234763849") /\
     idle s2 /\ verified_customer_id s2 = Some "A234763849").
Proof.
  apply (restart_after_lockout_needs_reset Config.CUSTOMERS after_lockout
           ACCOUNT_BALANCE ask_balance claim_stark "A234763849").
  - vm_compute. repeat split; try reflexivity. discriminate.
  - vm_compute. reflexivity.
  - split; [eexists; vm_compute; reflexivity | reflexivity].
  - split; vm_compute; reflexivity.
Defined.

End VerificationClaims.

Section FormatChecks.

Import Flow.

Lemma rejection_reasons_distinct : NoDup rejection_reasons.
Proof. apply (bool_decide_unpack _). vm_compute. exact I. Qed.

Ltac re_simpl :=
  cbn [Re.run Re.times Re.is_match Re.accept Re.same_char Re.at_end
       Py.upper Py.map_chars].

Ltac next_digit :=
  match goal with
  | |- context [Py.is_digit ?c] =>
      let H := fresh "Hd" in
      destruct (Py.is_digit c) eqn:H; [|discriminate]
  end.

Ltac use_digits :=
  repeat match goal with
         | H : Py.is_digit _ = true |- _ => rewrite H; clear H
         end.

(** What [validate_dob] accepts: the strict form, and the strict form
    followed by one newline. *)
Lemma validate_dob_accepts (dob : string) :
  Security.validate_dob dob = true <->
  exists y1 y2 y3 y4 m1 m2 d1 d2,
    forallb Py.is_digit [y1; y2; y3; y4; m1; m2; d1; d2] = true /\
    let strict :=
      String y1 (String y2 (String y3 (String y4 (String "/"
        (String m1 (String m2 (String "/" (String d1 (String d2 "")))))))))
    in dob = strict \/ dob = strict +:+ Py.nl.
Proof.
  unfold Security.validate_dob, Re.re_match, Security.dob_pattern. split.
  - re_simpl.
    destruct dob as [|y1 dob]; [discriminate|]. next_digit.
    destruct dob as [|y2 dob]; [discriminate|]. next_digit.
    destruct dob as [|y3 dob]; [discriminate|]. next_digit.
    destruct dob as [|y4 dob]; [discriminate|]. next_digit.
    destruct dob as [|s1 dob]; [discriminate|].
    destruct (Ascii.eqb_spec "/" s1) as [<-|]; [|discriminate].
    destruct dob as [|m1 dob]; [discriminate|]. next_digit.
    destruct dob as [|m2 dob]; [discriminate|]. next_digit.
    destruct dob as [|s2 dob]; [discriminate|].
    destruct (Ascii.eqb_spec "/" s2) as [<-|]; [|discriminate].
    destruct dob as [|d1 dob]; [discriminate|]. next_digit.
    destruct dob as [|d2 dob]; [discriminate|]. next_digit.
    intros Hend. exists y1, y2, y3, y4, m1, m2, d1, d2.
    cbn [forallb]. use_digits. split; [reflexivity|]. cbn zeta.
    destruct dob as [|c dob]; [now left|].
    destruct dob; [|discriminate Hend]. re_simpl. cbn [Re.at_end] in Hend.
    destruct (Ascii.eqb c Py.newline) eqn:E; [|discriminate Hend].
    apply Ascii.eqb_eq in E. subst c. now right.
  - intros (y1 & y2 & y3 & y4 & m1 & m2 & d1 & d2 & Hd & Hs). cbn zeta in Hs.
    cbn [forallb] in Hd.
    repeat (apply andb_true_iff in Hd as [? Hd]).
    destruct Hs as [-> | ->]; cbn [String.append Py.nl]; re_simpl; use_digits;
      reflexivity.
Qed.

Lemma is_digit_upper (c : ascii) :
  Py.is_digit (Py.upper_char c) = Py.is_digit c.
Proof. destruct c as [[] [] [] [] [] [] [] []]; reflexivity. Qed.

Lemma is_upper_upper (c : ascii) :
  Py.is_upper (Py.upper_char c) = Py.is_upper c || Py.is_lower c.
Proof. destruct c as [[] [] [] [] [] [] [] []]; reflexivity. Qed.

Lemma newline_upper (c : ascii) :
  Ascii.eqb (Py.upper_char c) Py.newline = Ascii.eqb c Py.newline.
Proof. destruct c as [[] [] [] [] [] [] [] []]; reflexivity. Qed.

Ltac next_upper_digit :=
  rewrite is_digit_upper; next_digit.

(** What [validate_id_number] accepts: a letter of either case and nine
    digits, and the same followed by one newline. *)
Lemma validate_id_number_accepts (id_number : string) :
  Security.validate_id_number id_number = true <->
  exists c d1 d2 d3 d4 d5 d6 d7 d8 d9,
    Py.is_upper c || Py.is_lower c = true /\
    forallb Py.is_digit [d1; d2; d3; d4; d5; d6; d7; d8; d9] = true /\
    let strict :=
      String c (String d1 (String d2 (String d3 (String d4 (String d5
        (String d6 (String d7 (String d8 (String d9 "")))))))))
    in id_number = strict \/ id_number = strict +:+ Py.nl.
Proof.
  unfold Security.validate_id_number, Re.re_match, Security.id_number_pattern.
  split.
  - destruct id_number as [|c s]; [discriminate|]. re_simpl.
    rewrite is_upper_upper.
    destruct (Py.is_upper c || Py.is_lower c) eqn:Hc; [|discriminate].
    destruct s as [|d1 s]; [discriminate|]. re_simpl. next_upper_digit.
    destruct s as [|d2 s]; [discriminate|]. re_simpl. next_upper_digit.
    destruct s as [|d3 s]; [discriminate|]. re_simpl. next_upper_digit.
    destruct s as [|d4 s]; [discriminate|]. re_simpl. next_upper_digit.
    destruct s as [|d5 s]; [discriminate|]. re_simpl. next_upper_digit.
    destruct s as [|d6 s]; [discriminate|]. re_simpl. next_upper_digit.
    destruct s as [|d7 s]; [discriminate|]. re_simpl. next_upper_digit.
    destruct s as [|d8 s]; [discriminate|]. re_simpl. next_upper_digit.
    destruct s as [|d9 s]; [discriminate|]. re_simpl. next_upper_digit.
    intros Hend. exists c, d1, d2, d3, d4, d5, d6, d7, d8, d9.
    cbn [forallb]. use_digits. split; [exact Hc|]. split; [reflexivity|].
    cbn zeta. destruct s as [|x s]; [now left|].
    destruct s; [|discriminate Hend].
    cbn [Re.at_end Py.upper Py.map_chars] in Hend.
    rewrite newline_upper in Hend.
    destruct (Ascii.eqb x Py.newline) eqn:E; [|discriminate Hend].
    apply Ascii.eqb_eq in E. subst x. now right.
  - intros (c & d1 & d2 & d3 & d4 & d5 & d6 & d7 & d8 & d9 & Hc & Hd & Hs).
    cbn zeta in Hs. cbn [forallb] in Hd.
    repeat (apply andb_true_iff in Hd as [? Hd]).
    destruct Hs as [-> | ->]; cbn [String.append Py.nl]; re_simpl;
      rewrite is_upper_upper, Hc, !is_digit_upper; use_digits; reflexivity.
Qed.

End FormatChecks.

(** * Further properties of the code *)

(** ** Letter case *)

Section LetterCase.

Import More.

Lemma lower_upper_char (c : ascii) :
  Py.lower_char (Py.upper_char c) = Py.lower_char c.
Proof. destruct c as [[] [] [] [] [] [] [] []]; reflexivity. Qed.


Lemma lower_upper (s : string) : Py.lower (Py.upper s) = Py.lower s.
Proof.
  unfold Py.lower, Py.upper. induction s as [|c s IH]; [reflexivity|].
  cbn [Py.map_chars]. now rewrite lower_upper_char, IH.
Qed.




Lemma map_chars_append (f : ascii -> ascii) (a b : string) :
  Py.map_chars f (a +:+ b) = Py.map_chars f a +:+ Py.map_chars f b.
Proof. induction a as [|c a IH]; cbn; [reflexivity | now rewrite IH]. Qed.



End LetterCase.

(** ** Substrings *)

Section Substrings.

Lemma startswith_spec (p s : string) :
  Py.startswith p s = true <-> exists rest, s = p +:+ rest.
Proof.
  revert s. induction p as [|a p IH]; intros s; cbn.
  - split; [eauto | reflexivity].
  - destruct s as [|b s]; [split; [discriminate | intros [r [=]]]|].
    rewrite andb_true_iff, IH. split.
    + intros [->%Ascii.eqb_eq [rest ->]]. eauto.
    + intros [rest [= -> ->]]. rewrite Ascii.eqb_refl. eauto.
Qed.

(** [needle in hay] holds exactly when [hay] is [needle] with text around
    it. *)
Lemma contains_spec (needle hay : string) :
  Py.contains needle hay = true <->
  exists before after, hay = before +:+ needle +:+ after.
Proof.
  split.
  - induction hay as [|c hay IH]; rewrite contains_unfold, orb_true_iff.
    + intros [H|H]; [|discriminate].
      apply startswith_spec in H as [rest ->]. exists "", rest. reflexivity.
    + intros [H|H].
      * apply startswith_spec in H as [rest ->]. exists "", rest. reflexivity.
      * destruct (IH H) as (before & after & ->).
        exists (String c before), after. reflexivity.
  - intros (before & after & ->). apply contains_append.
Qed.

End Substrings.

(** ** The validators of security.py *)

Section Validators.

Import Flow.

(** X2.  A text in which a forbidden keyword occurs, in any mix of upper
    and lower case and with any text around it, never passes the response
    validator. *)
Theorem forbidden_keyword_is_always_rejected
    (keyword before occurrence after : string) :
  In keyword Security.FORBIDDEN_KEYWORDS ->
  Py.lower occurrence = keyword ->
  Security.validate_response (before +:+ occurrence +:+ after) =
    (false, Some "Response contains forbidden sensitive information").
Proof.
  intros Hin Hl. unfold Security.validate_response, Security.contains_sensitive_data.
  assert (H : existsb
            (fun k => Py.contains k (Py.lower (before +:+ occurrence +:+ after)))
            Security.FORBIDDEN_KEYWORDS = true).
  { apply existsb_exists. exists keyword. split; [assumption|].
    unfold Py.lower in *. rewrite !map_chars_append, Hl. apply contains_append. }
  now rewrite H.
Qed.

Lemma forbidden_keyword_is_always_rejected_witness :
  Security.validate_response "Your PassWord is 123" =
    (false, Some "Response contains forbidden sensitive information").
Proof.
  apply (forbidden_keyword_is_always_rejected "password" "Your " "PassWord" " is 123").
  - cbn. auto.
  - vm_compute. reflexivity.
Defined.

(** X3.  A name in which one of the injection indicators occurs, in any
    mix of upper and lower case and with any text around it, is rejected
    by the name check, and [verify_customer] then answers with the name
    format reason whatever the other arguments and the directory are. *)
Theorem dangerous_name_is_always_rejected
    (pattern before occurrence after : string) :
  In pattern Security.dangerous_patterns ->
  Py.upper occurrence = pattern ->
  Security.validate_name (before +:+ occurrence +:+ after) = false /\
  forall customers dob id_number,
    CustomerDataManager.verify_customer customers
      (before +:+ occurrence +:+ after) dob id_number =
    (false, "Invalid name format").
Proof.
  intros Hin Hu.
  assert (Hv : Security.validate_name (before +:+ occurrence +:+ after) = false).
  { unfold Security.validate_name. destruct (_ <? 2); [reflexivity|].
    apply negb_false_iff, existsb_exists. exists pattern. split; [assumption|].
    assert (Hp : Py.upper pattern = pattern).
    { unfold Security.dangerous_patterns in Hin. cbn [In] in Hin.
      repeat (destruct Hin as [<-|Hin]; [reflexivity|]). destruct Hin. }
    rewrite Hp. unfold Py.upper in *. rewrite !map_chars_append, Hu.
    apply contains_append. }
  split; [exact Hv|]. intros customers dob id_number.
  unfold CustomerDataManager.verify_customer. now rewrite Hv.
Qed.

Lemma dangerous_name_is_always_rejected_witness :
  Security.validate_name "Robert'; Drop TABLE students" = false /\
  CustomerDataManager.verify_customer Config.CUSTOMERS
    "Robert'; Drop TABLE students" "1996/09/10" "A234763849" =
    (false, "Invalid name format").
Proof.
  destruct (dangerous_name_is_always_rejected "DROP" "Robert'; " "Drop"
              " TABLE students") as [Hv Hall].
  - cbn. auto.
  - vm_compute. reflexivity.
  - split; [exact Hv | apply Hall].
Defined.

End Validators.

(** ** The customer directory *)

Section Directory.

Import Flow More CustomerDataManager CustomerDirectory.

Variable customers : gmap string Config.customer.

Lemma verify_customer_true_iff (name dob id_number customer_id : string) :
  verify_customer customers name dob id_number = (true, customer_id) <->
  customer_id = id_number /\
  Security.validate_name name = true /\
  Security.validate_dob dob = true /\
  Security.validate_id_number id_number = true /\
  exists c,
    customers !! id_number = Some c /\
    Py.lower (Config.name c) = Py.lower name /\
    Config.dob c = dob /\
    Config.id_number c = id_number.
Proof.
  unfold verify_customer. split.
  - destruct (Security.validate_name name); [|discriminate].
    destruct (Security.validate_dob dob); [|discriminate].
    destruct (Security.validate_id_number id_number); [|discriminate].
    cbn [negb]. destruct (customers !! id_number) as [c|]; [|discriminate].
    destruct (String.eqb_spec (Py.lower (Config.name c)) (Py.lower name));
      [|discriminate].
    destruct (String.eqb_spec (Config.dob c) dob); [|discriminate].
    destruct (String.eqb_spec (Config.id_number c) id_number); [|discriminate].
    cbn [negb]. intros [= <-]. eauto 10.
  - intros (-> & -> & -> & -> & c & -> & Hn & Hd & Hi). cbn [negb].
    rewrite Hn, Hd, Hi, !String.eqb_refl. reflexivity.
Qed.


(** X5.  After a successful verification the directory answers for the
    returned identifier: the customer exists, the stored identifier and
    date of birth read back as the ones supplied, every account field is
    present, and a field name the records do not have reads as absent. *)
Theorem verified_customer_can_be_read (name dob id_number customer_id : string) :
  verify_customer customers name dob id_number = (true, customer_id) ->
  customer_exists customers customer_id = true /\
  get_customer_info customers customer_id "id_number" = Some customer_id /\
  get_customer_info customers customer_id "dob" = Some dob /\
  (exists c,
     get_all_customer_fields customers customer_id = Some c /\
     forall intent,
       IntentClassifier.is_sensitive_query intent = true ->
       get_customer_info customers customer_id (field_name intent) =
       Some (stored_value c intent)) /\
  forall field,
    ~ In field ["name"; "dob"; "id_number"; "bank_account"; "account_balance";
                "loan_balance"; "opening_branch"] ->
    get_customer_info customers customer_id field = None.
Proof.
  intros (-> & _ & _ & _ & c & Hc & _ & Hd & Hi)%verify_customer_true_iff.
  unfold customer_exists, get_customer_info, get_all_customer_fields.
  rewrite Hc. split; [apply bool_decide_eq_true_2; eauto|].
  split; [cbn; now rewrite Hi|]. split; [cbn; now rewrite Hd|]. split.
  - exists c. split; [reflexivity|].
    intros intent Hs. destruct intent; try discriminate Hs; reflexivity.
  - intros field Hnot. unfold Config.get. cbn [In] in Hnot.
    repeat match goal with
           | |- context [String.eqb field ?x] =>
               destruct (String.eqb_spec field x) as [Hf|_];
               [exfalso; apply Hnot; rewrite Hf; auto 10|]
           end.
    reflexivity.
Qed.

End Directory.

Section DirectoryWitnesses.

Import Flow More CustomerDataManager CustomerDirectory.

Lemma verified_customer_can_be_read_witness :
  customer_exists Config.CUSTOMERS "A234763849" = true /\
  get_customer_info Config.CUSTOMERS "A234763849" "id_number" = Some "A234763849" /\
  get_customer_info Config.CUSTOMERS "A234763849" "dob" = Some "1996/09/10".
Proof.
  destruct (verified_customer_can_be_read Config.CUSTOMERS
              "Tony Stark" "1996/09/10" "A234763849" "A234763849")
    as (H1 & H2 & H3 & _).
  - vm_compute. reflexivity.
  - repeat split; assumption.
Defined.

End DirectoryWitnesses.

(** ** Whole conversations *)

Section Conversations.

Import Conversation Flow More.

Variable customers : gmap string Config.customer.

Lemma process_message_turn (s : ConversationSession) (m : string) :
  exists r s',
    process_message customers s m = Some (r, s') /\
    conversation_history s' =
      conversation_history s ++
      [ {| user := Security.sanitize_input m; assistant := Some r |} ].
Proof.
  destruct (pending_intent s) as [p|] eqn:Hp;
    [destruct (verified_customer_id s) as [v|] eqn:Hv|].
  - destruct (process_message_classified customers s m)
      as (intent & c & _ & Hpm); [right; congruence|].
    cbn zeta in Hpm. rewrite Hpm.
    destruct (decide (intent = UNKNOWN)); [eauto|]. destruct (_ && _); eauto.
  - destruct (process_message_awaiting customers s m)
      as (s' & Hpm & _ & Hh); [split; congruence|]. eauto.
  - destruct (process_message_classified customers s m)
      as (intent & c & _ & Hpm); [now left|].
    cbn zeta in Hpm. rewrite Hpm.
    destruct (decide (intent = UNKNOWN)); [eauto|]. destruct (_ && _); eauto.
Qed.

(** X6.  A conversation never fails: every list of messages, from every
    session, yields one response per message, and the history afterwards
    is the history before followed by the transcript, turn by turn in
    order, each turn holding the stripped user text and the response that
    was returned for it. *)
Theorem conversation_history_is_the_transcript
    (messages : list string) (s : ConversationSession) :
  exists responses s',
    process_messages customers s messages = Some (responses, s') /\
    List.length responses = List.length messages /\
    conversation_history s' =
      conversation_history s ++ transcript messages responses.
Proof.
  revert s. induction messages as [|m messages IH]; intros s.
  - exists [], s. cbn. now rewrite app_nil_r.
  - destruct (process_message_turn s m) as (r & s1 & Hpm & Hh).
    destruct (IH s1) as (rs & s2 & Hrun & Hlen & Hh2).
    exists (r :: rs), s2. cbn [process_messages]. rewrite Hpm.
    cbn [mbind option_bind]. rewrite Hrun. cbn [mbind option_bind].
    split; [reflexivity|]. split; [cbn; now rewrite Hlen|].
    rewrite Hh2, Hh, <- app_assoc. reflexivity.
Qed.

(** What one verification attempt can do to the protocol state. *)
Lemma attempt_outcomes (s : ConversationSession) (m : string) :
  awaiting s ->
  exists r s',
    process_message customers s m = Some (r, s') /\
    (control s' =
       (None, verification_attempts s + 1, max_verification_attempts s, None) \/
     control s' =
       (None, verification_attempts s + 1, max_verification_attempts s,
        pending_intent s) \/
     exists customer_id,
       correct_claim customers m customer_id /\
       control s' = (Some customer_id, 0, max_verification_attempts s, None)).
Proof.
  intros Haw.
  destruct (Z.ltb_spec (max_verification_attempts s) (verification_attempts s + 1))
    as [Hover|Hle].
  { destruct (attempt_over_budget customers s m Haw Hover) as (s' & Hpm & Hc).
    eauto 6. }
  destruct (complete_claim m) eqn:Hcomp.
  2:{ destruct (attempt_incomplete customers s m Haw Hle Hcomp)
        as (k & s' & _ & Hpm & Hc). eauto 7. }
  destruct (verify_claim customers m) as [[] result] eqn:Hver.
  - destruct Haw as [Hp Hv].
    destruct (pending_intent s) as [intent|] eqn:Hpi; [|congruence].
    destruct (attempt_verified customers s m result intent Hpi Hv Hle)
      as (s' & Hpm & Hc); [split; assumption|].
    eexists _, s'. split; [exact Hpm|]. right. right. exists result.
    split; [split; assumption | exact Hc].
  - destruct (Z.eq_dec (verification_attempts s + 1) (max_verification_attempts s))
      as [Heq|Hne].
    + destruct (attempt_rejected_last customers s m result Haw Heq Hcomp Hver)
        as (s' & Hpm & Hc). eauto 6.
    + destruct (attempt_rejected customers s m result Haw) as (s' & Hpm & Hc);
        [lia | assumption | assumption |]. eauto 7.
Qed.

Lemma well_formed_step (s s' : ConversationSession) (m r : string) :
  well_formed customers s ->
  process_message customers s m = Some (r, s') ->
  well_formed customers s'.
Proof.
  intros (Hmax & Hatt & Hpend & Hver) Hpm.
  destruct (pending_intent s) as [intent|] eqn:Hp.
  - destruct (Hpend intent eq_refl) as [Hsens Hv].
    destruct (attempt_outcomes s m) as (r1 & s1 & Hpm1 & Hcases);
      [split; congruence|].
    rewrite Hpm in Hpm1. injection Hpm1 as <- <-.
    destruct Hcases as [Hc|[Hc|(cid & Hclaim & Hc)]];
      apply control_fields in Hc as (Hv' & Ha' & Hm' & Hp');
      unfold well_formed; rewrite Hv', Ha', Hm', Hp'.
    + split; [assumption|]. split; [lia|]. split; [discriminate|discriminate].
    + rewrite Hp. split; [assumption|]. split; [lia|].
      split; [intros i [= <-]; auto | discriminate].
    + split; [assumption|]. split; [lia|]. split; [discriminate|].
      intros cid' [= <-].
      destruct (correct_claim_customer customers m cid Hclaim) as [Hne Hex].
      auto.
  - destruct (process_message_classified customers s m (or_introl Hp))
      as (intent & c & _ & Hpm2).
    cbn zeta in Hpm2. rewrite Hpm in Hpm2.
    destruct (decide (intent = UNKNOWN)).
    { injection Hpm2 as -> ->. unfold well_formed. cbn. rewrite Hp. auto. }
    destruct (IntentClassifier.is_sensitive_query intent) eqn:Hs;
      [destruct (Py.truthy (verified_customer_id s)) eqn:Ht|];
      cbn [andb negb] in Hpm2; injection Hpm2 as -> ->;
      unfold well_formed; cbn; rewrite ?Hp; auto.
    split; [assumption|]. split; [assumption|]. split.
    + intros i [= <-]. split; [assumption|].
      destruct (verified_customer_id s) as [[|x v]|] eqn:Hv; [|discriminate|reflexivity].
      destruct (Hver "" eq_refl) as [Hne _]. congruence.
    + intros cid Hv. destruct (Hver cid Hv) as (Hne & _).
      rewrite Hv in Ht. destruct cid; [congruence | discriminate].
Qed.

(** X7.  Every session a conversation reaches from a fresh session is well
    formed: the maximum is three and the attempt counter is not negative;
    a pending intent is a sensitive one and goes with an unverified
    session; a verified identifier is a non-empty key of the directory,
    and then no intent is pending and the counter is zero. *)
Theorem reachable_sessions_are_well_formed
    (messages responses : list string) (s : ConversationSession) :
  process_messages customers new_session messages = Some (responses, s) ->
  well_formed customers s.
Proof.
  assert (Hgen : forall messages s0 responses s,
            well_formed customers s0 ->
            process_messages customers s0 messages = Some (responses, s) ->
            well_formed customers s).
  { clear. induction messages as [|m messages IH]; intros s0 responses s Hwf Hrun.
    - cbn in Hrun. now injection Hrun as <- <-.
    - cbn [process_messages] in Hrun.
      destruct (process_message customers s0 m) as [[r s1]|] eqn:Hpm;
        [|discriminate Hrun].
      cbn [mbind option_bind] in Hrun.
      destruct (process_messages customers s1 messages) as [[rs s2]|] eqn:Hrest;
        [|discriminate Hrun].
      cbn [mbind option_bind] in Hrun. injection Hrun as <- <-.
      eapply IH; [|exact Hrest]. eapply well_formed_step; eauto. }
  apply Hgen. unfold well_formed, new_session. cbn.
  split; [reflexivity|]. split; [lia|]. split; discriminate.
Qed.

End Conversations.

Section ConversationWitnesses.

Import Conversation Flow More.

Lemma reachable_sessions_are_well_formed_witness :
  well_formed Config.CUSTOMERS after_lockout.
Proof.
  apply (reachable_sessions_are_well_formed Config.CUSTOMERS
           [ask_balance; claim_doe; claim_doe; claim_doe]
           [verification_prompt;
            failure_text "Customer ID not found" 2;
            failure_text "Customer ID not found" 1;
            lockout_text]).
  vm_compute. reflexivity.
Defined.

End ConversationWitnesses.

(** ** What a session's answers depend on *)

Section Dependence.

Import Conversation Flow More.

Lemma session_same_control (s1 s2 : ConversationSession) :
  control s1 = control s2 ->
  s2 = set_conversation_history (conversation_history s2) s1.
Proof.
  destruct s1, s2. unfold control. cbn. intros [= -> -> -> ->]. reflexivity.
Qed.

Lemma same_control_step
    (customers : gmap string Config.customer)
    (s1 s2 : ConversationSession) (m : string) :
  control s1 = control s2 ->
  exists r s1' s2',
    process_message customers s1 m = Some (r, s1') /\
    process_message customers s2 m = Some (r, s2') /\
    control s1' = control s2'.
Proof.
  intros Hc.
  assert (Hf : verified_customer_id s1 = verified_customer_id s2 /\
               pending_intent s1 = pending_intent s2).
  { unfold control in Hc. injection Hc as -> _ _ ->. auto. }
  destruct Hf as [Hv Hp].
  destruct (pending_intent s1) as [p|] eqn:Hp1;
    [destruct (verified_customer_id s1) as [v|] eqn:Hv1|].
  - destruct (process_message_classified customers s1 m)
      as (i1 & c1 & Hcl1 & Hpm1); [right; congruence|].
    destruct (process_message_classified customers s2 m)
      as (i2 & c2 & Hcl2 & Hpm2); [right; congruence|].
    rewrite Hcl1 in Hcl2. injection Hcl2 as <- <-. cbn zeta in Hpm1, Hpm2.
    rewrite Hv1 in Hpm1. rewrite <- Hv in Hpm2. rewrite Hpm1, Hpm2.
    destruct (decide (i1 = UNKNOWN)); [|destruct (_ && _)];
      eexists _, _, _; (split; [reflexivity|]); (split; [reflexivity|]);
      unfold control in *; cbn; congruence.
  - destruct (process_message_awaiting customers s1 m)
      as (s1' & Hpm1 & Hc1 & _); [split; congruence|].
    destruct (process_message_awaiting customers s2 m)
      as (s2' & Hpm2 & Hc2 & _); [split; congruence|].
    assert (Hh : forall x,
      _handle_verification_input customers s2 x =
      (fst (_handle_verification_input customers s1 x),
       set_conversation_history (conversation_history s2)
         (snd (_handle_verification_input customers s1 x)))).
    { intros x. rewrite <- handler_history. f_equal.
      apply session_same_control, Hc. }
    rewrite Hh in Hpm2, Hc2. cbn [fst snd] in Hpm2, Hc2.
    eexists _, s1', s2'. split; [exact Hpm1|]. split; [exact Hpm2|].
    rewrite Hc1, Hc2. reflexivity.
  - destruct (process_message_classified customers s1 m)
      as (i1 & c1 & Hcl1 & Hpm1); [now left|].
    destruct (process_message_classified customers s2 m)
      as (i2 & c2 & Hcl2 & Hpm2); [left; congruence|].
    rewrite Hcl1 in Hcl2. injection Hcl2 as <- <-. cbn zeta in Hpm1, Hpm2.
    rewrite <- Hv in Hpm2. rewrite Hpm1, Hpm2.
    destruct (decide (i1 = UNKNOWN)); [|destruct (_ && _)];
      eexists _, _, _; (split; [reflexivity|]); (split; [reflexivity|]);
      unfold control in *; cbn; congruence.
Qed.

(** X8.  The history is only written: two sessions that agree on the
    verified identifier, the attempt counter, the maximum and the pending
    intent answer every message alike and agree on those fields
    afterwards, whatever their histories. *)
Theorem history_does_not_influence_answers
    (customers : gmap string Config.customer)
    (s1 s2 : ConversationSession) (m : string) :
  control s1 = control s2 ->
  exists r s1' s2',
    process_message customers s1 m = Some (r, s1') /\
    process_message customers s2 m = Some (r, s2') /\
    control s1' = control s2'.
Proof. apply same_control_step. Qed.

Lemma same_control_conversation
    (customers : gmap string Config.customer) (messages : list string) :
  forall s1 s2,
    control s1 = control s2 ->
    exists responses s1' s2',
      process_messages customers s1 messages = Some (responses, s1') /\
      process_messages customers s2 messages = Some (responses, s2') /\
      control s1' = control s2'.
Proof.
  induction messages as [|m messages IH]; intros s1 s2 Hc.
  - exists [], s1, s2. auto.
  - destruct (same_control_step customers s1 s2 m Hc)
      as (r & t1 & t2 & H1 & H2 & Hc').
    destruct (IH t1 t2 Hc') as (rs & u1 & u2 & G1 & G2 & Hc'').
    exists (r :: rs), u1, u2. cbn [process_messages].
    rewrite H1, H2. cbn [mbind option_bind]. rewrite G1, G2. auto.
Qed.

(** X9.  [reset_verification] gives back a new session in all but the
    history: after it, every conversation gets the responses a new
    session gives, and ends with the same verified identifier, counter,
    maximum and pending intent. *)
Theorem reset_session_answers_as_a_new_one
    (customers : gmap string Config.customer)
    (s : ConversationSession) (messages : list string) :
  max_verification_attempts s = 3 ->
  exists responses s1 s2,
    process_messages customers (reset_verification s) messages
      = Some (responses, s1) /\
    process_messages customers new_session messages = Some (responses, s2) /\
    control s1 = control s2.
Proof.
  intros Hmax. apply same_control_conversation.
  unfold control. cbn. now rewrite Hmax.
Qed.

Lemma reset_session_answers_as_a_new_one_witness :
  exists responses s1 s2,
    process_messages Config.CUSTOMERS (reset_verification after_lockout)
      [ask_balance; claim_stark] = Some (responses, s1) /\
    process_messages Config.CUSTOMERS new_session [ask_balance; claim_stark]
      = Some (responses, s2) /\
    control s1 = control s2.
Proof.
  apply (reset_session_answers_as_a_new_one Config.CUSTOMERS after_lockout
           [ask_balance; claim_stark]).
  reflexivity.
Defined.

Lemma history_does_not_influence_answers_witness :
  exists r s1' s2',
    process_message Config.CUSTOMERS after_lockout ask_balance = Some (r, s1') /\
    process_message Config.CUSTOMERS
      (set_conversation_history [] after_lockout) ask_balance = Some (r, s2') /\
    control s1' = control s2'.
Proof.
  apply (history_does_not_influence_answers Config.CUSTOMERS after_lockout
           (set_conversation_history [] after_lockout) ask_balance).
  reflexivity.
Defined.

End Dependence.

(** ** Sensitive data and verification *)

Section Noninterference.

Import Conversation Flow More.

Lemma verify_customer_same_identities
    (customers customers' : gmap string Config.customer)
    (name dob id_number : string) :
  same_identities customers customers' ->
  CustomerDataManager.verify_customer customers name dob id_number =
  CustomerDataManager.verify_customer customers' name dob id_number.
Proof.
  intros Hsame. unfold CustomerDataManager.verify_customer.
  specialize (Hsame id_number). unfold identity in Hsame.
  destruct (customers !! id_number) as [c|], (customers' !! id_number) as [c'|];
    cbn in Hsame; try discriminate Hsame; [|reflexivity].
  injection Hsame as -> -> ->. reflexivity.
Qed.

Lemma handler_same_identities
    (customers customers' : gmap string Config.customer)
    (s : ConversationSession) (x : string) :
  same_identities customers customers' ->
  verified_customer_id s = None ->
  verified_customer_id (snd (_handle_verification_input customers s x)) = None ->
  _handle_verification_input customers' s x =
  _handle_verification_input customers s x.
Proof.
  intros Hsame Hv. unfold _handle_verification_input.
  destruct (_ <? _); [reflexivity|].
  destruct (parse_verification_input x) as [[n d] i].
  destruct (any_missing n d i); [reflexivity|].
  rewrite <- (verify_customer_same_identities customers customers' _ _ _ Hsame).
  destruct (CustomerDataManager.verify_customer customers _ _ _) as [[] result];
    cbn [negb]; [|destruct (0 <? _); reflexivity].
  cbn. discriminate.
Qed.

Lemma process_message_awaiting_eq
    (customers : gmap string Config.customer)
    (s : ConversationSession) (m : string) :
  awaiting s ->
  process_message customers s m =
  let s0 :=
    set_conversation_history
      (conversation_history s ++
       [ {| user := Security.sanitize_input m; assistant := None |} ]) s in
  let out := _handle_verification_input customers s0 (Security.sanitize_input m) in
  s2 ← record_assistant (snd out) (fst out);
  Some (fst out, s2).
Proof.
  intros [Hp Hv]. unfold process_message. cbv zeta.
  assert (Hguard :
    bool_decide (pending_intent s ≠ None) && is_verification_pending s = true).
  { unfold is_verification_pending.
    rewrite !bool_decide_eq_true_2 by assumption. reflexivity. }
  replace (pending_intent (set_conversation_history _ s)) with (pending_intent s)
    by reflexivity.
  replace (is_verification_pending (set_conversation_history _ s))
    with (is_verification_pending s) by reflexivity.
  rewrite Hguard. destruct (_handle_verification_input _ _ _). reflexivity.
Qed.

Lemma record_assistant_verified (s s' : ConversationSession) (r : string) :
  record_assistant s r = Some s' ->
  verified_customer_id s' = verified_customer_id s.
Proof.
  unfold record_assistant. destruct (set_last_assistant _ _); [|discriminate].
  cbn. intros [= <-]. reflexivity.
Qed.

(** X10.  While a session is unverified, its answers do not depend on any
    account number, balance, loan balance or branch stored in the
    directory: with another directory that holds the same names, dates of
    birth and identifiers, a message that leaves the session unverified
    gets the same response and leaves the same session. *)
Theorem unverified_answers_ignore_account_data
    (customers customers' : gmap string Config.customer)
    (s s' : ConversationSession) (m r : string) :
  same_identities customers customers' ->
  verified_customer_id s = None ->
  process_message customers s m = Some (r, s') ->
  verified_customer_id s' = None ->
  process_message customers' s m = Some (r, s').
Proof.
  intros Hsame Hv Hpm Hv'. rewrite <- Hpm.
  destruct (pending_intent s) as [p|] eqn:Hp.
  - assert (Haw : awaiting s) by (split; congruence).
    rewrite (process_message_awaiting_eq customers s m Haw) in Hpm |- *.
    rewrite (process_message_awaiting_eq customers' s m Haw).
    cbv zeta in *.
    rewrite (handler_same_identities customers customers'); auto.
    destruct (record_assistant _ _) as [s2|] eqn:Hrec; [|discriminate Hpm].
    cbn [mbind option_bind] in Hpm. injection Hpm as _ <-.
    apply record_assistant_verified in Hrec. congruence.
  - destruct (process_message_classified customers s m (or_introl Hp))
      as (i1 & c1 & Hcl1 & Hpm1).
    destruct (process_message_classified customers' s m (or_introl Hp))
      as (i2 & c2 & Hcl2 & Hpm2).
    rewrite Hcl1 in Hcl2. injection Hcl2 as <- <-. cbn zeta in Hpm1, Hpm2.
    rewrite Hpm1, Hpm2, Hv. cbn [Py.truthy negb].
    destruct (decide (i1 = UNKNOWN)); [reflexivity|].
    destruct (IntentClassifier.is_sensitive_query i1) eqn:Hs; cbn [andb];
      [reflexivity|].
    unfold ResponseHandler.handle_query. rewrite Hs. reflexivity.
Qed.

Lemma unverified_answers_ignore_account_data_witness :
  exists s',
    process_message Config.CUSTOMERS awaiting_balance claim_doe =
      Some (failure_text "Customer ID not found" 2, s') /\
    process_message CUSTOMERS_pinglin awaiting_balance claim_doe =
      Some (failure_text "Customer ID not found" 2, s').
Proof.
  eexists. split; [vm_compute; reflexivity|].
  apply (unverified_answers_ignore_account_data Config.CUSTOMERS CUSTOMERS_pinglin
           awaiting_balance).
  - intros k. unfold Config.CUSTOMERS, CUSTOMERS_pinglin.
    destruct (decide (k = "A234763849")) as [->|Hne].
    + rewrite !lookup_singleton_eq. reflexivity.
    + rewrite !lookup_singleton_ne by congruence. reflexivity.
  - reflexivity.
  - vm_compute. reflexivity.
  - reflexivity.
Defined.

End Noninterference.

Section VerifiedSessions.

Import Conversation Flow More.

Lemma public_text_cases (intent : Intent) (r : string) :
  r = ResponseHandler._handle_public_query intent ->
  String.get 0 r <> Some "F"%char /\ String.get 0 r <> Some "V"%char.
Proof. intros ->. destruct intent; split; discriminate. Qed.

(** X11.  A verified session stays verified and is never asked to verify
    again: whatever the message, the verified identifier, the counter,
    the maximum and the pending intent are unchanged, and the response is
    neither the verification prompt nor the lockout text. *)
Theorem verified_session_is_stable
    (customers : gmap string Config.customer)
    (s : ConversationSession) (customer_id m : string) :
  verified_customer_id s = Some customer_id ->
  customer_id <> "" ->
  exists r s',
    process_message customers s m = Some (r, s') /\
    control s' = control s /\
    r <> verification_prompt /\ r <> lockout_text.
Proof.
  intros Hv Hne.
  destruct (process_message_classified customers s m)
    as (intent & c & _ & Hpm); [right; congruence|].
  cbn zeta in Hpm. rewrite Hv in Hpm.
  destruct customer_id as [|x cid]; [congruence|].
  cbn [Py.truthy negb] in Hpm. rewrite andb_false_r in Hpm.
  destruct (decide (intent = UNKNOWN)).
  - eexists _, _. split; [exact Hpm|]. split; [reflexivity|].
    split; discriminate.
  - eexists _, _. split; [exact Hpm|]. split; [reflexivity|].
    unfold validated. destruct (fst _); [|split; discriminate].
    unfold ResponseHandler.handle_query.
    destruct (IntentClassifier.is_sensitive_query intent) eqn:Hs.
    + unfold ResponseHandler._handle_sensitive_query.
      destruct intent; try discriminate Hs;
        (split; intros H; apply (f_equal (String.get 0)) in H; discriminate H).
    + destruct (public_text_cases intent _ eq_refl) as [HF HV].
      split; intros H; apply (f_equal (String.get 0)) in H;
        [apply HF | apply HV]; exact H.
Qed.

Lemma verified_session_is_stable_witness :
  exists r s',
    process_message Config.CUSTOMERS
      (set_verified_customer_id (Some "A234763849") new_session) ask_balance
      = Some (r, s') /\
    control s' = control (set_verified_customer_id (Some "A234763849") new_session) /\
    r <> verification_prompt /\ r <> lockout_text.
Proof.
  apply (verified_session_is_stable Config.CUSTOMERS
           (set_verified_customer_id (Some "A234763849") new_session)
           "A234763849" ask_balance).
  - reflexivity.
  - discriminate.
Defined.

Lemma validated_passes (r : string) :
  fst (Security.validate_response (validated r)) = true.
Proof.
  unfold validated.
  destruct (fst (Security.validate_response r)) eqn:H; [exact H|].
  vm_compute. reflexivity.
Qed.

Ltac passes := vm_compute; reflexivity.

Lemma missing_text_passes (k : Z) :
  1 <= k <= 3 -> fst (Security.validate_response (missing_text k)) = true.
Proof.
  intros Hk. assert (Hc : k = 1 \/ k = 2 \/ k = 3) by lia.
  destruct Hc as [->|[->| ->]]; passes.
Qed.

Lemma failure_text_passes (reason : string) (k : Z) :
  In reason rejection_reasons -> 1 <= k <= 2 ->
  fst (Security.validate_response (failure_text reason k)) = true.
Proof.
  intros Hr Hk. assert (Hc : k = 1 \/ k = 2) by lia.
  unfold rejection_reasons in Hr. cbn [In] in Hr.
  destruct Hc as [->| ->];
    repeat (destruct Hr as [<-|Hr]; [passes|]); destruct Hr.
Qed.

Lemma stable_identity_passes
    (customers : gmap string Config.customer)
    (s s' : ConversationSession) (m r : string) :
  max_verification_attempts s = 3 ->
  0 <= verification_attempts s ->
  process_message customers s m = Some (r, s') ->
  verified_customer_id s' = verified_customer_id s ->
  fst (Security.validate_response r) = true.
Proof.
  intros Hmax Hatt Hpm Hsame.
  destruct (pending_intent s) as [p|] eqn:Hp;
    [destruct (verified_customer_id s) as [v|] eqn:Hv|].
  - destruct (process_message_classified customers s m)
      as (intent & c & _ & Hpm2); [right; congruence|].
    cbn zeta in Hpm2. rewrite Hpm in Hpm2.
    destruct (decide (intent = UNKNOWN)); [injection Hpm2 as -> _; passes|].
    destruct (_ && _); injection Hpm2 as -> _; [passes | apply validated_passes].
  - assert (Haw : awaiting s) by (split; congruence).
    destruct (Z.ltb_spec (max_verification_attempts s) (verification_attempts s + 1))
      as [Hover|Hle].
    { destruct (attempt_over_budget customers s m Haw Hover) as (s1 & Hpm1 & _).
      rewrite Hpm in Hpm1. injection Hpm1 as -> _. passes. }
    destruct (complete_claim m) eqn:Hcomp.
    2:{ destruct (attempt_incomplete customers s m Haw Hle Hcomp)
          as (k & s1 & Hk & Hpm1 & _).
        rewrite Hpm in Hpm1. injection Hpm1 as -> _.
        now apply missing_text_passes. }
    destruct (verify_claim customers m) as [[] result] eqn:Hver.
    + exfalso.
      destruct (attempt_verified customers s m result p Hp Hv Hle)
        as (s1 & Hpm1 & Hc1); [split; assumption|].
      rewrite Hpm in Hpm1. injection Hpm1 as _ <-.
      apply control_fields in Hc1 as (Hv1 & _). congruence.
    + assert (Hin : In result rejection_reasons).
      { unfold verify_claim in Hver.
        destruct (parse_verification_input _) as [[n d] i].
        eapply verify_customer_reason, Hver. }
      destruct (Z.eq_dec (verification_attempts s + 1) (max_verification_attempts s))
        as [Heq|Hneq].
      * destruct (attempt_rejected_last customers s m result Haw Heq Hcomp Hver)
          as (s1 & Hpm1 & _).
        rewrite Hpm in Hpm1. injection Hpm1 as -> _. passes.
      * destruct (attempt_rejected customers s m result Haw) as (s1 & Hpm1 & _);
          [lia | assumption | assumption |].
        rewrite Hpm in Hpm1. injection Hpm1 as -> _.
        apply failure_text_passes; [assumption | lia].
  - destruct (process_message_classified customers s m (or_introl Hp))
      as (intent & c & _ & Hpm2).
    cbn zeta in Hpm2. rewrite Hpm in Hpm2.
    destruct (decide (intent = UNKNOWN)); [injection Hpm2 as -> _; passes|].
    destruct (_ && _); injection Hpm2 as -> _; [passes | apply validated_passes].
Qed.

Lemma classified_keeps_identity
    (customers : gmap string Config.customer)
    (s s' : ConversationSession) (m r : string) :
  pending_intent s = None \/ verified_customer_id s <> None ->
  process_message customers s m = Some (r, s') ->
  verified_customer_id s' = verified_customer_id s.
Proof.
  intros Hidle Hpm.
  destruct (process_message_classified customers s m Hidle)
    as (intent & c & _ & Hpm2).
  cbn zeta in Hpm2. rewrite Hpm in Hpm2.
  destruct (decide (intent = UNKNOWN)); [injection Hpm2 as _ ->; reflexivity|].
  destruct (_ && _); injection Hpm2 as _ ->; reflexivity.
Qed.

(** X12.  Only the response given at the moment of a successful
    verification can fail the response validator: in a session with the
    maximum of three attempts and a counter that is not negative, every
    response to a message that does not change the verified identifier
    passes [validate_response], for every directory. *)
Theorem only_the_verification_answer_can_fail_validation
    (customers : gmap string Config.customer)
    (s s' : ConversationSession) (m r : string) :
  max_verification_attempts s = 3 ->
  0 <= verification_attempts s ->
  process_message customers s m = Some (r, s') ->
  verified_customer_id s' = verified_customer_id s ->
  fst (Security.validate_response r) = true.
Proof. apply stable_identity_passes. Qed.

Lemma only_the_verification_answer_can_fail_validation_witness :
  fst (Security.validate_response
         "Your account was opened at: Taipei First Main Branch") = true.
Proof.
  pose proof (only_the_verification_answer_can_fail_validation
                Config.CUSTOMERS
                (set_verified_customer_id (Some "A234763849") new_session)
                (set_conversation_history
                   [ {| user := "which branch";
                        assistant :=
                          Some "Your account was opened at: Taipei First Main Branch" |} ]
                   (set_verified_customer_id (Some "A234763849") new_session))
                ask_branch
                "Your account was opened at: Taipei First Main Branch") as H.
  apply H.
  - reflexivity.
  - vm_compute. discriminate.
  - vm_compute. reflexivity.
  - reflexivity.
Defined.

End VerifiedSessions.

(** ** More on classification *)

Section ClassifierShape.

Import Re Spec IntentClassifier Flow.

Lemma score_positive (text : string) (kws : list string) :
  score text kws <> 0 -> 0 < score text kws.
Proof. pose proof (score_nonneg text kws). lia. Qed.

(** X13.  [classify] returns either [(UNKNOWN, 0)] or one of the eight
    intents of the keyword table with a positive confidence; it never
    returns [GENERAL_HELP]. *)
Theorem classify_result_shape (text : string) (intent : Intent) (confidence : Q) :
  classify text = Some (intent, confidence) ->
  ((intent = UNKNOWN /\ confidence = 0%Q) \/
   (In intent (map fst INTENT_KEYWORDS) /\ (0 < confidence)%Q)) /\
  intent <> GENERAL_HELP.
Proof.
  intros Hc.
  assert (Hshape : (intent = UNKNOWN /\ confidence = 0%Q) \/
                   (In intent (map fst INTENT_KEYWORDS) /\ (0 < confidence)%Q)).
  { destruct (classify_cases text)
      as [[_ H]|(best & kws & Hin & Hs & _ & Hwc & H)];
      rewrite Hc in H; injection H as -> ->.
    - now left.
    - right. split; [apply (in_map fst _ _ Hin)|].
      unfold Qlt. cbn. pose proof (score_positive _ _ Hs). lia. }
  split; [exact Hshape|].
  destruct Hshape as [[-> _]|[Hin _]]; [discriminate|].
  intros ->. cbn in Hin. intuition discriminate.
Qed.

Lemma classify_result_shape_witness :
  In ACCOUNT_BALANCE (map fst INTENT_KEYWORDS) /\ (0 < 3 # 5)%Q.
Proof.
  destruct (classify_result_shape "What is my account balance?"
              ACCOUNT_BALANCE (3 # 5)) as [[[H _]|H] _].
  - vm_compute. reflexivity.
  - discriminate H.
  - exact H.
Defined.

Lemma wordy_word_count (keyword : string) :
  wordy keyword = true -> 0 < word_count keyword.
Proof.
  unfold wordy, word_count. intros [Hw _]%andb_true_iff.
  destruct keyword as [|c rest]; [discriminate|]. cbn in Hw.
  apply isspace_not_word in Hw. rewrite split_cons, Hw.
  destruct rest as [|c' rest]; [cbn; lia|].
  destruct (Py.isspace c'); [cbn; lia|].
  destruct (Py.split (String c' rest)); cbn; lia.
Qed.

Lemma matching_keyword_scores (text keyword : string) (keywords : list string) :
  In keyword keywords -> keyword_matches keyword text = true ->
  word_count keyword <= score text keywords.
Proof.
  intros Hin Hm. unfold score, matching.
  induction keywords as [|k keywords IH]; [destruct Hin|].
  cbn [List.filter]. destruct Hin as [->|Hin].
  - rewrite Hm. cbn [map fold_right].
    pose proof (score_nonneg text keywords) as Hn.
    unfold score, matching in Hn. lia.
  - specialize (IH Hin). destruct (keyword_matches k text); [|exact IH].
    cbn [map fold_right]. pose proof (word_count_nonneg k). lia.
Qed.

(** X14.  When keywords of exactly one intent occur in the text as whole
    words, [classify] returns that intent, with a positive confidence. *)
Theorem single_matching_intent_wins
    (text keyword : string) (intent : Intent) (keywords : list string) :
  In (intent, keywords) INTENT_KEYWORDS ->
  In keyword keywords ->
  whole_word_in keyword (Py.lower text) ->
  (forall other keywords' keyword',
     In (other, keywords') INTENT_KEYWORDS -> other <> intent ->
     In keyword' keywords' ->
     ~ whole_word_in keyword' (Py.lower text)) ->
  exists confidence,
    classify text = Some (intent, confidence) /\ (0 < confidence)%Q.
Proof.
  intros Hin Hkw Hocc Hothers.
  apply keyword_matches_spec in Hocc.
  assert (Hpos : 0 < score text keywords).
  { pose proof (matching_keyword_scores text keyword keywords Hkw Hocc).
    assert (0 < word_count keyword); [|lia].
    apply wordy_word_count. eapply all_wordy_in; eauto using table_wordy. }
  destruct (classify_cases text)
    as [[Hz _]|(best & kws & Hb & Hs & _ & _ & Hc)].
  - specialize (Hz _ _ Hin). lia.
  - destruct (decide (best = intent)) as [->|Hne].
    + eexists. split; [exact Hc|]. unfold Qlt. cbn.
      pose proof (score_positive _ _ Hs). lia.
    + exfalso. destruct (score_positive_match text kws Hs) as (kw' & Hkw' & Hm').
      apply keyword_matches_spec in Hm'. exact (Hothers _ _ _ Hb Hne Hkw' Hm').
Qed.

Lemma single_matching_intent_wins_witness :
  exists confidence,
    classify "Do I OWE you" = Some (LOAN_BALANCE, confidence) /\
    (0 < confidence)%Q.
Proof.
  assert (Hothers :
    forallb (fun entry =>
               bool_decide (fst entry = LOAN_BALANCE) ||
               forallb (fun k => negb (keyword_matches k "Do I OWE you")) (snd entry))
            INTENT_KEYWORDS = true) by (vm_compute; reflexivity).
  destruct (single_matching_intent_wins "Do I OWE you" "owe" LOAN_BALANCE
              ["loan balance"; "owe"; "outstanding"; "debt"; "loan amount"])
    as (c & Hc & Hpos).
  - cbn. auto 10.
  - cbn. auto.
  - apply keyword_matches_spec. vm_compute. reflexivity.
  - intros other kws kw Hin Hne Hkw Hocc.
    apply keyword_matches_spec in Hocc.
    rewrite forallb_forall in Hothers. specialize (Hothers _ Hin).
    cbn [fst snd] in Hothers. apply orb_true_iff in Hothers as [Ho|Ho].
    + apply bool_decide_eq_true_1 in Ho. contradiction.
    + rewrite forallb_forall in Ho. specialize (Ho _ Hkw).
      rewrite Hocc in Ho. discriminate Ho.
  - exists c. split; [exact Hc | exact Hpos].
Defined.

Lemma classify_never_general_help (text : string) (confidence : Q) :
  classify text <> Some (GENERAL_HELP, confidence).
Proof.
  intros Hc.
  destruct (classify_cases text) as [[_ H]|(best & kws & Hin & _ & _ & _ & H)];
    rewrite Hc in H; [discriminate H|].
  injection H as <- _. cbn in Hin. intuition discriminate.
Qed.

End ClassifierShape.

Section GeneralHelp.

Import Conversation Flow.

(** X15.  The general help menu of the response handler is never returned
    by [process_message]: the classifier has no keyword for that intent,
    and no other path produces the text. *)
Theorem general_help_is_never_returned
    (customers : gmap string Config.customer)
    (s s' : ConversationSession) (m r : string) :
  process_message customers s m = Some (r, s') ->
  r <> ResponseHandler._format_general_help.
Proof.
  intros Hpm Heq. apply (f_equal (String.get 0)) in Heq.
  change (String.get 0 ResponseHandler._format_general_help)
    with (Some "H"%char) in Heq.
  destruct (pending_intent s) as [p|] eqn:Hp;
    [destruct (verified_customer_id s) as [v|] eqn:Hv|].
  2:{ destruct (process_message_awaiting customers s m)
        as (s1 & Hpm1 & _); [split; congruence|].
      rewrite Hpm in Hpm1. injection Hpm1 as Hr _. rewrite Hr in Heq.
      revert Heq. unfold _handle_verification_input.
      destruct (_ <? _); [discriminate|].
      destruct (parse_verification_input _) as [[n d] i].
      destruct (any_missing n d i); [discriminate|].
      destruct (CustomerDataManager.verify_customer _ _ _ _) as [[] result];
        cbn [negb fst]; [discriminate|].
      destruct (0 <? _); discriminate. }
  all: destruct (process_message_classified customers s m)
         as (intent & c & Hcl & Hpm2); [(now left) || (right; congruence)|];
       cbn zeta in Hpm2; rewrite Hpm in Hpm2;
       destruct (decide (intent = UNKNOWN));
         [injection Hpm2 as -> _; discriminate Heq|];
       destruct (_ && _); injection Hpm2 as Hr _; rewrite Hr in Heq;
         [discriminate Heq|];
       revert Heq; unfold validated; destruct (fst _); [|discriminate];
       unfold ResponseHandler.handle_query;
       destruct (IntentClassifier.is_sensitive_query intent) eqn:Hs;
         [destruct (verified_customer_id s) as [[|x cid]|];
            try discriminate;
            destruct intent; try discriminate Hs; discriminate|];
       destruct intent; try discriminate;
       exfalso; eapply classify_never_general_help, Hcl.
Qed.

Lemma general_help_is_never_returned_witness :
  ResponseHandler._format_service_items <> ResponseHandler._format_general_help.
Proof.
  apply (general_help_is_never_returned Config.CUSTOMERS new_session
           (set_conversation_history
              [ {| user := "help"; assistant := Some ResponseHandler._format_service_items |} ]
              new_session) "help").
  vm_compute. reflexivity.
Defined.

End GeneralHelp.

(** ** Request validation, redaction and streaming *)

Section SessionIds.

Import Re More RequestValidator.

Lemma length_append (a b : string) :
  String.length (a +:+ b) = (String.length a + String.length b)%nat.
Proof.
  induction a as [|x a IH]; cbn [String.append String.length];
    [reflexivity | now rewrite IH].
Qed.

Lemma run_times_cls (A : Type) (icase : bool) (p : ascii -> bool) (n : nat)
    (prev : option ascii) (s : string) (cap : option string) (k : cont A)
    (a : A) :
  run A icase (times n (Cls p)) prev s cap k = Some a <->
  exists h t,
    s = h +:+ t /\ String.length h = n /\ all_chars p h = true /\
    k (last_of prev h) t cap = Some a.
Proof.
  revert prev s. induction n as [|n IH]; intros prev s; cbn [times run].
  - split.
    + intros Hk. exists "", s. repeat split; assumption.
    + intros (h & t & -> & Hl & _ & Hk). destruct h; [exact Hk | discriminate Hl].
  - destruct s as [|x s].
    + split; [discriminate|].
      intros (h & t & Hs & Hl & _). destruct h; discriminate.
    + destruct (p x) eqn:Hp.
      * rewrite IH. split.
        -- intros (h & t & -> & Hl & Hall & Hk). exists (String x h), t.
           cbn [String.append String.length all_chars last_of].
           rewrite Hp, Hl, Hall. repeat split; assumption.
        -- intros (h & t & Hs & Hl & Hall & Hk).
           destruct h as [|y h]; [discriminate Hl|].
           cbn [String.append] in Hs. injection Hs as <- ->.
           cbn [String.length all_chars last_of] in Hl, Hall, Hk.
           injection Hl as Hl. apply andb_true_iff in Hall as [_ Hall].
           exists h, t. repeat split; assumption.
      * split; [discriminate|].
        intros (h & t & Hs & Hl & Hall & _).
        destruct h as [|y h]; [discriminate Hl|].
        cbn [String.append] in Hs. injection Hs as <- ->.
        cbn [all_chars] in Hall. rewrite Hp in Hall. discriminate Hall.
Qed.

Lemma run_lit_char (A : Type) (c : ascii) (prev : option ascii) (s : string)
    (cap : option string) (k : cont A) (a : A) :
  run A false (Lit c) prev s cap k = Some a <->
  exists t, s = String c t /\ k (Some c) t cap = Some a.
Proof.
  cbn [run same_char]. destruct s as [|x s].
  - split; [discriminate | intros (t & Hs & _); discriminate Hs].
  - destruct (Ascii.eqb c x) eqn:E.
    + apply Ascii.eqb_eq in E. subst x. split.
      * intros Hk. exists s. split; [reflexivity | exact Hk].
      * intros (t & Hs & Hk). injection Hs as ->. exact Hk.
    + split; [discriminate|]. intros (t & Hs & _). injection Hs as <- _.
      rewrite Ascii.eqb_refl in E. discriminate E.
Qed.

Lemma at_end_spec (s : string) : at_end s = true <-> s = "" \/ s = Py.nl.
Proof.
  destruct s as [|c [|d s]]; cbn [at_end].
  - split; [now left | reflexivity].
  - split.
    + intros E. apply Ascii.eqb_eq in E. subst c. now right.
    + intros [H|H]; [discriminate H|]. injection H as ->. apply Ascii.eqb_refl.
  - split; [discriminate | intros [H|H]; discriminate H].
Qed.

Lemma run_eos (prev : option ascii) (s : string) (cap a : option string) :
  run match_object false Eos prev s cap accept = Some a <->
  (s = "" \/ s = Py.nl) /\ a = cap.
Proof.
  cbn [run]. destruct (at_end s) eqn:E.
  - apply at_end_spec in E. unfold accept. split.
    + intros H. injection H as <-. split; [exact E | reflexivity].
    + intros [_ ->]. reflexivity.
  - split; [discriminate|]. intros [H _]. apply at_end_spec in H. congruence.
Qed.

Lemma is_match_Some (o : option match_object) :
  is_match o = true <-> exists a, o = Some a.
Proof.
  destruct o as [m|]; cbn [is_match]; split.
  - intros _. exists m. reflexivity.
  - reflexivity.
  - discriminate.
  - intros [a Ha]. discriminate Ha.
Qed.

Lemma hex_string_spec (n : nat) (h : string) :
  hex_string n h = true <->
  String.length h = n /\ all_chars is_hex h = true.
Proof.
  unfold hex_string. rewrite andb_true_iff, Nat.eqb_eq. reflexivity.
Qed.

Lemma run_cat (A : Type) (icase : bool) (r1 r2 : regex) (prev : option ascii)
    (s : string) (cap : option string) (k : cont A) :
  run A icase (Cat r1 r2) prev s cap k =
  run A icase r1 prev s cap (fun prev' s' cap' => run A icase r2 prev' s' cap' k).
Proof. reflexivity. Qed.

Lemma run_bos (A : Type) (icase : bool) (s : string) (cap : option string)
    (k : cont A) :
  run A icase Bos None s cap k = k None s cap.
Proof. reflexivity. Qed.

Lemma session_id_pattern_matches (s : string) :
  is_match (re_match false SESSION_ID_PATTERN s) = true <->
  exists a b c d e tail,
    hex_string 8 a = true /\ hex_string 4 b = true /\
    hex_string 4 c = true /\ hex_string 4 d = true /\
    hex_string 12 e = true /\ (tail = "" \/ tail = Py.nl) /\
    s = a +:+ "-" +:+ b +:+ "-" +:+ c +:+ "-" +:+ d +:+ "-" +:+ e +:+ tail.
Proof.
  rewrite is_match_Some. unfold re_match, SESSION_ID_PATTERN.
  rewrite run_cat, run_bos, run_cat. split.
  - intros (m & Hrun).
    apply run_times_cls in Hrun as (a & t1 & -> & Ha1 & Ha2 & Hrun).
    rewrite run_cat in Hrun. apply run_lit_char in Hrun as (t2 & -> & Hrun).
    rewrite run_cat in Hrun.
    apply run_times_cls in Hrun as (b & t3 & -> & Hb1 & Hb2 & Hrun).
    rewrite run_cat in Hrun. apply run_lit_char in Hrun as (t4 & -> & Hrun).
    rewrite run_cat in Hrun.
    apply run_times_cls in Hrun as (c & t5 & -> & Hc1 & Hc2 & Hrun).
    rewrite run_cat in Hrun. apply run_lit_char in Hrun as (t6 & -> & Hrun).
    rewrite run_cat in Hrun.
    apply run_times_cls in Hrun as (d & t7 & -> & Hd1 & Hd2 & Hrun).
    rewrite run_cat in Hrun. apply run_lit_char in Hrun as (t8 & -> & Hrun).
    rewrite run_cat in Hrun.
    apply run_times_cls in Hrun as (e & tail & -> & He1 & He2 & Hrun).
    apply run_eos in Hrun as [Htail _].
    exists a, b, c, d, e, tail.
    rewrite !hex_string_spec. repeat split; assumption.
  - intros (a & b & c & d & e & tail & Ha & Hb & Hc & Hd & He & Htail & ->).
    apply hex_string_spec in Ha as [Ha1 Ha2], Hb as [Hb1 Hb2],
      Hc as [Hc1 Hc2], Hd as [Hd1 Hd2], He as [He1 He2].
    exists None.
    apply run_times_cls. eexists a, _. repeat split; [assumption..|].
    rewrite run_cat. apply run_lit_char. eexists. split; [reflexivity|].
    rewrite run_cat.
    apply run_times_cls. eexists b, _. repeat split; [assumption..|].
    rewrite run_cat. apply run_lit_char. eexists. split; [reflexivity|].
    rewrite run_cat.
    apply run_times_cls. eexists c, _. repeat split; [assumption..|].
    rewrite run_cat. apply run_lit_char. eexists. split; [reflexivity|].
    rewrite run_cat.
    apply run_times_cls. eexists d, _. repeat split; [assumption..|].
    rewrite run_cat. apply run_lit_char. eexists. split; [reflexivity|].
    rewrite run_cat.
    apply run_times_cls. eexists e, _. repeat split; [assumption..|].
    apply run_eos. split; [assumption | reflexivity].
Qed.

(** X16.  [validate_session_id] accepts exactly the texts of the form
    8-4-4-4-12 in the characters [a-f0-9], and the same texts followed by
    one newline, which the [$] of the pattern lets through. *)
Theorem validate_session_id_accepts_iff (session_id : string) :
  validate_session_id (Some session_id) = (true, None) <->
  exists a b c d e,
    hex_string 8 a = true /\ hex_string 4 b = true /\
    hex_string 4 c = true /\ hex_string 4 d = true /\
    hex_string 12 e = true /\
    let strict := a +:+ "-" +:+ b +:+ "-" +:+ c +:+ "-" +:+ d +:+ "-" +:+ e in
    session_id = strict \/ session_id = strict +:+ Py.nl.
Proof.
  cbn zeta. split.
  - unfold validate_session_id.
    destruct (negb (Py.truthy (Some session_id))); [discriminate|].
    change (default "" (Some session_id)) with session_id.
    destruct (MAX_SESSION_ID_LENGTH <? Py.len session_id); [discriminate|].
    destruct (is_match _) eqn:Hm; [|discriminate]. intros _.
    apply session_id_pattern_matches in Hm
      as (a & b & c & d & e & tail & Ha & Hb & Hc & Hd & He & Htail & ->).
    exists a, b, c, d, e. repeat (split; [assumption|]).
    destruct Htail as [-> | ->].
    + left. now rewrite append_empty_r.
    + right. now rewrite <- !append_assoc.
  - intros (a & b & c & d & e & Ha & Hb & Hc & Hd & He & Hs).
    assert (Hm : is_match (re_match false SESSION_ID_PATTERN session_id) = true).
    { apply session_id_pattern_matches.
      destruct Hs as [-> | ->].
      - exists a, b, c, d, e, "". rewrite append_empty_r. auto 10.
      - exists a, b, c, d, e, Py.nl. rewrite <- !append_assoc. auto 10. }
    apply hex_string_spec in Ha as [Ha _], Hb as [Hb _], Hc as [Hc _],
      Hd as [Hd _], He as [He _].
    assert (Hlen : (36 <= String.length session_id <= 37)%nat).
    { destruct Hs as [-> | ->]; rewrite !length_append, Ha, Hb, Hc, Hd, He;
        cbn [String.length Py.nl]; lia. }
    unfold validate_session_id.
    destruct session_id as [|x rest]; [cbn in Hlen; lia|].
    cbn [Py.truthy negb].
    change (default "" (Some (String x rest))) with (String x rest).
    rewrite Hm. cbn [negb].
    destruct (Z.ltb_spec MAX_SESSION_ID_LENGTH (Py.len (String x rest)))
      as [Hlong|_]; [|reflexivity].
    unfold MAX_SESSION_ID_LENGTH, Py.len in Hlong. lia.
Qed.

End SessionIds.

Section Streaming.

Import App.

Variable char : Type.

Lemma firstn_add_skipn (a b : nat) (l : list char) :
  firstn a l ++ firstn b (skipn a l) = firstn (a + b) l.
Proof.
  revert l. induction a as [|a IH]; intros l; [reflexivity|].
  destruct l as [|x l]; cbn [firstn skipn Nat.add app].
  - now rewrite List.firstn_nil.
  - now rewrite IH.
Qed.

Lemma concat_slices (k m : nat) (l : list char) :
  concat (map (fun j => firstn k (skipn (j * k) l)) (seq 0 m)) =
  firstn (m * k) l.
Proof.
  induction m as [|m IH]; [reflexivity|].
  rewrite List.seq_S, List.map_app, List.concat_app, IH. cbn [map concat Nat.add].
  rewrite List.app_nil_r, firstn_add_skipn. f_equal. lia.
Qed.

Lemma slice_chunk (i : nat) (text : list char) :
  slice i (i + chunk_size) text = firstn chunk_size (skipn i text).
Proof. unfold slice. f_equal. lia. Qed.

Lemma chunk_count_bounds (n : nat) :
  let m := ((n + chunk_size - 1) / chunk_size)%nat in
  (n <= m * chunk_size /\ (forall j, j < m -> j * chunk_size < n))%nat.
Proof.
  cbn zeta. unfold chunk_size.
  pose proof (Nat.div_mod_eq (n + 20 - 1) 20) as Hd.
  pose proof (Nat.mod_upper_bound (n + 20 - 1) 20) as Hm.
  split; [lia | intros j Hj; nia].
Qed.

(** X17.  [stream_response] loses nothing: the chunks it yields, in order,
    concatenate to the text; there is one chunk for every twenty
    characters begun, none is empty, all but the last have twenty
    characters, and the event that ends the stream comes last. *)
Theorem stream_response_round_trip (text : list char) :
  exists chunks,
    stream_response text = map Text chunks ++ [Done] /\
    concat chunks = text /\
    List.length chunks = ((List.length text + 19) / 20)%nat /\
    Forall (fun chunk => (1 <= List.length chunk <= 20)%nat) chunks /\
    (forall i, (S i < List.length chunks)%nat ->
               List.length (nth i chunks []) = 20%nat).
Proof.
  set (n := List.length text).
  set (m := ((n + chunk_size - 1) / chunk_size)%nat).
  destruct (chunk_count_bounds n) as [Hcover Hinside]. fold m in Hcover, Hinside.
  exists (map (fun j => firstn chunk_size (skipn (j * chunk_size) text)) (seq 0 m)).
  split; [|split; [|split; [|split]]].
  - unfold stream_response, range_step. fold n m. f_equal.
    rewrite !map_map. apply List.map_ext. intros j. now rewrite slice_chunk.
  - rewrite concat_slices. apply List.firstn_all2. fold n. exact Hcover.
  - rewrite List.length_map, List.length_seq. unfold m, chunk_size. f_equal. lia.
  - apply List.Forall_forall. intros chunk Hin.
    apply List.in_map_iff in Hin as (j & <- & Hj). apply List.in_seq in Hj.
    specialize (Hinside j ltac:(lia)).
    rewrite List.length_firstn, List.length_skipn. fold n. unfold chunk_size in *. lia.
  - intros i Hi. rewrite List.length_map, List.length_seq in Hi.
    rewrite (List.nth_indep _ [] (firstn chunk_size (skipn (0 * chunk_size) text)))
      by (rewrite List.length_map, List.length_seq; lia).
    rewrite (List.map_nth (fun j => firstn chunk_size (skipn (j * chunk_size) text))).
    rewrite List.seq_nth by lia. cbn [Nat.add].
    rewrite List.length_firstn, List.length_skipn. fold n.
    specialize (Hinside (S i) Hi). unfold chunk_size in *. lia.
Qed.

End Streaming.

Section Redaction.

Import Slice AuditLogger.

Lemma substring_0_0 (s : string) : String.substring 0 0 s = "".
Proof. destruct s; reflexivity. Qed.

(** X18.  What [_redact_id] writes to the audit log tells two customer
    identifiers apart only by their first two and last two characters:
    identifiers of fewer than four characters all give the same text, and
    two longer ones give the same text exactly when those characters
    agree. *)
Theorem redact_id_shows_only_the_ends (a b : string) :
  _redact_id a = _redact_id b <->
  (Py.len a < 4 /\ Py.len b < 4) \/
  (4 <= Py.len a /\ 4 <= Py.len b /\
   take 2 a = take 2 b /\ take_last 2 a = take_last 2 b).
Proof.
  unfold _redact_id.
  assert (Hshort : forall s, negb (Py.truthy (Some s)) || (Py.len s <? 4) =
                             (Py.len s <? 4)).
  { intros [|x s]; [reflexivity|]. reflexivity. }
  rewrite !Hshort.
  destruct (Z.ltb_spec (Py.len a) 4) as [Ha|Ha],
           (Z.ltb_spec (Py.len b) 4) as [Hb|Hb].
  - split; [intros _; left; split; assumption | reflexivity].
  - split; [|intros [[_ H]|[H _]]; lia].
    destruct b as [|b1 [|b2 b]]; [unfold Py.len in Hb; cbn in Hb; lia..|].
    unfold take. cbn [String.substring]. rewrite !substring_0_0.
    cbn [String.append].
    intros H. injection H as _ _ H. discriminate H.
  - split; [|intros [[H _]|[_ [H _]]]; lia].
    destruct a as [|a1 [|a2 a]]; [unfold Py.len in Ha; cbn in Ha; lia..|].
    unfold take. cbn [String.substring]. rewrite !substring_0_0.
    cbn [String.append].
    intros H. injection H as _ _ H. discriminate H.
  - destruct a as [|a1 [|a2 a]]; [unfold Py.len in Ha; cbn in Ha; lia..|].
    destruct b as [|b1 [|b2 b]]; [unfold Py.len in Hb; cbn in Hb; lia..|].
    unfold take. cbn [String.substring]. rewrite !substring_0_0.
    cbn [String.append]. split.
    + intros H. injection H as -> -> H. right. repeat split; assumption.
    + intros [[H _]|(_ & _ & H1 & H2)]; [lia|].
      injection H1 as -> ->. now rewrite H2.
Qed.

(** X19.  [_redact_session], and its copy [redact_session_id] in the
    application, tell two session identifiers apart only by their first
    four and last four characters; identifiers of fewer than eight
    characters all give the same text. *)
Theorem redact_session_shows_only_the_ends (a b : string) :
  App.redact_session_id a = _redact_session a /\
  (_redact_session a = _redact_session b <->
   (Py.len a < 8 /\ Py.len b < 8) \/
   (8 <= Py.len a /\ 8 <= Py.len b /\
    take 4 a = take 4 b /\ take_last 4 a = take_last 4 b)).
Proof.
  split; [reflexivity|]. unfold _redact_session.
  assert (Hshort : forall s, negb (Py.truthy (Some s)) || (Py.len s <? 8) =
                             (Py.len s <? 8)).
  { intros [|x s]; [reflexivity|]. reflexivity. }
  rewrite !Hshort.
  destruct (Z.ltb_spec (Py.len a) 8) as [Ha|Ha],
           (Z.ltb_spec (Py.len b) 8) as [Hb|Hb].
  - split; [intros _; left; split; assumption | reflexivity].
  - split; [|intros [[_ H]|[H _]]; lia].
    destruct b as [|b1 [|b2 [|b3 [|b4 b]]]]; [unfold Py.len in Hb; cbn in Hb; lia..|].
    unfold take. cbn [String.substring]. rewrite !substring_0_0.
    cbn [String.append].
    intros H. injection H as _ _ _ _ H. discriminate H.
  - split; [|intros [[H _]|[_ [H _]]]; lia].
    destruct a as [|a1 [|a2 [|a3 [|a4 a]]]]; [unfold Py.len in Ha; cbn in Ha; lia..|].
    unfold take. cbn [String.substring]. rewrite !substring_0_0.
    cbn [String.append].
    intros H. injection H as _ _ _ _ H. discriminate H.
  - destruct a as [|a1 [|a2 [|a3 [|a4 a]]]]; [unfold Py.len in Ha; cbn in Ha; lia..|].
    destruct b as [|b1 [|b2 [|b3 [|b4 b]]]]; [unfold Py.len in Hb; cbn in Hb; lia..|].
    unfold take. cbn [String.substring]. rewrite !substring_0_0.
    cbn [String.append]. split.
    + intros H. injection H as -> -> -> -> H. right. repeat split; assumption.
    + intros [[H _]|(_ & _ & H1 & H2)]; [lia|].
      injection H1 as -> -> -> ->. now rewrite H2.
Qed.

End Redaction.

Section Categories.

Import IntentCategory.

(** X20.  The category names of [get_intent_category] agree with
    [is_sensitive_query]: a name starts with "Sensitive - " exactly for
    the intents that need verification, and no two intents share a
    name. *)
Theorem categories_mark_the_sensitive_intents (intent other : Intent) :
  Py.startswith "Sensitive - " (get_intent_category intent) =
    IntentClassifier.is_sensitive_query intent /\
  (get_intent_category intent = get_intent_category other -> intent = other).
Proof.
  split; [destruct intent; reflexivity|].
  destruct intent, other; first [reflexivity | discriminate].
Qed.

End Categories.

(** ** The chat route *)

Section ChatRoute.

Import Conversation Flow App.

Variable customers : gmap string Config.customer.

Lemma lstrip_blank (s : string) : blank s = true -> Py.lstrip s = "".
Proof.
  induction s as [|c s IH]; [reflexivity|]. cbn [blank Py.lstrip].
  intros [Hc Hs]%andb_true_iff. rewrite Hc. auto.
Qed.

Lemma rstrip_blank (s : string) : blank s = true -> Py.rstrip s = "".
Proof.
  induction s as [|c s IH]; [reflexivity|]. cbn [blank Py.rstrip].
  intros [Hc Hs]%andb_true_iff. rewrite (IH Hs), Hc. reflexivity.
Qed.

Lemma rstrip_append_blank (s after : string) :
  blank after = true -> Py.rstrip (s +:+ after) = Py.rstrip s.
Proof.
  intros Hb. induction s as [|c s IH]; cbn [String.append].
  - now apply rstrip_blank.
  - cbn [Py.rstrip]. now rewrite IH.
Qed.

Lemma strip_append_blank (s after : string) :
  blank after = true -> Py.strip (s +:+ after) = Py.strip s.
Proof.
  intros Hb. unfold Py.strip. induction s as [|c s IH]; cbn [String.append].
  - now rewrite (lstrip_blank after Hb).
  - cbn [Py.lstrip]. destruct (Py.isspace c); [exact IH|].
    now apply (rstrip_append_blank (String c s)).
Qed.

Lemma strip_blank_append (before s : string) :
  blank before = true -> Py.strip (before +:+ s) = Py.strip s.
Proof.
  unfold Py.strip. induction before as [|c b IH]; [reflexivity|].
  cbn [blank String.append Py.lstrip]. intros [Hc Hb]%andb_true_iff.
  rewrite Hc. auto.
Qed.

Lemma strip_surrounded (before s after : string) :
  blank before = true -> blank after = true ->
  Py.strip (before +:+ s +:+ after) = Py.strip s.
Proof.
  intros Hb Ha. rewrite strip_blank_append by assumption.
  now apply strip_append_blank.
Qed.

(** X21.  Blanks around a message change nothing: the session and the
    route answer a message with leading and trailing white space as they
    answer the message itself, and leave the same session. *)
Theorem surrounding_blanks_are_ignored
    (s : ConversationSession) (before m after : string) :
  blank before = true -> blank after = true ->
  process_message customers s (before +:+ m +:+ after) =
    process_message customers s m /\
  chat customers s (before +:+ m +:+ after) = chat customers s m.
Proof.
  intros Hb Ha. pose proof (strip_surrounded before m after Hb Ha) as Hs.
  split.
  - unfold process_message, Security.sanitize_input. now rewrite Hs.
  - unfold chat. now rewrite Hs.
Qed.

(** X22.  The route turns a blank message away before the session sees
    it: the answer is status 400 with "Message is required" and the
    session is unchanged, so no verification attempt is counted. *)
Theorem chat_rejects_blank_messages (s : ConversationSession) (m : string) :
  blank m = true ->
  chat customers s m = (BadRequest "Message is required", s).
Proof.
  intros Hb. unfold chat, Py.strip.
  rewrite (lstrip_blank m Hb). reflexivity.
Qed.

(** X23.  When the route answers with status 500 "Response validation
    failed", the message was a verification claim that succeeded: the
    session was not verified before and is verified afterwards, although
    the client is told of a failure. *)
Theorem chat_validation_failure_follows_verification
    (s s' : ConversationSession) (m : string) :
  max_verification_attempts s = 3 ->
  0 <= verification_attempts s ->
  chat customers s m = (ServerError "Response validation failed", s') ->
  verified_customer_id s = None /\
  exists customer_id, verified_customer_id s' = Some customer_id.
Proof.
  intros Hmax Hatt. unfold chat.
  destruct (RequestValidator.validate_message _) as [[] e]; cbn [negb];
    [|discriminate].
  destruct (process_message customers s (Py.strip m)) as [[r s1]|] eqn:Hpm;
    [|discriminate].
  destruct (Security.validate_response r) as [[] e'] eqn:Hval; cbn [negb];
    [discriminate|].
  intros H. injection H as <-.
  assert (Hchanged : verified_customer_id s1 <> verified_customer_id s).
  { intros Hsame.
    pose proof (stable_identity_passes customers s s1 _ r Hmax Hatt Hpm Hsame) as Hok.
    rewrite Hval in Hok. discriminate Hok. }
  destruct (verified_customer_id s) as [v|] eqn:Hv.
  - exfalso. apply Hchanged. rewrite <- Hv.
    eapply classified_keeps_identity, Hpm. right. congruence.
  - split; [reflexivity|].
    destruct (verified_customer_id s1) as [cid|]; [eauto | congruence].
Qed.

(** X24.  A session that is not verified and whose attempt counter has
    reached the maximum is never verified by any further messages: after
    every conversation it is still unverified, with the counter at or
    above the maximum. *)
Theorem exhausted_session_is_never_verified
    (messages responses : list string) (s s' : ConversationSession) :
  verified_customer_id s = None ->
  max_verification_attempts s <= verification_attempts s ->
  process_messages customers s messages = Some (responses, s') ->
  verified_customer_id s' = None /\
  max_verification_attempts s' = max_verification_attempts s /\
  max_verification_attempts s' <= verification_attempts s'.
Proof.
  revert responses s. induction messages as [|m messages IH];
    intros responses s Hv Hmax Hpm; cbn [process_messages] in Hpm.
  - injection Hpm as _ <-. auto.
  - destruct (process_message customers s m) as [[r s1]|] eqn:Hpm1;
      [|discriminate Hpm].
    cbn [mbind option_bind] in Hpm.
    destruct (process_messages customers s1 messages) as [[rs s2]|] eqn:Hpm2;
      [|discriminate Hpm].
    cbn [mbind option_bind] in Hpm. injection Hpm as _ <-.
    assert (Hstep : verified_customer_id s1 = None /\
                    max_verification_attempts s1 = max_verification_attempts s /\
                    verification_attempts s <= verification_attempts s1).
    { destruct (pending_intent s) as [p|] eqn:Hp.
      - destruct (attempt_over_budget customers s m) as (s1' & Hpm1' & Hc);
          [split; congruence | lia |].
        rewrite Hpm1 in Hpm1'. injection Hpm1' as _ <-.
        apply control_fields in Hc as (-> & -> & -> & _).
        repeat split; lia.
      - destruct (process_message_classified customers s m (or_introl Hp))
          as (intent & c & _ & Hpm1').
        cbn zeta in Hpm1'. rewrite Hpm1 in Hpm1'.
        destruct (decide (intent = UNKNOWN));
          [injection Hpm1' as _ ->; cbn; rewrite Hv; repeat split; lia|].
        destruct (_ && _); injection Hpm1' as _ ->; cbn; rewrite Hv;
          repeat split; lia. }
    destruct Hstep as (Hv1 & Hm1 & Ha1).
    destruct (IH rs s1 Hv1 ltac:(lia) Hpm2) as (Hv2 & Hm2 & Ha2).
    repeat split; [assumption | congruence | assumption].
Qed.

End ChatRoute.

Section ChatWitnesses.

Import Conversation Flow App.

Lemma surrounding_blanks_are_ignored_witness :
  process_message Config.CUSTOMERS awaiting_balance ("  " +:+ claim_stark +:+ Py.nl) =
    process_message Config.CUSTOMERS awaiting_balance claim_stark /\
  chat Config.CUSTOMERS awaiting_balance ("  " +:+ claim_stark +:+ Py.nl) =
    chat Config.CUSTOMERS awaiting_balance claim_stark.
Proof.
  apply (surrounding_blanks_are_ignored Config.CUSTOMERS awaiting_balance
           "  " claim_stark Py.nl); reflexivity.
Defined.

Lemma chat_rejects_blank_messages_witness :
  chat Config.CUSTOMERS awaiting_balance "   " =
    (BadRequest "Message is required", awaiting_balance).
Proof.
  apply (chat_rejects_blank_messages Config.CUSTOMERS awaiting_balance "   ").
  reflexivity.
Defined.

Lemma chat_validation_failure_follows_verification_witness :
  let s := set_pending_intent (Some OPENING_BRANCH) new_session in
  verified_customer_id s = None /\
  exists customer_id,
    verified_customer_id (snd (chat CUSTOMERS_pinglin s claim_stark))
      = Some customer_id.
Proof.
  cbn zeta.
  apply (chat_validation_failure_follows_verification CUSTOMERS_pinglin
           (set_pending_intent (Some OPENING_BRANCH) new_session)
           (snd (chat CUSTOMERS_pinglin
                   (set_pending_intent (Some OPENING_BRANCH) new_session)
                   claim_stark))
           claim_stark).
  - reflexivity.
  - vm_compute. discriminate.
  - vm_compute. reflexivity.
Defined.

Lemma exhausted_session_is_never_verified_witness :
  verified_customer_id
    (default new_session
       (snd <$> process_messages Config.CUSTOMERS after_lockout
                  [ask_balance; claim_stark])) = None /\
  max_verification_attempts
    (default new_session
       (snd <$> process_messages Config.CUSTOMERS after_lockout
                  [ask_balance; claim_stark]))
    = max_verification_attempts after_lockout /\
  max_verification_attempts
    (default new_session
       (snd <$> process_messages Config.CUSTOMERS after_lockout
                  [ask_balance; claim_stark]))
    <= verification_attempts
         (default new_session
            (snd <$> process_messages Config.CUSTOMERS after_lockout
                       [ask_balance; claim_stark])).
Proof.
  apply (exhausted_session_is_never_verified Config.CUSTOMERS
           [ask_balance; claim_stark]
           [verification_prompt; lockout_text]
           after_lockout).
  - vm_compute. reflexivity.
  - vm_compute. discriminate.
  - vm_compute. reflexivity.
Defined.

End ChatWitnesses.

(** ** Claims given by position *)

Section PositionalClaims.

Import Re Conversation Flow.








End PositionalClaims.
